(** * Call-centre dataset generator: a shallow embedding of [src/generator]

    The Python modules [rng], [config], [weights], [calendar], [volume],
    [features], [schema], [io] and [cli] are transcribed as Rocq functions.

    Conventions of the embedding.
    - Python [float]s are exact rationals ([Q]); binary64 rounding, infinities
      and NaN are outside the model.
    - A Python [dict] is an association list in insertion order (keys are
      pairwise distinct in every well-formed dict); the record under
      construction and the identity cache, which are only looked up, updated
      and deleted from, are [gmap]s.
    - A raised exception is the [Raise] case of [result]; code with effects
      that survive an exception (files written, cache entries) lives in the
      [run] monad, which returns the state next to the outcome.
    - BLAKE2b, [repr], [date.isoformat], the parsers behind [float(str)] /
      [int(str)] and the methods of [numpy.random.Generator] are library
      code: they are the fields of the class [Runtime]. *)

From Stdlib Require Import ZArith QArith Qround Qminmax Qabs List String Ascii Lia Lqa Bool.
From Stdlib.Strings Require Import Byte.
From stdpp Require Import base option gmap strings list fin_maps pretty.

Open Scope Z_scope.
Set Warnings "-register-all".

(* ===================================================================== *)
(** ** Python values, exceptions *)
(* ===================================================================== *)

(** Keys of configuration dicts: YAML gives strings and integers. *)
Inductive pkey :=
| KStr (s : string)
| KInt (z : Z).

Inductive pyval :=
| PNone
| PBool (b : bool)
| PInt (z : Z)
| PFloat (q : Q)
| PStr (s : string)
| PBytes (b : list byte)
| PTuple (l : list pyval)
| PList (l : list pyval)
| PDict (d : list (pkey * pyval)).

(** Exceptions.  A [ValidationError] holds the violations of the schema
    that [jsonschema] finds in a record, as pairs of a field and the keyword
    it violates; the exception that [jsonschema.validate] raises reports one
    of them, its best match. *)
Inductive pyerr :=
| OverflowError (msg : string)
| ValueError (msg : string)
| TypeError (msg : string)
| KeyError (k : pkey)
| IndexError
| AttributeError (msg : string)
| ValidationError (failures : list (string * string)).

Inductive result (A : Type) :=
| Ok (a : A)
| Raise (e : pyerr).
Arguments Ok {A} a.
Arguments Raise {A} e.

#[global] Instance result_ret : MRet result := fun A a => Ok a.
#[global] Instance result_bind : MBind result := fun A B f m =>
  match m with
  | Ok a => f a
  | Raise e => Raise e
  end.
#[global] Instance result_fmap : FMap result := fun A B f m =>
  match m with
  | Ok a => Ok (f a)
  | Raise e => Raise e
  end.

Definition is_Ok {A} (r : result A) : Prop := ∃ a, r = Ok a.

(** Monadic map over a list, left to right. *)
Fixpoint mapR {A B} (f : A → result B) (l : list A) : result (list B) :=
  match l with
  | [] => Ok []
  | x :: xs => y ← f x; ys ← mapR f xs; Ok (y :: ys)
  end.

#[global] Instance pkey_eq_dec : EqDecision pkey.
Proof. solve_decision. Defined.

Definition pkey_eqb (a b : pkey) : bool := bool_decide (a = b).

(* ===================================================================== *)
(** ** Floats as rationals: comparison, [max], [min], [round] *)
(* ===================================================================== *)

Definition Qltb (a b : Q) : bool := negb (Qle_bool b a).

(** [max(a, b)] returns [b] only when [b > a]; [min(a, b)] returns [b] only
    when [b < a]. *)
Definition py_max (a b : Q) : Q := if Qltb a b then b else a.
Definition py_min (a b : Q) : Q := if Qltb b a then b else a.
Definition py_maxZ (a b : Z) : Z := if a <? b then b else a.
Definition py_minZ (a b : Z) : Z := if b <? a then b else a.

(** [round(x)]: nearest integer, ties to the even one. *)
Definition round_half_even (x : Q) : Z :=
  let f := Qfloor x in
  let d := (x - inject_Z f)%Q in
  if Qltb d (1 # 2) then f
  else if Qltb (1 # 2) d then f + 1
  else if Z.even f then f else f + 1.

(** [round(x, nd)] for [nd >= 0]. *)
Definition py_round (x : Q) (nd : nat) : Q :=
  (inject_Z (round_half_even (x * inject_Z (10 ^ Z.of_nat nd))) / inject_Z (10 ^ Z.of_nat nd))%Q.

(** [int(x)] on a float truncates toward zero. *)
Definition Qtrunc (x : Q) : Z := Z.quot (Qnum x) (Z.pos (Qden x)).

Definition Qsum (l : list Q) : Q := fold_right Qplus 0%Q l.
Definition Zsum (l : list Z) : Z := fold_right Z.add 0 l.

(* ===================================================================== *)
(** ** dict operations on association lists *)
(* ===================================================================== *)

Section Dict.
Context {V : Type}.

(** [d.get(k)] *)
Fixpoint dict_get (d : list (pkey * V)) (k : pkey) : option V :=
  match d with
  | [] => None
  | (k', v) :: r => if pkey_eqb k' k then Some v else dict_get r k
  end.

(** [d[k] = v]: in place when the key exists, appended otherwise. *)
Fixpoint dict_set (d : list (pkey * V)) (k : pkey) (v : V) : list (pkey * V) :=
  match d with
  | [] => [(k, v)]
  | (k', v') :: r => if pkey_eqb k' k then (k', v) :: r else (k', v') :: dict_set r k v
  end.

(** [d.pop(k, None)] *)
Fixpoint dict_pop (d : list (pkey * V)) (k : pkey) : list (pkey * V) :=
  match d with
  | [] => []
  | (k', v') :: r => if pkey_eqb k' k then r else (k', v') :: dict_pop r k
  end.

(** [d[k]], raising [KeyError]. *)
Definition dict_index (d : list (pkey * V)) (k : pkey) : result V :=
  match dict_get d k with
  | Some v => Ok v
  | None => Raise (KeyError k)
  end.

Definition dict_keys (d : list (pkey * V)) : list pkey := map fst d.
Definition dict_values (d : list (pkey * V)) : list V := map snd d.

(** [{k: v for k, v in pairs}] *)
Definition dict_of_pairs (l : list (pkey * V)) : list (pkey * V) :=
  fold_left (fun d kv => dict_set d (fst kv) (snd kv)) l [].

(** Keys of a dict are pairwise distinct. *)
Definition dict_wf (d : list (pkey * V)) : Prop := NoDup (dict_keys d).
End Dict.

(** Truth value of a Python object. *)
Definition py_truthy (v : pyval) : bool :=
  match v with
  | PNone => false
  | PBool b => b
  | PInt z => negb (z =? 0)
  | PFloat q => negb (Qeq_bool q 0)
  | PStr s => negb (String.eqb s "")
  | PBytes b => negb (Nat.eqb (length b) 0)
  | PTuple l | PList l => negb (Nat.eqb (length l) 0)
  | PDict d => negb (Nat.eqb (length d) 0)
  end.

(** [a or b] *)
Definition py_or (a b : pyval) : pyval := if py_truthy a then a else b.

(* ===================================================================== *)
(** ** Library code taken as parameters *)
(* ===================================================================== *)

(** Dates are proleptic Gregorian ordinals ([date.toordinal()]). *)
Definition pydate := Z.

Class Runtime := {
  (** state of a [numpy.random.Generator] *)
  Gen : Type;
  (** [hashlib.blake2b(data, digest_size=8).digest()] *)
  blake2b_8 : list byte → list byte;
  (** [repr(v).encode("utf-8")] *)
  repr_utf8 : pyval → list byte;
  (** [d.isoformat()] and [str(d)] of a date *)
  isoformat : pydate → string;
  (** [date.fromisoformat(s)]; [None] is a [ValueError] *)
  fromisoformat : string → option pydate;
  (** [float(s)] and [int(s)] on a string; [None] is a [ValueError] *)
  float_of_str : string → option Q;
  int_of_str : string → option Z;
  (** [np.random.default_rng(seed)] for a non-negative seed *)
  default_rng : Z → Gen;
  (** [r.random()] *)
  gen_random : Gen → Q * Gen;
  (** [r.normal(mean, sigma)] for [sigma >= 0] *)
  gen_normal : Q → Q → Gen → Q * Gen;
  (** [r.uniform(lo, hi)] *)
  gen_uniform : Q → Q → Gen → Q * Gen;
  (** [r.integers(lo, hi)] for [lo < hi] *)
  gen_integers : Z → Z → Gen → Z * Gen;
  (** [r.integers(lo, hi, size=n)] *)
  gen_integers_n : Z → Z → nat → Gen → list Z * Gen;
  (** [r.bytes(n)] *)
  gen_bytes : nat → Gen → list byte * Gen;
  (** the index drawn by [r.choice(len(p), p=p)] for a valid [p] *)
  gen_choice : list Q → Gen → nat * Gen;
  (** [r.choice(n, size=k, replace=False)] for [k <= n] *)
  gen_choice_norepl : nat → nat → Gen → list nat * Gen;
  (** [r.multinomial(n, pvals)] for valid [pvals] *)
  gen_multinomial : Z → list Q → Gen → list Z * Gen
}.

(** What the numpy documentation promises of the draws used below. *)
Class RuntimeLaws (R : Runtime) : Prop := {
  gen_integers_range : ∀ lo hi g, lo < hi → lo ≤ (gen_integers lo hi g).1 < hi;
  gen_integers_n_length : ∀ lo hi n g, length (gen_integers_n lo hi n g).1 = n;
  gen_integers_n_range : ∀ lo hi n g, lo < hi →
    Forall (fun d => lo ≤ d < hi) (gen_integers_n lo hi n g).1;
  gen_choice_lt : ∀ p g, p ≠ [] → ((gen_choice p g).1 < length p)%nat;
  gen_multinomial_length : ∀ n p g, length (gen_multinomial n p g).1 = length p;
  gen_multinomial_nonneg : ∀ n p g, 0 ≤ n → Forall (fun c => 0 ≤ c) (gen_multinomial n p g).1;
  gen_multinomial_sum : ∀ n p g, 0 ≤ n → p ≠ [] →
    Forall (fun x => (0 <= x)%Q ∧ (x <= 1)%Q) p → Zsum (gen_multinomial n p g).1 = n
}.

(* ===================================================================== *)
(** ** Conversions [float(v)], [int(v)], [str(v)] *)
(* ===================================================================== *)

Section Conversions.
Context {R : Runtime}.

(** [float(v)] *)
Definition py_float (v : pyval) : result Q :=
  match v with
  | PBool b => Ok (if b then 1%Q else 0%Q)
  | PInt z => Ok (inject_Z z)
  | PFloat q => Ok q
  | PStr s =>
      match float_of_str s with
      | Some q => Ok q
      | None => Raise (ValueError "could not convert string to float")
      end
  | _ => Raise (TypeError "float() argument must be a string or a real number")
  end.

(** [int(v)] *)
Definition py_int (v : pyval) : result Z :=
  match v with
  | PBool b => Ok (if b then 1 else 0)
  | PInt z => Ok z
  | PFloat q => Ok (Qtrunc q)
  | PStr s =>
      match int_of_str s with
      | Some z => Ok z
      | None => Raise (ValueError "invalid literal for int()")
      end
  | _ => Raise (TypeError "int() argument must be a string or a real number")
  end.

(** A value used as a number without conversion ([max(0.0, v)], [v + x]):
    strings and containers raise [TypeError]. *)
Definition py_number (v : pyval) : result Q :=
  match v with
  | PBool b => Ok (if b then 1%Q else 0%Q)
  | PInt z => Ok (inject_Z z)
  | PFloat q => Ok q
  | _ => Raise (TypeError "unsupported operand type")
  end.

(** [int(k)] on a dict key. *)
Definition pkey_int (k : pkey) : result Z :=
  match k with
  | KInt z => Ok z
  | KStr s => py_int (PStr s)
  end.
End Conversions.

(** A value used as a dict ([v.items()], [v.get(k)], [v.keys()]). *)
Definition as_dict (v : pyval) : result (list (pkey * pyval)) :=
  match v with
  | PDict d => Ok d
  | _ => Raise (AttributeError "object has no attribute of a dict")
  end.

(** A label read as a string.  The tables of labels are annotated
    [Dict[str, float]], the splits [Dict[str, int]] and the samplers
    [-> str]; the model keeps to these types and stops with [TypeError] at
    an integer label, which Python itself would carry on with. *)
Definition as_str (k : pkey) : result string :=
  match k with
  | KStr s => Ok s
  | KInt _ => Raise (TypeError "expected a str label")
  end.

(** A label (dict key) as the string handed on to later stages. *)
Definition pkey_label (k : pkey) : pyval :=
  match k with
  | KStr s => PStr s
  | KInt z => PInt z
  end.

(* ===================================================================== *)
(** ** numpy entry points with their argument checks *)
(* ===================================================================== *)

Section Numpy.
Context {R : Runtime}.

(** [sum(xs)] and [arr.sum()]: accumulation from 0, left to right. *)
Definition py_sum (l : list Q) : Q := fold_left Qplus l 0%Q.

(** [r.normal(mean, sigma)] *)
Definition np_normal (mean sigma : Q) (g : Gen) : result (Q * Gen) :=
  if Qltb sigma 0 then Raise (ValueError "scale < 0")
  else Ok (gen_normal mean sigma g).

(** [r.choice(n, p=p)]: the tolerance on the sum is [sqrt(eps) = 2^-26]. *)
Definition np_choice (n : nat) (p : list Q) (g : Gen) : result (nat * Gen) :=
  if Nat.eqb n 0 then Raise (ValueError "a must be greater than 0 unless no samples are taken")
  else if negb (Nat.eqb (length p) n) then Raise (ValueError "a and p must have same size")
  else if existsb (fun x => Qltb x 0) p then Raise (ValueError "probabilities are not non-negative")
  else if Qltb (1 # 67108864) (Qabs (py_sum p - 1)) then
    Raise (ValueError "probabilities do not sum to 1")
  else Ok (gen_choice p g).

(** [r.choice(n, size=k, replace=False)] *)
Definition np_choice_norepl (n k : nat) (g : Gen) : result (list nat * Gen) :=
  if Nat.ltb n k then
    Raise (ValueError "Cannot take a larger sample than population when replace is False")
  else Ok (gen_choice_norepl n k g).

Definition pvals_ok (p : Q) : bool := Qle_bool 0 p && Qle_bool p 1.

(** [r.multinomial(n, pvals)]: [n] is converted to an [int64], then [pvals]
    is checked, then the sign of [n]. *)
Definition np_multinomial (n : Z) (pvals : list Q) (g : Gen) : result (list Z * Gen) :=
  if (n <? - 2 ^ 63) || (2 ^ 63 <=? n) then
    Raise (OverflowError "Python int too large to convert to C long")
  else if Nat.eqb (length pvals) 0 then
    Raise (ValueError "pvals must have at least 1 dimension and the last dimension of pvals must be greater than 0.")
  else if negb (forallb pvals_ok pvals) then
    Raise (ValueError "pvals < 0, pvals > 1 or pvals contains NaNs")
  else if Qltb (1 + (1 # 1000000000000)) (py_sum (removelast pvals)) then
    Raise (ValueError "sum(pvals[:-1]) > 1.0")
  else if n <? 0 then Raise (ValueError "n < 0")
  else Ok (gen_multinomial n pvals g).
End Numpy.

(* ===================================================================== *)
(** ** rng.py *)
(* ===================================================================== *)

Definition byte_of_Z (z : Z) : byte :=
  match Byte.of_N (Z.to_N (z mod 256)) with
  | Some b => b
  | None => x00
  end.

Definition Z_of_byte (b : byte) : Z := Z.of_N (Byte.to_N b).

(** [n.to_bytes(8, "big", signed=False)] *)
Definition to_bytes8 (n : Z) : result (list byte) :=
  if n <? 0 then Raise (OverflowError "can't convert negative int to unsigned")
  else if 2 ^ 64 <=? n then Raise (OverflowError "int too big to convert")
  else Ok (map (fun i => byte_of_Z (Z.shiftr n (8 * i))) [7; 6; 5; 4; 3; 2; 1; 0]).

(** [int.from_bytes(b, byteorder="big", signed=False)] *)
Definition from_bytes_big (b : list byte) : Z :=
  fold_left (fun acc x => acc * 256 + Z_of_byte x) b 0.

Definition hex_digit (z : Z) : ascii :=
  match z with
  | 0 => "0" | 1 => "1" | 2 => "2" | 3 => "3" | 4 => "4" | 5 => "5" | 6 => "6" | 7 => "7"
  | 8 => "8" | 9 => "9" | 10 => "a" | 11 => "b" | 12 => "c" | 13 => "d" | 14 => "e" | _ => "f"
  end%char.

Fixpoint hex_of_bytes (b : list Z) : string :=
  match b with
  | [] => ""
  | x :: r => String (hex_digit (x / 16)) (String (hex_digit (x mod 16)) (hex_of_bytes r))
  end.

(** [str(uuid.UUID(bytes=b))] for 16 bytes: groups of 8-4-4-4-12 hex digits. *)
Definition uuid_str (b : list Z) : string :=
  hex_of_bytes (take 4 b) +:+ "-" +:+ hex_of_bytes (take 2 (drop 4 b)) +:+ "-" +:+
  hex_of_bytes (take 2 (drop 6 b)) +:+ "-" +:+ hex_of_bytes (take 2 (drop 8 b)) +:+ "-" +:+
  hex_of_bytes (drop 10 b).

Module rng.
Section Rng.
Context {R : Runtime}.

Record DeterministicRNG := { global_seed : Z; _root : Gen }.

(** [DeterministicRNG(global_seed)]: [default_rng] rejects a negative seed. *)
Definition DeterministicRNG_init (seed : Z) : result DeterministicRNG :=
  if seed <? 0 then Raise (ValueError "expected non-negative integer")
  else Ok {| global_seed := seed; _root := default_rng seed |}.

Definition _hash_to_uint64 (data : list byte) : Z :=
  from_bytes_big (blake2b_8 data).

Definition seed_for (self : DeterministicRNG) (key : pyval) : result Gen :=
  let data := match key with PBytes b => b | _ => repr_utf8 key end in
  sb ← to_bytes8 (global_seed self);
  let combined := sb ++ data in
  let seed_int := _hash_to_uint64 combined in
  Ok (default_rng seed_int).

(** Weight tables after their values have been read as numbers. *)
Definition weights_of (d : list (pkey * pyval)) : result (list (pkey * Q)) :=
  mapR (fun kv => q ← py_number kv.2; Ok (kv.1, q)) d.

Definition normalize (weights : list (pkey * Q)) : list (pkey * Q) :=
  let total := py_sum (map (fun kv => py_max 0 kv.2) weights) in
  if Qle_bool total 0 then
    let n := if Nat.eqb (length weights) 0 then 1%nat else length weights in
    map (fun kv => (kv.1, 1 / inject_Z (Z.of_nat n))%Q) weights
  else map (fun kv => (kv.1, py_max 0 kv.2 / total)%Q) weights.

(** The generator a method draws from: [rng or self._root]. *)
Definition rng_or_root (self : DeterministicRNG) (rng : option Gen) : Gen :=
  match rng with
  | Some r => r
  | None => _root self
  end.

Definition choice_weighted (self : DeterministicRNG) (items : list string) (weights : list Q)
    (rng : option Gen) : result (string * Gen) :=
  let r := rng_or_root self rng in
  '(idx, r') ← np_choice (length items) weights r;
  match items !! idx with
  | Some it => Ok (it, r')
  | None => Raise IndexError
  end.

(** Returns the dict and the advanced state of the generator it drew from. *)
Definition multinomial_split (self : DeterministicRNG) (total : Z)
    (ratios : list (pkey * pyval)) (rng : option Gen) : result (list (pkey * Z) * Gen) :=
  let r := rng_or_root self rng in
  let keys := dict_keys ratios in
  probs ← mapR py_float (dict_values ratios);
  let probs :=
    if Qle_bool (py_sum probs) 0
    then map (fun _ => (1 / inject_Z (Z.of_nat (length probs)))%Q) probs
    else probs in
  '(draws, r') ←
    (if 0 <? total
     then np_multinomial total (map (fun p => (p / py_sum probs)%Q) probs) r
     else Ok (map (fun _ => 0) probs, r));
  Ok (zip keys draws, r').

Definition uuid4_deterministic (self : DeterministicRNG) (rng : option Gen)
    : result (string * Gen) :=
  let r := rng_or_root self rng in
  let '(bs, r') := gen_bytes 16 r in
  let b := map Z_of_byte bs in
  match b !! 6%nat, b !! 8%nat with
  | Some b6, Some b8 =>
      let b := <[6%nat := Z.lor (Z.land b6 15) 64]> b in
      let b := <[8%nat := Z.lor (Z.land b8 63) 128]> b in
      if Nat.eqb (length b) 16 then Ok (uuid_str b, r')
      else Raise (ValueError "bytes is not a 16-char string")
  | _, _ => Raise IndexError
  end.
End Rng.
End rng.
Export rng.

(* ===================================================================== *)
(** ** config.py *)
(* ===================================================================== *)

Module config.

Record EffectiveConfig := { data : pyval }.

(** [s.split(sep)] for a one-character separator. *)
Fixpoint split_on (sep : ascii) (s : string) : list string :=
  match s with
  | EmptyString => [EmptyString]
  | String c r =>
      match split_on sep r with
      | [] => [String c EmptyString]
      | h :: t => if Ascii.eqb c sep then EmptyString :: h :: t else String c h :: t
      end
  end.

Fixpoint get_parts (node : pyval) (parts : list string) (default : pyval) : pyval :=
  match parts with
  | [] => node
  | part :: rest =>
      match node with
      | PDict d =>
          match dict_get d (KStr part) with
          | Some v => get_parts v rest default
          | None => default
          end
      | _ => default
      end
  end.

Definition get (cfg : EffectiveConfig) (path : string) (default : pyval) : pyval :=
  get_parts (data cfg) (split_on "." path) default.

End config.
Export config.

(** [v.get(k, default)] on a value that must be a dict. *)
Definition py_get (v : pyval) (k : pkey) (default : pyval) : result pyval :=
  d ← as_dict v;
  Ok (match dict_get d k with Some x => x | None => default end).

(* ===================================================================== *)
(** ** features.py: the per-call context *)
(* ===================================================================== *)

(** The dataclass [Context].  Its [call_rng] is a mutable generator: the
    samplers below take its state as an argument and return the advanced
    state.  [intent] is the attribute [cli] attaches after sampling it. *)
Record Context := {
  date : pydate;
  weekday : string;
  time_of_day_bucket : string;
  agent_name : string;
  team : string;
  agent_shift : string;
  customer_segment : string;
  channel : string;
  region : string;
  language : string;
  device_type : string;
  outage_flag : bool;
  app_issue_flag : bool;
  premium_wait_peak : bool;
  hour_lt_18 : bool;
  intent : option string
}.

(** Attribute assignments on a context. *)
Definition set_customer_segment (ctx : Context) (v : string) : Context :=
  {| date := date ctx; weekday := weekday ctx; time_of_day_bucket := time_of_day_bucket ctx;
     agent_name := agent_name ctx; team := team ctx; agent_shift := agent_shift ctx;
     customer_segment := v; channel := channel ctx; region := region ctx;
     language := language ctx; device_type := device_type ctx;
     outage_flag := outage_flag ctx; app_issue_flag := app_issue_flag ctx;
     premium_wait_peak := premium_wait_peak ctx; hour_lt_18 := hour_lt_18 ctx;
     intent := intent ctx |}.

Definition set_channel (ctx : Context) (v : string) : Context :=
  {| date := date ctx; weekday := weekday ctx; time_of_day_bucket := time_of_day_bucket ctx;
     agent_name := agent_name ctx; team := team ctx; agent_shift := agent_shift ctx;
     customer_segment := customer_segment ctx; channel := v; region := region ctx;
     language := language ctx; device_type := device_type ctx;
     outage_flag := outage_flag ctx; app_issue_flag := app_issue_flag ctx;
     premium_wait_peak := premium_wait_peak ctx; hour_lt_18 := hour_lt_18 ctx;
     intent := intent ctx |}.

Definition set_geo (ctx : Context) (r l d : string) : Context :=
  {| date := date ctx; weekday := weekday ctx; time_of_day_bucket := time_of_day_bucket ctx;
     agent_name := agent_name ctx; team := team ctx; agent_shift := agent_shift ctx;
     customer_segment := customer_segment ctx; channel := channel ctx; region := r;
     language := l; device_type := d;
     outage_flag := outage_flag ctx; app_issue_flag := app_issue_flag ctx;
     premium_wait_peak := premium_wait_peak ctx; hour_lt_18 := hour_lt_18 ctx;
     intent := intent ctx |}.

Definition set_intent (ctx : Context) (v : string) : Context :=
  {| date := date ctx; weekday := weekday ctx; time_of_day_bucket := time_of_day_bucket ctx;
     agent_name := agent_name ctx; team := team ctx; agent_shift := agent_shift ctx;
     customer_segment := customer_segment ctx; channel := channel ctx; region := region ctx;
     language := language ctx; device_type := device_type ctx;
     outage_flag := outage_flag ctx; app_issue_flag := app_issue_flag ctx;
     premium_wait_peak := premium_wait_peak ctx; hour_lt_18 := hour_lt_18 ctx;
     intent := Some v |}.

(* ===================================================================== *)
(** ** weights.py *)
(* ===================================================================== *)

Module weights.
Section Weights.
Context {R : Runtime}.

Definition _apply_adjustments (base : list (pkey * pyval)) (adjustments : pyval)
    : result (list (pkey * pyval)) :=
  adj ← as_dict (py_or adjustments (PDict []));
  foldl (fun acc kv =>
           out ← acc;
           v ← py_float kv.2;
           old ← py_number (default (PFloat 0) (dict_get out kv.1));
           Ok (dict_set out kv.1 (PFloat (old + v))))
        (Ok base) adj.

Definition _normalize (weights : list (pkey * pyval)) : result (list (pkey * Q)) :=
  ws ← weights_of weights;
  let total := py_sum (map (fun kv => py_max 0 kv.2) ws) in
  if Qle_bool total 0 then
    let n := if Nat.eqb (length ws) 0 then 1%nat else length ws in
    Ok (map (fun kv => (kv.1, 1 / inject_Z (Z.of_nat n))%Q) ws)
  else Ok (map (fun kv => (kv.1, py_max 0 kv.2 / total)%Q) ws).

(** [dict(get(cfg, path, {}) or {})] *)
Definition base_table (cfg : EffectiveConfig) (path : string) : result (list (pkey * pyval)) :=
  as_dict (py_or (get cfg path (PDict [])) (PDict [])).

Definition intent_weights (context : Context) (cfg : EffectiveConfig)
    : result (list (pkey * Q)) :=
  w ← base_table cfg "intents.base";
  w ← _apply_adjustments w
        (get cfg ("intents.time_of_day." +:+ time_of_day_bucket context) (PDict []));
  w ← _apply_adjustments w (get cfg ("intents.agent." +:+ agent_name context) (PDict []));
  w ← _apply_adjustments w
        (get cfg ("intents.segment." +:+ customer_segment context) (PDict []));
  w ← (if outage_flag context
       then _apply_adjustments w (get cfg "intents.incident.outage" (PDict []))
       else Ok w);
  w ← (if app_issue_flag context
       then _apply_adjustments w (get cfg "intents.incident.app_issue" (PDict []))
       else Ok w);
  _normalize w.

Definition scenario_weights (context : Context) (intent : string) (cfg : EffectiveConfig)
    : result (list (pkey * Q)) :=
  w ← base_table cfg "scenarios.base";
  w ← _apply_adjustments w (get cfg ("scenarios.agent." +:+ agent_name context) (PDict []));
  w ← _apply_adjustments w (get cfg ("scenarios.intent." +:+ intent) (PDict []));
  w ← (if outage_flag context
       then _apply_adjustments w (get cfg "scenarios.incident.outage" (PDict []))
       else Ok w);
  _normalize w.

Definition channel_weights (context : Context) (cfg : EffectiveConfig)
    : result (list (pkey * Q)) :=
  w ← base_table cfg "channels.base";
  w ← _apply_adjustments w
        (get cfg ("channels.time_of_day_adjustment." +:+ time_of_day_bucket context) (PDict []));
  _normalize w.

Definition device_weights (context : Context) (cfg : EffectiveConfig)
    : result (list (pkey * Q)) :=
  w ← base_table cfg "devices.base";
  let over := get cfg ("devices.channel_overrides." +:+ channel context) (PDict []) in
  w ← _apply_adjustments w over;
  _normalize w.

Definition product_weights (context : Context) (cfg : EffectiveConfig)
    : result (list (pkey * Q)) :=
  w ← base_table cfg "products.base";
  w ← (if outage_flag context
       then _apply_adjustments w (get cfg "products.outage_adjustment" (PDict []))
       else Ok w);
  w ← (if hour_lt_18 context
       then _apply_adjustments w (get cfg "products.hour_lt_18_adjustment" (PDict []))
       else Ok w);
  _normalize w.
End Weights.
End weights.
Export weights.

(* ===================================================================== *)
(** ** calendar.py *)
(* ===================================================================== *)

(** [range(a, b)] *)
Definition py_range (a b : Z) : list Z :=
  map (fun i => a + Z.of_nat i) (seq 0 (Z.to_nat (b - a))).

Module calendar.
Section Calendar.
Context {R : Runtime}.

Definition WEEKDAYS : list string := ["Mon"; "Tue"; "Wed"; "Thu"; "Fri"; "Sat"; "Sun"]%string.

Record DayPlan := {
  date : pydate;
  weekday : string;
  is_weekend : bool;
  weekday_factor : Q;
  outage_flag : bool;
  app_issue_flag : bool;
  premium_wait_peak : bool
}.

(** [d.weekday()]: Monday is 0; ordinal 1 (0001-01-01) is a Monday. *)
Definition date_weekday (d : pydate) : Z := (d + 6) mod 7.

(** The dates [start], [start + 1], ..., [end], in order.  Ordinals are not
    bounded above in the model. *)
Definition daterange (start end_ : pydate) : list pydate :=
  py_range start (end_ + 1).

Definition select_outage_days (start end_ : pydate) (outages : Z) (rng : DeterministicRNG)
    : result (gset pydate) :=
  let weekdays := filter (fun d => date_weekday d < 5) (daterange start end_) in
  r ← seed_for rng (PTuple [PStr "outages"; PStr (isoformat start); PStr (isoformat end_)]);
  if (outages <=? 0) || Nat.eqb (length weekdays) 0 then Ok ∅
  else
    let outages := py_minZ outages (Z.of_nat (length weekdays)) in
    '(idxs, _) ← np_choice_norepl (length weekdays) (Z.to_nat outages) r;
    days ← mapR (fun i => match weekdays !! i with
                          | Some d => Ok d
                          | None => Raise IndexError
                          end) idxs;
    Ok (list_to_set days).

(** The two nested loops that fill [app_issue_days]. *)
Definition propagate_app_issue (outage_days : list pydate) (app_after_days : Z)
    (end_date : pydate) : gset pydate :=
  foldl (fun acc d =>
           foldl (fun acc k =>
                    let nd := d + k in
                    if nd <=? end_date then {[nd]} ∪ acc else acc)
                 acc (py_range 1 (app_after_days + 1)))
        ∅ outage_days.

(** [WEEKDAYS[wd_idx]] *)
Definition weekday_label (wd_idx : Z) : string :=
  default ""%string (WEEKDAYS !! Z.to_nat wd_idx).

(** Membership of a string in [set(premium_peak_days)]. *)
Definition label_in (wd : string) (l : list pyval) : bool :=
  existsb (fun v => match v with PStr s => String.eqb s wd | _ => false end) l.

Definition make_calendar (start_date end_date : pydate) (cfg : EffectiveConfig)
    (rng : DeterministicRNG) : result (list DayPlan) :=
  let wd_factors := get cfg "calendar.weekday_factors" (PDict []) in
  outages_count ← py_int (py_or (get cfg "calendar.incidents.outages_count" (PInt 0)) (PInt 0));
  app_after_days ←
    py_int (py_or (get cfg "calendar.incidents.app_issue_after_outage_days" (PInt 0)) (PInt 0));
  premium_peak_days ←
    match py_or (get cfg "calendar.incidents.premium_wait_peak_days" (PList [])) (PList []) with
    | PList l | PTuple l => Ok l
    | PDict d => Ok (map (fun kv => pkey_label kv.1) d)
    | PStr s => Ok (map (fun c => PStr (String c EmptyString)) (list_ascii_of_string s))
    | PBytes b => Ok (map (fun x => PInt (Z_of_byte x)) b)
    | _ => Raise (TypeError "object is not iterable")
    end;
  outage_days ← select_outage_days start_date end_date outages_count rng;
  let app_issue_days := propagate_app_issue (elements outage_days) app_after_days end_date in
  mapR (fun d =>
          let wd_idx := date_weekday d in
          let wd := weekday_label wd_idx in
          let is_weekend := 5 <=? wd_idx in
          fv ← py_get wd_factors (KStr wd) (PFloat 1);
          factor ← py_float fv;
          let outage_flag := bool_decide (d ∈ outage_days) in
          let app_issue_flag := bool_decide (d ∈ app_issue_days) in
          let premium_wait_peak := label_in wd premium_peak_days in
          Ok {| date := d; weekday := wd; is_weekend := is_weekend;
                weekday_factor := factor; outage_flag := outage_flag;
                app_issue_flag := app_issue_flag;
                premium_wait_peak := premium_wait_peak |})
       (daterange start_date end_date).
End Calendar.
End calendar.

(* ===================================================================== *)
(** ** volume.py *)
(* ===================================================================== *)

Module volume.
Section Volume.
Context {R : Runtime}.

Record DailyVolumePlan := { base : Z; estimated : Z }.

Definition _incident_boost (day_ctx : calendar.DayPlan) (rng : DeterministicRNG)
    (cfg : EffectiveConfig) : result Q :=
  if negb (calendar.outage_flag day_ctx || calendar.app_issue_flag day_ctx) then Ok 0%Q
  else
    lo ← py_float (get cfg "volume.incident_boost_min" (PFloat (25 # 100)));
    hi ← py_float (get cfg "volume.incident_boost_max" (PFloat (40 # 100)));
    r ← seed_for rng (PTuple [PStr "incident_boost"; PStr (isoformat (calendar.date day_ctx))]);
    Ok (gen_uniform lo hi r).1.

Definition estimate_daily_volume (day_ctx : calendar.DayPlan) (cfg : EffectiveConfig)
    (rng : DeterministicRNG) : result DailyVolumePlan :=
  let is_weekend := calendar.is_weekend day_ctx in
  base ← py_int (get cfg (if is_weekend then "volume.base_weekend" else "volume.base_weekday")
                     (PInt 200));
  let factor := calendar.weekday_factor day_ctx in
  boost ← _incident_boost day_ctx rng cfg;
  reduction ← py_float (get cfg "meta.volume_reduction_factor" (PFloat (2 # 10)));
  let estimated := round_half_even (inject_Z base * factor * (1 + boost) * reduction) in
  Ok {| base := base; estimated := py_maxZ 0 estimated |}.

(** The RandomKey of each split. *)
Definition split_by_agent_key (is_weekend : bool) (daily_volume : Z) : pyval :=
  PTuple [PStr "split_by_agent"; PBool is_weekend; PInt daily_volume].
Definition split_by_shift_key (agent : string) : pyval :=
  PTuple [PStr "split_by_shift"; PStr agent].
Definition split_by_time_buckets_key (is_weekend : bool) (shift_block : Z) : pyval :=
  PTuple [PStr "split_by_time_buckets"; PBool is_weekend; PInt shift_block].

(** [DeterministicRNG(0)], the object the splits call [multinomial_split] on. *)
Definition rng0 : DeterministicRNG := {| global_seed := 0; _root := default_rng 0 |}.

Definition split_by_agent (daily_volume : Z) (is_weekend : bool) (cfg : EffectiveConfig)
    (rng : DeterministicRNG) : result (list (pkey * Z)) :=
  let alloc := get cfg (if is_weekend then "agents.allocation.weekend"
                        else "agents.allocation.weekday") (PDict []) in
  r ← seed_for rng (split_by_agent_key is_weekend daily_volume);
  alloc ← as_dict alloc;
  fst <$> multinomial_split rng0 daily_volume alloc (Some r).

Definition split_by_shift (agent : string) (agent_volume : Z) (cfg : EffectiveConfig)
    (rng : DeterministicRNG) : result (list (pkey * Z)) :=
  let profile := get cfg ("agents.members." +:+ agent +:+ ".shifts") (PDict []) in
  r ← seed_for rng (split_by_shift_key agent);
  profile ← as_dict profile;
  fst <$> multinomial_split rng0 agent_volume profile (Some r).

Definition split_by_time_buckets (shift_block : Z) (is_weekend : bool) (cfg : EffectiveConfig)
    (rng : DeterministicRNG) : result (list (pkey * Z)) :=
  let bucket_profile := get cfg (if is_weekend then "buckets.weekend" else "buckets.weekday")
                            (PDict []) in
  r ← seed_for rng (split_by_time_buckets_key is_weekend shift_block);
  bucket_profile ← as_dict bucket_profile;
  fst <$> multinomial_split rng0 shift_block bucket_profile (Some r).
End Volume.
End volume.
Export volume.

(* ===================================================================== *)
(** ** features.py *)
(* ===================================================================== *)

(** Results of the samplers: the dict each one returns, as a record. *)
Record OpsMetrics := {
  AWT : Q;
  Hold_time : Q;
  Transfers_count : Z;
  Silence_ratio : Q;
  Interruptions_count : Z;
  FCR : bool
}.

Record Resolution := {
  repeat_call_within_72h : bool;
  escalation : string;
  complaint_category : string
}.

Record Nps := { NPS_score : Z; sentiment_score : Q }.

Record Products := { product : string; amount_bucket : option string }.

Record Automation := {
  self_service_potential : string;
  automation_action_present : bool;
  automation_action_type : option string
}.

Record Compliance := {
  compliance_flags : list (pkey * string);
  kb_article_used : bool;
  language_switch : bool;
  pii_disclosure_flag : bool;
  script_adherence : Q
}.

Record Geo := { geo_region : string; geo_language : string; geo_device_type : string }.

(** What [sample_intent] returns: one label or a list of labels. *)
Inductive IntentResult :=
| IntentStr (s : string)
| IntentList (l : list string).

Module features.
Section Features.
Context {R : Runtime}.

(** A weight table computed by [weights] handed on as a dict of floats. *)
Definition table (w : list (pkey * Q)) : list (pkey * pyval) :=
  map (fun kv => (kv.1, PFloat kv.2)) w.

(** [float(get(cfg, path, default))] *)
Definition get_float (cfg : EffectiveConfig) (path : string) (default : pyval) : result Q :=
  py_float (get cfg path default).

(** [mapping] is the value handed in: [.keys()] needs a dict.  The label
    drawn is returned as a [str], the declared return type. *)
Definition _sample_from_weights (rng : DeterministicRNG) (mapping : pyval) (key : pyval)
    : result string :=
  r ← seed_for rng key;
  mapping ← as_dict mapping;
  let items := dict_keys mapping in
  probs ← mapR py_float (dict_values mapping);
  let probs := map (py_max 0) probs in
  let t := py_sum probs in
  let probs :=
    if Qle_bool t 0
    then map (fun _ => (1 / inject_Z (Z.of_nat (Nat.max 1 (length items))))%Q) items
    else map (fun p => (p / t)%Q) probs in
  '(idx, _) ← np_choice (length items) probs r;
  match items !! idx with
  | Some it => as_str it
  | None => Raise IndexError
  end.

(** Returns the value of ["customer_segment"]. *)
Definition sample_customer_segment (ctx : Context) (cfg : EffectiveConfig)
    (rng : DeterministicRNG) : result string :=
  let weights := get cfg "segments.customer"
                     (PDict [(KStr "Premium", PFloat (25 # 100));
                             (KStr "Standard", PFloat (75 # 100))]) in
  _sample_from_weights rng weights
    (PTuple [PStr "segment"; PStr (isoformat (date ctx)); PStr (agent_name ctx)]).

(** Returns the value of ["channel"]. *)
Definition sample_channel (ctx : Context) (cfg : EffectiveConfig) (rng : DeterministicRNG)
    : result string :=
  w ← channel_weights ctx cfg;
  _sample_from_weights rng (PDict (table w))
    (PTuple [PStr "channel"; PStr (time_of_day_bucket ctx); PStr (agent_name ctx)]).

Definition sample_geo_language_device (ctx : Context) (cfg : EffectiveConfig)
    (rng : DeterministicRNG) (segment : string) : result Geo :=
  region ← _sample_from_weights rng (get cfg "geo.region" (PDict []))
             (PTuple [PStr "region"; PStr (isoformat (date ctx))]);
  lang_base ← as_dict (get cfg "geo.language" (PDict []));
  lang_base ←
    (if String.eqb segment "Premium" then
       let bias := get cfg "geo.premium_language_bias" (PDict []) in
       bias ← as_dict (py_or bias (PDict []));
       foldl (fun acc kv =>
                lb ← acc;
                old ← py_float (default (PFloat 0) (dict_get lb kv.1));
                v ← py_float kv.2;
                Ok (dict_set lb kv.1 (PFloat (py_max 0 (old + v)))))
             (Ok lang_base) bias
     else Ok lang_base);
  language ← _sample_from_weights rng (PDict lang_base)
               (PTuple [PStr "language"; PStr (isoformat (date ctx))]);
  dw ← device_weights ctx cfg;
  dev ← _sample_from_weights rng (PDict (table dw))
          (PTuple [PStr "device"; PStr (channel ctx)]);
  Ok {| geo_region := region; geo_language := language; geo_device_type := dev |}.

(** The loop of [sample_intent]; [chosen] is kept in order. *)
Fixpoint pick_intents (ctx : Context) (rng : DeterministicRNG) (count : nat)
    (local_w : list (pkey * Q)) (chosen : list string) : result (list string) :=
  match count with
  | O => Ok chosen
  | S n =>
      if Nat.eqb (length local_w) 0 then Ok chosen
      else
        pick ← _sample_from_weights rng (PDict (table local_w))
                 (PTuple [PStr "intent"; PStr (time_of_day_bucket ctx);
                          PStr (agent_name ctx); PInt (Z.of_nat (length chosen))]);
        pick_intents ctx rng n (dict_pop local_w (KStr pick)) (chosen ++ [pick])
  end.

Definition sample_intent (ctx : Context) (cfg : EffectiveConfig) (rng : DeterministicRNG)
    : result IntentResult :=
  w ← intent_weights ctx cfg;
  if Nat.eqb (length w) 0 then Ok (IntentStr "Online-Banking")
  else
    r ← seed_for rng (PTuple [PStr "intent_count"; PStr (isoformat (date ctx));
                              PStr (agent_name ctx); PStr (time_of_day_bucket ctx)]);
    let p := (gen_random r).1 in
    let count := if Qltb p (70 # 100) then 1%nat
                 else if Qltb p (90 # 100) then 2%nat else 3%nat in
    chosen ← pick_intents ctx rng count w [];
    match chosen with
    | [c] => Ok (IntentStr c)
    | _ => Ok (IntentList chosen)
    end.

(** The primary intent: first of a non-empty list, the string itself,
    ["Online-Banking"] otherwise. *)
Definition primary_intent (intent : IntentResult) : string :=
  match intent with
  | IntentList (c :: _) => c
  | IntentList [] => "Online-Banking"
  | IntentStr s => s
  end.

Definition sample_scenario (ctx : Context) (intent : IntentResult) (cfg : EffectiveConfig)
    (rng : DeterministicRNG) : result string :=
  let primary := primary_intent intent in
  w ← scenario_weights ctx primary cfg;
  _sample_from_weights rng (PDict (table w))
    (PTuple [PStr "scenario"; PStr primary; PStr (agent_name ctx)]).

Definition _trunc_normal (r : Gen) (mean sigma min_v : Q) : result (Q * Gen) :=
  '(v, r) ← np_normal mean sigma r;
  Ok (py_max min_v v, r).

(** [v.get(k, default)] followed by [float]. *)
Definition get_num (d : pyval) (k : string) (default : pyval) : result Q :=
  v ← py_get d (KStr k) default;
  py_float v.

(** The weighted integer draw shared by the transfer count and the base
    NPS score: [keys = list(map(int, t.keys()))], the clipped values divided
    by their sum (or by their number when the sum is 0), [r.choice(keys, p)]. *)
Definition choice_int_table (t : list (pkey * pyval)) (r : Gen) : result (Z * Gen) :=
  keys ← mapR pkey_int (dict_keys t);
  vals ← mapR (fun k => v ← dict_index t (KInt k); py_float v) keys;
  let vals := map (py_max 0) vals in
  let s := py_sum vals in
  let vals := map (fun v => (v / (if Qltb 0 s then s
                                  else inject_Z (Z.of_nat (length vals))))%Q) vals in
  '(idx, r) ← np_choice (length keys) vals r;
  match keys !! idx with
  | Some k => Ok (k, r)
  | None => Raise IndexError
  end.

Definition sample_ops_metrics (ctx : Context) (cfg : EffectiveConfig) (rng : DeterministicRNG)
    (r : Gen) : result (OpsMetrics * Gen) :=
  let awt_cfg := get cfg "ops.awt_seconds" (PDict []) in
  awt_med ← get_num awt_cfg "base_median" (PInt 90);
  awt_sigma ← get_num awt_cfg "base_sigma" (PInt 25);
  '(awt, r) ← _trunc_normal r awt_med awt_sigma 0;
  awt ← (if outage_flag ctx
         then d ← get_num awt_cfg "outage_delta" (PInt 0); Ok (awt + d)%Q
         else Ok awt);
  cd ← py_get awt_cfg (KStr "channel_deltas") (PDict []);
  d ← get_num cd (channel ctx) (PInt 0);
  let awt := (awt + d)%Q in
  td ← py_get awt_cfg (KStr "team_deltas") (PDict []);
  d ← get_num td (team ctx) (PInt 0);
  let awt := (awt + d)%Q in
  awt ← (if premium_wait_peak ctx
         then d ← get_num awt_cfg "premium_wait_peak_delta" (PInt 0); Ok (awt + d)%Q
         else Ok awt);

  let hold_cfg := get cfg "ops.hold_seconds" (PDict []) in
  hold_med ← get_num hold_cfg "base_median" (PInt 45);
  hold_sigma ← get_num hold_cfg "base_sigma" (PInt 20);
  '(hold, r) ← _trunc_normal r hold_med hold_sigma 0;
  d ← get_float cfg ("ops.hold_seconds.channel_deltas." +:+ channel ctx) (PInt 0);
  let hold := (hold + d)%Q in

  let trans_cfg := get cfg "ops.transfers_count" (PDict []) in
  overrides ← py_get trans_cfg (KStr "channel_overrides") (PDict []);
  base_probs ← py_get trans_cfg (KStr "base_probs")
                 (PDict [(KInt 0, PFloat (70 # 100)); (KInt 1, PFloat (20 # 100));
                         (KInt 2, PFloat (8 # 100)); (KInt 3, PFloat (2 # 100))]);
  trans_probs ← py_get overrides (KStr (channel ctx)) base_probs;
  trans_probs ← as_dict trans_probs;
  '(transfers, r) ← choice_int_table trans_probs r;

  sil_mean ← get_float cfg "ops.silence_ratio.mean" (PFloat 9);
  sil_delta ← get_float cfg ("ops.silence_ratio.channel_deltas." +:+ channel ctx) (PFloat 0);
  sil_sigma ← get_float cfg "ops.silence_ratio.sigma" (PFloat 4);
  '(sil, r) ← _trunc_normal r (sil_mean + sil_delta) sil_sigma 0;
  intr_mean ← get_float cfg "ops.interruptions_count.mean" (PFloat (12 # 10));
  intr_delta ← get_float cfg ("ops.interruptions_count.channel_deltas." +:+ channel ctx)
                 (PFloat 0);
  intr_sigma ← get_float cfg "ops.interruptions_count.sigma" (PFloat (8 # 10));
  '(intr, r) ← _trunc_normal r (intr_mean + intr_delta) intr_sigma 0;

  fcr_prob ← get_float cfg "ops.fcr_base_prob" (PFloat (78 # 100));
  fcr_prob ← (if outage_flag ctx
              then d ← get_float cfg "ops.fcr_penalties.outage" (PFloat (-15 # 100));
                   Ok (fcr_prob + d)%Q
              else Ok fcr_prob);
  d ← get_float cfg ("ops.fcr_penalties.channel." +:+ channel ctx) (PFloat 0);
  let fcr_prob := (fcr_prob + d)%Q in
  d ← get_float cfg ("ops.fcr_penalties.team." +:+ team ctx) (PFloat 0);
  let fcr_prob := (fcr_prob + d)%Q in
  let '(u, r) := gen_random r in
  let fcr := Qltb u (py_max 0 (py_min 1 fcr_prob)) in
  Ok ({| AWT := py_round awt 2;
         Hold_time := py_round hold 2;
         Transfers_count := transfers;
         Silence_ratio := py_round sil 2;
         Interruptions_count := round_half_even intr;
         FCR := fcr |}, r).

Definition sample_resolution (ctx : Context) (intent scenario : string) (cfg : EffectiveConfig)
    (rng : DeterministicRNG) (fcr : bool) (r : Gen) : Resolution * Gen :=
  let '(u, r) := gen_random r in
  let repeat := Qltb u (if negb fcr then 35 # 100 else 10 # 100) in
  let '(esc, r) :=
    if negb fcr && (String.eqb intent "Online-Banking" || String.eqb intent "Technical Support")
    then ("IT Ticket"%string, r)
    else if fcr then ("None"%string, r)
    else let '(u, r) := gen_random r in
         ((if Qltb u (2 # 10) then "Backoffice" else "Supervisor")%string, r) in
  let complaint :=
    if premium_wait_peak ctx && String.eqb (channel ctx) "voice" then "WaitTime"%string
    else if negb fcr then "TechnicalIssue"%string else "Fees"%string in
  ({| repeat_call_within_72h := repeat; escalation := esc; complaint_category := complaint |}, r).

Definition sample_nps (ctx : Context) (fcr : bool) (awt : Q) (cfg : EffectiveConfig)
    (rng : DeterministicRNG) (r : Gen) : result (Nps * Gen) :=
  base ← as_dict (get cfg "nps.base_weights"
                    (PDict [(KInt 6, PFloat (15 # 100)); (KInt 7, PFloat (2 # 10));
                            (KInt 8, PFloat (25 # 100)); (KInt 9, PFloat (25 # 100));
                            (KInt 10, PFloat (15 # 100))]));
  '(score, r) ← choice_int_table base r;
  let corr := 0 in
  corr ← (if Qltb 120 awt
          then c ← py_int (get cfg "nps.corrections.awt_gt_120" (PInt (-2))); Ok (corr + c)
          else Ok corr);
  corr ← (if negb fcr
          then c ← py_int (get cfg "nps.corrections.fcr_zero" (PInt (-1))); Ok (corr + c)
          else Ok corr);
  corr ← (if premium_wait_peak ctx
          then c ← py_int (get cfg "nps.corrections.premium_waittime" (PInt (-2)));
               Ok (corr + c)
          else Ok corr);
  cap ← py_int (get cfg "nps.corrections.happy_cap" (PInt 10));
  let score := py_maxZ 0 (py_minZ cap (score + corr)) in
  '(noise, r) ← np_normal 0 (1 # 10) r;
  let sent := py_max (-1) (py_min 1 (inject_Z (score - 5) / 5 + noise)) in
  Ok ({| NPS_score := score; sentiment_score := py_round sent 3 |}, r).

Definition sample_products (ctx : Context) (cfg : EffectiveConfig) (rng : DeterministicRNG)
    : result Products :=
  w ← product_weights ctx cfg;
  prod ← _sample_from_weights rng (PDict (table w))
           (PTuple [PStr "product"; PStr (time_of_day_bucket ctx)]);
  amount ←
    (if String.eqb prod "Transfer" || String.eqb prod "Loan" || String.eqb prod "Hypothek"
     then Some <$> _sample_from_weights rng (get cfg "products.amount_buckets" (PDict []))
                     (PTuple [PStr "amount"; PStr prod])
     else Ok None);
  Ok {| product := prod; amount_bucket := amount |}.

Definition sample_automation (ctx : Context) (cfg : EffectiveConfig) (rng : DeterministicRNG)
    (r : Gen) : result (Automation * Gen) :=
  let intent_str := default ""%string (intent ctx) in
  ssp ← _sample_from_weights rng (get cfg "automation.self_service_potential" (PDict []))
          (PTuple [PStr "ssp"; PStr intent_str]);
  p ← get_float cfg "automation.action_present_base" (PFloat (15 # 100));
  p ← (if String.eqb intent_str "Online-Banking" || String.eqb intent_str "Transfer"
       then d ← get_float cfg ("automation.intent_lifts." +:+ intent_str) (PFloat 0);
            Ok (p + d)%Q
       else Ok p);
  p ← (if outage_flag ctx
       then d ← get_float cfg "automation.outage_penalty" (PFloat (-7 # 100)); Ok (p + d)%Q
       else Ok p);
  let p := if String.eqb (channel ctx) "Text" then (p + 0)%Q else p in
  let '(u, r) := gen_random r in
  let present := Qltb u (py_max 0 (py_min 1 p)) in
  action_type ←
    (if present
     then Some <$> _sample_from_weights rng (get cfg "automation.action_type" (PDict []))
                     (PTuple [PStr "action"; PStr intent_str])
     else Ok None);
  Ok ({| self_service_potential := ssp; automation_action_present := present;
         automation_action_type := action_type |}, r).

(** The comprehension that draws one pass/fail flag per pass rate, in
    dict order. *)
Fixpoint draw_flags (passes : list (pkey * pyval)) (r : Gen)
    : result (list (pkey * string) * Gen) :=
  match passes with
  | [] => Ok ([], r)
  | (k, v) :: rest =>
      v ← py_float v;
      let '(u, r) := gen_random r in
      let flag := (if Qltb u (py_max 0 (py_min 1 v)) then "pass" else "fail")%string in
      '(flags, r) ← draw_flags rest r;
      Ok ((k, flag) :: flags, r)
  end.

Definition sample_compliance (ctx : Context) (cfg : EffectiveConfig) (rng : DeterministicRNG)
    (r : Gen) : result (Compliance * Gen) :=
  passes ← as_dict (get cfg "compliance.pass_rates" (PDict []));
  global_delta ← get_float cfg "compliance.global_delta" (PFloat 0);
  chan_d ← get_float cfg ("compliance.channel_deltas." +:+ channel ctx) (PFloat 0);
  team_d ← get_float cfg ("compliance.team_deltas." +:+ team ctx) (PFloat 0);
  passes ← mapR (fun kv =>
                   v ← py_float kv.2;
                   Ok (kv.1, PFloat (py_max 0 (py_min (999 # 1000)
                                                 (v + global_delta + chan_d + team_d)))))
                passes;
  passes ← (if outage_flag ctx
            then old ← py_float (default (PFloat (9 # 10)) (dict_get passes (KStr "Empathy")));
                 pen ← get_float cfg "compliance.outage_empathy_penalty" (PFloat (-8 # 100));
                 Ok (dict_set passes (KStr "Empathy") (PFloat (py_max 0 (old + pen))))
            else Ok passes);
  passes ← (if String.eqb (agent_name ctx) "Monika_Mueller"
            then mapR (fun kv =>
                         v ← py_float kv.2;
                         bonus ← get_float cfg "compliance.monika_pass_bonus" (PFloat (5 # 100));
                         Ok (kv.1, PFloat (py_min (999 # 1000) (v + bonus))))
                      passes
            else Ok passes);
  '(flags, r) ← draw_flags passes r;
  mean ← get_float cfg "compliance.script_adherence_mean" (PFloat 86);
  sigma ← get_float cfg "compliance.script_adherence_sigma" (PFloat 6);
  '(v, r) ← np_normal mean sigma r;
  let script := py_max 0 (py_min 100 v) in
  let '(u1, r) := gen_random r in
  let '(u2, r) := gen_random r in
  let '(u3, r) := gen_random r in
  Ok ({| compliance_flags := flags;
         kb_article_used := Qltb u1 (1 # 2);
         language_switch := Qltb u2 (5 # 100);
         pii_disclosure_flag := Qltb u3 (2 # 100);
         script_adherence := py_round script 1 |}, r).

Definition sample_silence_total_seconds (ctx : Context) (scenario : string) (nps_score : Z)
    (cfg : EffectiveConfig) (r : Gen) : result (Q * Gen) :=
  base_mean ← get_float cfg "ops.silence_total_seconds.base_mean" (PFloat 12);
  base_sigma ← get_float cfg "ops.silence_total_seconds.base_sigma" (PFloat 6);
  agent_delta ← get_float cfg ("ops.silence_total_seconds.agent_deltas." +:+ agent_name ctx)
                  (PFloat 0);
  team_delta ← get_float cfg ("ops.silence_total_seconds.team_deltas." +:+ team ctx) (PFloat 0);
  channel_lift ← get_float cfg ("ops.silence_total_seconds.channel_lifts." +:+ channel ctx)
                   (PFloat 0);
  scenario_lift ← get_float cfg ("ops.silence_total_seconds.scenario_lifts." +:+ scenario)
                    (PFloat 0);
  low_thr ← py_int (get cfg "ops.silence_total_seconds.nps.low_threshold" (PInt 7));
  per_point ← get_float cfg "ops.silence_total_seconds.nps.per_point_below" (PFloat (15 # 10));
  let nps_penalty := (inject_Z (py_maxZ 0 (low_thr - nps_score)) * per_point)%Q in
  let mean := (base_mean + agent_delta + team_delta + channel_lift + scenario_lift
               + nps_penalty)%Q in
  '(value, r) ← _trunc_normal r mean base_sigma 0;
  Ok (py_round value 2, r).

(** [str(int(d))] *)
Definition str_of_int (d : Z) : string := pretty d.

Definition generate_german_ani (rng : DeterministicRNG) (key : list pyval) : result string :=
  r ← seed_for rng (PTuple (PStr "ani" :: key));
  let '(length, r) := gen_integers 9 13 r in
  if length <? 0 then Raise (ValueError "negative dimensions are not allowed")
  else
    let '(ds, _) := gen_integers_n 0 10 (Z.to_nat length) r in
    let digits := foldr (fun d acc => str_of_int d +:+ acc) ""%string ds in
    Ok ("+49" +:+ digits).
End Features.
End features.
Export features.

(* ===================================================================== *)
(** ** schema.py *)
(* ===================================================================== *)

(** The fragment of JSON Schema that [CALL_SCHEMA] uses: [type], [enum],
    [minimum], [maximum], [pattern], [anyOf], [required], [properties].
    ([format] is an annotation: [jsonschema.validate] does not enforce it
    without a format checker.) *)
Inductive jtype := JString | JNumber | JInteger | JBoolean | JNull | JObject.

Inductive jpattern :=
| PatLanguage   (* ^[A-Za-z]{2}(-[A-Za-z]{2})?$ *)
| PatANI.       (* ^\+49\d{9,12}$ *)

Inductive schema :=
| Schema (types : list jtype) (enum : option (list string)) (minimum maximum : option Q)
         (pattern : option jpattern) (anyOf : list schema)
         (required : list string) (properties : list (string * schema)).

Module schema_py.

Definition is_digit (c : ascii) : bool :=
  let n := nat_of_ascii c in (48 <=? n)%nat && (n <=? 57)%nat.

Definition is_alpha (c : ascii) : bool :=
  let n := nat_of_ascii c in
  ((65 <=? n)%nat && (n <=? 90)%nat) || ((97 <=? n)%nat && (n <=? 122)%nat).

(** [$] also matches just before a final newline. *)
Definition strip_final_newline (s : list ascii) : list ascii :=
  match reverse s with
  | c :: r => if Ascii.eqb c "010" then reverse r else s
  | [] => s
  end.

Definition matches (p : jpattern) (s : string) : bool :=
  let cs := strip_final_newline (list_ascii_of_string s) in
  match p with
  | PatANI =>
      match cs with
      | "+"%char :: "4"%char :: "9"%char :: ds =>
          (9 <=? length ds)%nat && (length ds <=? 12)%nat && forallb is_digit ds
      | _ => false
      end
  | PatLanguage =>
      match cs with
      | [a; b] => is_alpha a && is_alpha b
      | [a; b; "-"%char; c; d] => is_alpha a && is_alpha b && is_alpha c && is_alpha d
      | _ => false
      end
  end.

Definition has_type (v : pyval) (t : jtype) : bool :=
  match t, v with
  | JString, PStr _ => true
  | JNumber, (PInt _ | PFloat _) => true
  | JInteger, PInt _ => true
  | JInteger, PFloat q => Qeq_bool q (inject_Z (Qfloor q))
  | JBoolean, PBool _ => true
  | JNull, PNone => true
  | JObject, PDict _ => true
  | _, _ => false
  end.

Definition number_of (v : pyval) : option Q :=
  match v with
  | PInt z => Some (inject_Z z)
  | PFloat q => Some q
  | _ => None
  end.

Definition fail_if (b : bool) (path keyword : string) : list (string * string) :=
  if b then [(path, keyword)] else [].

(** All violations of [s] by [v], each with the path of the value and the
    keyword it violates.  [jsonschema.validate] raises one of them (its
    best match); an empty list is a valid instance. *)
Fixpoint violations (path : string) (s : schema) (v : pyval) : list (string * string) :=
  match s with
  | Schema types enum minimum maximum pattern anyOf required properties =>
      fail_if (negb (Nat.eqb (length types) 0) && negb (existsb (has_type v) types)) path "type"
      ++ match enum with
         | Some vals =>
             fail_if (negb match v with
                           | PStr x => existsb (String.eqb x) vals
                           | _ => false
                           end) path "enum"
         | None => []
         end
      ++ match minimum, number_of v with
         | Some m, Some x => fail_if (Qltb x m) path "minimum"
         | _, _ => []
         end
      ++ match maximum, number_of v with
         | Some m, Some x => fail_if (Qltb m x) path "maximum"
         | _, _ => []
         end
      ++ match pattern, v with
         | Some p, PStr x => fail_if (negb (matches p x)) path "pattern"
         | _, _ => []
         end
      ++ fail_if (negb (Nat.eqb (length anyOf) 0)
                  && negb (existsb (fun s' => Nat.eqb (length (violations path s' v)) 0) anyOf))
                 path "anyOf"
      ++ match v with
         | PDict d =>
             flat_map (fun k => match dict_get d (KStr k) with
                                | Some _ => []
                                | None => [(path +:+ "/" +:+ k, "required"%string)]
                                end) required
             ++ flat_map (fun ks => match dict_get d (KStr ks.1) with
                                    | Some x => violations (path +:+ "/" +:+ ks.1) ks.2 x
                                    | None => []
                                    end) properties
         | _ => []
         end
  end.

Definition s_any : schema := Schema [] None None None None [] [] [].
Definition s_type (t : jtype) : schema := Schema [t] None None None None [] [] [].
Definition s_enum (vals : list string) : schema :=
  Schema [JString] (Some vals) None None None [] [] [].
Definition s_range (t : jtype) (lo : option Q) (hi : option Q) : schema :=
  Schema [t] None lo hi None [] [] [].
Definition s_pattern (p : jpattern) : schema := Schema [JString] None None None (Some p) [] [] [].
Definition s_nullable_enum (vals : list string) : schema :=
  Schema [] None None None None [s_enum vals; s_type JNull] [] [].

Definition CALL_SCHEMA_required : list string :=
  ["call_id"; "date"; "weekday"; "time_of_day_bucket"; "agent_name"; "team"; "agent_shift";
   "customer_segment"; "channel"; "language"; "region"; "device_type";
   "intent"; "scenario";
   "AWT"; "Hold_time"; "Transfers_count"; "Silence_ratio"; "Interruptions_count";
   "FCR"; "repeat_call_within_72h"; "escalation"; "complaint_category";
   "NPS_score"; "sentiment_score";
   "self_service_potential"; "automation_action_present";
   "compliance_flags"; "script_adherence";
   "Silence_total_seconds"]%string.

Definition pass_fail : schema := s_enum ["pass"; "fail"]%string.

Definition CALL_SCHEMA_properties : list (string * schema) :=
  [("call_id", s_type JString);
   ("date", s_type JString);
   ("weekday", s_enum ["Mon"; "Tue"; "Wed"; "Thu"; "Fri"; "Sat"; "Sun"]);
   ("time_of_day_bucket", s_enum ["Night"; "Morning"; "Afternoon"; "Evening"]);
   ("agent_name", s_enum ["Monika_Mueller"; "Lukas_Schmidt"; "Anna_Ziegler"; "Peter_Keller";
                          "Jasmin_Caggiano"; "Heidi_Vogt"; "Marco_Fischer"; "Laura_Brunner";
                          "Karin_Herzog"; "Sven_Meier"; "Nina_Weber"; "Paul_Huber"]);
   ("team", s_enum ["Team A"; "Team B"; "Team C"]);
   ("agent_shift", s_enum ["Early"; "Mid"; "Late"]);
   ("customer_segment", s_enum ["Premium"; "Standard"]);
   ("channel", s_enum ["voice"; "text"]);
   ("language", s_pattern PatLanguage);
   ("region", s_enum ["ZH"; "BE"; "GE"; "VD"; "TI"]);
   ("device_type", s_enum ["iOS"; "Android"; "Desktop"]);
   ("intent", s_type JString);
   ("scenario", s_type JString);
   ("AWT", s_range JNumber (Some 0%Q) None);
   ("Hold_time", s_range JNumber (Some 0%Q) None);
   ("Transfers_count", s_range JInteger (Some 0%Q) (Some 3%Q));
   ("Silence_ratio", s_range JNumber (Some 0%Q) (Some 100%Q));
   ("Silence_total_seconds", s_range JNumber (Some 0%Q) None);
   ("Interruptions_count", s_range JInteger (Some 0%Q) None);
   ("FCR", s_type JBoolean);
   ("repeat_call_within_72h", s_type JBoolean);
   ("escalation", s_enum ["None"; "Supervisor"; "Backoffice"; "IT Ticket"]);
   ("complaint_category", s_enum ["WaitTime"; "Rude"; "WrongInfo"; "TechnicalIssue"; "Fees"]);
   ("NPS_score", s_range JInteger (Some 0%Q) (Some 10%Q));
   ("sentiment_score", s_range JNumber (Some (-1)%Q) (Some 1%Q));
   ("product", Schema [JString; JNull] None None None None [] [] []);
   ("amount_bucket", s_nullable_enum ["<100"; "100–1000"; "1000–5000"; ">5000"]);
   ("self_service_potential", s_enum ["Low"; "Medium"; "High"]);
   ("automation_action_present", s_type JBoolean);
   ("automation_action_type",
    s_nullable_enum ["reset password"; "check balance"; "transfer status"]);
   ("ANI", s_pattern PatANI);
   ("compliance_flags",
    Schema [JObject] None None None None []
      ["Greeting"; "Empathy"; "Summary"; "Farewell"]
      [("Greeting", pass_fail); ("Empathy", pass_fail);
       ("Summary", pass_fail); ("Farewell", pass_fail)]);
   ("kb_article_used", s_type JBoolean);
   ("language_switch", s_type JBoolean);
   ("pii_disclosure_flag", s_type JBoolean);
   ("script_adherence", s_range JNumber (Some 0%Q) (Some 100%Q))]%string.

(** Violations of [CALL_SCHEMA] (a [type: object] schema) by a record. *)
Definition call_violations (call : gmap string pyval) : list (string * string) :=
  flat_map (fun k => match call !! k with
                     | Some _ => []
                     | None => [(k, "required"%string)]
                     end) CALL_SCHEMA_required
  ++ flat_map (fun ks => match call !! ks.1 with
                         | Some x => violations ks.1 ks.2 x
                         | None => []
                         end) CALL_SCHEMA_properties.

Definition validate_against_schema (call : gmap string pyval) : result () :=
  match call_violations call with
  | [] => Ok ()
  | fs => Raise (ValidationError fs)
  end.

End schema_py.
Export schema_py.

(* ===================================================================== *)
(** ** The state of one generation run *)
(* ===================================================================== *)

(** A call record under construction: the dict [call]. *)
Abbreviation Call := (gmap string pyval).

(** A customer key [(seg, channel, topic)] and the cached identity. *)
Abbreviation CustKey := (string * string * string)%type.

Record CustMeta := { meta_ANI : string; meta_region : string; meta_language : string }.

(** One file written by [write_call_json]: directory, file name, content. *)
Record File := { file_dir : string; file_name : string; file_call : Call }.

(** [ani_cache] is the dict of [generate_dataset]; [cache_writes] lists the
    keys of the assignments [ani_cache[cust_key] = ...] in the order they
    were executed; [files] lists the files written, oldest first. *)
Record RunState := {
  ani_cache : gmap CustKey CustMeta;
  cache_writes : list CustKey;
  files : list File
}.

(** Computations that change the run state and may raise: the state
    reached is returned also when an exception is raised. *)
Record run (A : Type) : Type := Run { exec : RunState → RunState * result A }.
Arguments Run {A} exec.
Arguments exec {A} r st.

Definition run_ret {A} (a : A) : run A := Run (fun st => (st, Ok a)).

Definition run_bind {A B} (m : run A) (f : A → run B) : run B :=
  Run (fun st =>
         match exec m st with
         | (st', Ok a) => exec (f a) st'
         | (st', Raise e) => (st', Raise e)
         end).

(** A computation without effects on the run state. *)
Definition lift {A} (r : result A) : run A := Run (fun st => (st, r)).

#[global] Instance run_mret : MRet run := @run_ret.
#[global] Instance run_mbind : MBind run := fun A B f m => run_bind m f.

(** [k in ani_cache] / [ani_cache[k]] *)
Definition cache_lookup (k : CustKey) : run (option CustMeta) :=
  Run (fun st => (st, Ok (ani_cache st !! k))).

(** [ani_cache[k] = m] *)
Definition cache_store (k : CustKey) (m : CustMeta) : run () :=
  Run (fun st =>
         ({| ani_cache := <[k := m]> (ani_cache st);
             cache_writes := cache_writes st ++ [k];
             files := files st |}, Ok ())).

(** [path.write_bytes(orjson.dumps(call))] *)
Definition write_file (f : File) : run () :=
  Run (fun st =>
         ({| ani_cache := ani_cache st; cache_writes := cache_writes st;
             files := files st ++ [f] |}, Ok ())).

(** [for x in xs: body(x)] *)
Fixpoint for_each {A} (xs : list A) (body : A → run ()) : run () :=
  match xs with
  | [] => mret ()
  | x :: rest => _ ← body x; for_each rest body
  end.

(* ===================================================================== *)
(** ** io.py *)
(* ===================================================================== *)

Module io.
Section Io.
Context {R : Runtime}.

(** [call[k]] read as a string. *)
Definition call_str (call : Call) (k : string) : result string :=
  match call !! k with
  | Some (PStr s) => Ok s
  | Some _ => Raise (TypeError "expected str")
  | None => Raise (KeyError (KStr k))
  end.

(** The directory [base_out / d.isoformat()] (created if missing), named by
    its last component. *)
Definition out_dir_for_date (d : pydate) : string := isoformat d.

(** [write_call_json].  The run state holds the record files written: the
    directory that [out_dir_for_date] creates is not part of it, and
    [orjson.dumps] is taken to return. *)
Definition write_call_json (call : Call) (validate : bool) : run string :=
  _ ← lift (if validate then validate_against_schema call else Ok ());
  d ← lift (s ← call_str call "date";
            match fromisoformat s with
            | Some d => Ok d
            | None => Raise (ValueError "Invalid isoformat string")
            end);
  let day_dir := out_dir_for_date d in
  call_id ← lift (call_str call "call_id");
  let path := (call_id +:+ ".json")%string in
  _ ← write_file {| file_dir := day_dir; file_name := path; file_call := call |};
  mret path.
End Io.
End io.
Export io.

(* ===================================================================== *)
(** ** cli.py

    [generate_dataset] is embedded statement by statement, in the order of
    the text.  In cli.py the statements of lines 77-81 (the geo sampling)
    and 117-118 (the cache miss) carry fewer tabs than the block they stand
    in, so that the Python parser rejects the file as it stands (unexpected
    indent at line 83).  They are read as statements of the innermost loop
    body and of the [else] branch: the names they use ([ctx], [call],
    [det], [seg], [cust_key]) are bound only there, and the lines after
    them continue that block. *)
(* ===================================================================== *)

(** [call.update(items)] *)
Definition update (call : Call) (items : list (string * pyval)) : Call :=
  foldl (fun c kv => <[kv.1 := kv.2]> c) call items.

Definition opt_str (o : option string) : pyval :=
  match o with
  | Some s => PStr s
  | None => PNone
  end.

(** The dicts returned by the samplers. *)
Definition ops_items (op : OpsMetrics) : list (string * pyval) :=
  [("AWT", PFloat (AWT op)); ("Hold_time", PFloat (Hold_time op));
   ("Transfers_count", PInt (Transfers_count op)); ("Silence_ratio", PFloat (Silence_ratio op));
   ("Interruptions_count", PInt (Interruptions_count op)); ("FCR", PBool (FCR op))]%string.

Definition resolution_items (res : Resolution) : list (string * pyval) :=
  [("repeat_call_within_72h", PBool (repeat_call_within_72h res));
   ("escalation", PStr (escalation res));
   ("complaint_category", PStr (complaint_category res))]%string.

Definition nps_items (nps : Nps) : list (string * pyval) :=
  [("NPS_score", PInt (NPS_score nps)); ("sentiment_score", PFloat (sentiment_score nps))]%string.

Definition products_items (prod : Products) : list (string * pyval) :=
  [("product", PStr (product prod)); ("amount_bucket", opt_str (amount_bucket prod))]%string.

Definition automation_items (auto : Automation) : list (string * pyval) :=
  [("self_service_potential", PStr (self_service_potential auto));
   ("automation_action_present", PBool (automation_action_present auto));
   ("automation_action_type", opt_str (automation_action_type auto))]%string.

Definition compliance_items (comp : Compliance) : list (string * pyval) :=
  [("compliance_flags", PDict (map (fun kv => (kv.1, PStr kv.2)) (compliance_flags comp)));
   ("kb_article_used", PBool (kb_article_used comp));
   ("language_switch", PBool (language_switch comp));
   ("pii_disclosure_flag", PBool (pii_disclosure_flag comp));
   ("script_adherence", PFloat (script_adherence comp))]%string.

Module cli.
Section Cli.
Context {R : Runtime}.

(** The fields a text-channel record omits. *)
Definition SUPPRESSED : list string := ["Hold_time"; "Silence_ratio"; "Interruptions_count"]%string.

(** [if k in call: call.pop(k, None)] *)
Definition pop_key (call : Call) (k : string) : Call :=
  match call !! k with
  | Some _ => delete k call
  | None => call
  end.

(** Lines 94-98: [if ctx.channel == "text": for k in (...): if k in call: call.pop(k, None)] *)
Definition suppress_text_fields (ctx : Context) (call : Call) : Call :=
  if String.eqb (channel ctx) "text"
  then foldl pop_key call SUPPRESSED
  else call.

(** [cfg.data.get("agents", {}).get("members", {}).get(agent_name, {}).get("team", "Team A")];
    the team is a [str], as [Context] declares. *)
Definition team_of (cfg : EffectiveConfig) (agent_name : string) : result string :=
  agents ← py_get (data cfg) (KStr "agents") (PDict []);
  members ← py_get agents (KStr "members") (PDict []);
  member ← py_get members (KStr agent_name) (PDict []);
  t ← py_get member (KStr "team") (PStr "Team A");
  match t with
  | PStr s => Ok s
  | _ => Raise (TypeError "team is not a str")
  end.

(** What the first part of the loop body hands on. *)
Record Sampled := {
  s_ctx : Context;
  s_call : Call;
  s_seg : string;
  s_scenario : string;
  s_nps : Nps;
  s_rng : Gen
}.

(** Lines 34-104 of the loop body: from the call's generator to the NPS
    fields.  No run state is read or written. *)
Definition call_upto_nps (cfg : EffectiveConfig) (seed : Z) (rng : DeterministicRNG)
    (day : calendar.DayPlan) (agent_name team shift_name bucket : string) (i : Z)
    : result Sampled :=
  let iso := isoformat (calendar.date day) in
  call_rng ← seed_for rng (PTuple [PStr iso; PStr agent_name; PStr shift_name; PStr bucket;
                                   PInt i]);
  let ctx := {| date := calendar.date day; weekday := calendar.weekday day;
                time_of_day_bucket := bucket; agent_name := agent_name; team := team;
                agent_shift := shift_name; customer_segment := ""; channel := "";
                region := ""; language := ""; device_type := "";
                outage_flag := calendar.outage_flag day;
                app_issue_flag := calendar.app_issue_flag day;
                premium_wait_peak := calendar.premium_wait_peak day;
                hour_lt_18 := String.eqb bucket "Morning" || String.eqb bucket "Afternoon";
                intent := None |} in
  det ← DeterministicRNG_init seed;
  '(call_id, call_rng) ← uuid4_deterministic det (Some call_rng);
  let call : Call :=
    update ∅ [("call_id", PStr call_id); ("date", PStr iso); ("weekday", PStr (calendar.weekday day));
              ("time_of_day_bucket", PStr bucket); ("agent_name", PStr agent_name);
              ("team", PStr team); ("agent_shift", PStr shift_name)]%string in

  seg ← sample_customer_segment ctx cfg det;
  let ctx := set_customer_segment ctx seg in
  let call := update call [("customer_segment", PStr seg)]%string in

  ch ← sample_channel ctx cfg det;
  let ctx := set_channel ctx ch in
  let call := update call [("channel", PStr ch)]%string in

  geo ← sample_geo_language_device ctx cfg det seg;
  let ctx := set_geo ctx (geo_region geo) (geo_language geo) (geo_device_type geo) in
  let call := update call [("region", PStr (region ctx)); ("language", PStr (language ctx));
                           ("device_type", PStr (device_type ctx))]%string in

  intent ← sample_intent ctx cfg det;
  let intent_str := primary_intent intent in
  let call := <["intent"%string := PStr intent_str]> call in
  let ctx := set_intent ctx intent_str in

  scenario ← sample_scenario ctx (IntentStr intent_str) cfg det;
  let call := <["scenario"%string := PStr scenario]> call in

  '(op, call_rng) ← sample_ops_metrics ctx cfg det call_rng;
  let call := update call (ops_items op) in

  let call := suppress_text_fields ctx call in

  let '(res, call_rng) := sample_resolution ctx intent_str scenario cfg det (FCR op) call_rng in
  let call := update call (resolution_items res) in

  '(nps, call_rng) ← sample_nps ctx (FCR op) (AWT op) cfg det call_rng;
  let call := update call (nps_items nps) in
  Ok {| s_ctx := ctx; s_call := call; s_seg := seg; s_scenario := scenario;
        s_nps := nps; s_rng := call_rng |}.

(** [scenario.split(" ")[0]] *)
Definition scenario_topic (scenario : string) : string :=
  default ""%string (head (split_on " " scenario)).

(** Lines 106-119: the customer key and the identity cache. *)
Definition call_identity (det : DeterministicRNG) (s : Sampled) : run Call :=
  let ctx := s_ctx s in
  let call := s_call s in
  let cust_key : CustKey := (s_seg s, channel ctx, scenario_topic (s_scenario s)) in
  hit ← cache_lookup cust_key;
  match hit with
  | Some cust_meta =>
      let ani := meta_ANI cust_meta in
      mret (update call [("ANI", PStr ani); ("region", PStr (meta_region cust_meta));
                         ("language", PStr (meta_language cust_meta))]%string)
  | None =>
      ani ← lift (generate_german_ani det
                    [PStr (s_seg s); PStr (channel ctx); PStr (scenario_topic (s_scenario s))]);
      _ ← cache_store cust_key {| meta_ANI := ani; meta_region := region ctx;
                                  meta_language := language ctx |};
      mret (<["ANI"%string := PStr ani]> call)
  end.

(** Lines 121-132: silence seconds, product, automation, compliance. *)
Definition call_after_identity (cfg : EffectiveConfig) (det : DeterministicRNG) (s : Sampled)
    (call : Call) : result Call :=
  let ctx := s_ctx s in
  '(sil_total, call_rng) ←
    sample_silence_total_seconds ctx (s_scenario s) (NPS_score (s_nps s)) cfg (s_rng s);
  let call := <["Silence_total_seconds"%string := PFloat sil_total]> call in
  prod ← sample_products ctx cfg det;
  let call := update call (products_items prod) in
  '(auto, call_rng) ← sample_automation ctx cfg det call_rng;
  let call := update call (automation_items auto) in
  '(comp, call_rng) ← sample_compliance ctx cfg det call_rng;
  let call := update call (compliance_items comp) in
  Ok call.

(** The body of the innermost loop: one call, assembled and written. *)
Definition generate_call (cfg : EffectiveConfig) (seed : Z) (validate : bool)
    (rng : DeterministicRNG) (day : calendar.DayPlan)
    (agent_name team shift_name bucket : string) (i : Z) : run () :=
  s ← lift (call_upto_nps cfg seed rng day agent_name team shift_name bucket i);
  det ← lift (DeterministicRNG_init seed);
  call ← call_identity det s;
  call ← lift (call_after_identity cfg det s call);
  let validate_this := validate && negb (String.eqb (channel (s_ctx s)) "text") in
  _ ← write_call_json call validate_this;
  mret ().

(** [ani_cache = {}] at the start of a run. *)
Definition new_cache : run () :=
  Run (fun st => ({| ani_cache := ∅; cache_writes := []; files := files st |}, Ok ())).

(** The five nested loops.  No statement is inside a [try]: an exception
    raised anywhere leaves every loop.  The keys of the split dicts are read
    as [str] labels ([as_str]); [day_rng] is derived and not used. *)
Definition generate_dataset (cfg : EffectiveConfig) (start_date end_date : pydate) (seed : Z)
    (validate : bool) : run () :=
  rng ← lift (DeterministicRNG_init seed);
  days ← lift (calendar.make_calendar start_date end_date cfg rng);
  _ ← new_cache;
  for_each days (fun day =>
    day_rng ← lift (seed_for rng (PTuple [PStr "day"; PStr (isoformat (calendar.date day))]));
    vol ← lift (estimate_daily_volume day cfg rng);
    by_agent ← lift (split_by_agent (estimated vol) (calendar.is_weekend day) cfg rng);
    for_each by_agent (fun agent =>
      agent_name ← lift (as_str agent.1);
      by_shift ← lift (split_by_shift agent_name agent.2 cfg rng);
      team ← lift (team_of cfg agent_name);
      for_each by_shift (fun shift =>
        shift_name ← lift (as_str shift.1);
        by_bucket ← lift (split_by_time_buckets shift.2 (calendar.is_weekend day) cfg rng);
        for_each by_bucket (fun bk =>
          bucket ← lift (as_str bk.1);
          for_each (py_range 0 bk.2) (fun i =>
            generate_call cfg seed validate rng day agent_name team shift_name bucket i))))).
End Cli.
End cli.
Export cli.

(* ===================================================================== *)
(** ** A reference runtime

    A small deterministic instance of [Runtime] on which the model can be
    run: the generator state is a counter, the hash a polynomial over the
    bytes.  It satisfies [RuntimeLaws]. *)
(* ===================================================================== *)

Module reference_runtime.

Fixpoint ref_repr (v : pyval) : string :=
  match v with
  | PNone => "None"
  | PBool b => if b then "True" else "False"
  | PInt z => pretty z
  | PFloat q => pretty (Qnum q) +:+ "/" +:+ pretty (Z.pos (Qden q))
  | PStr s => "'" +:+ s +:+ "'"
  | PBytes b => "b'" +:+ string_of_list_byte b +:+ "'"
  | PTuple l => "(" +:+ foldr (fun x acc => ref_repr x +:+ ", " +:+ acc) ")" l
  | PList l => "[" +:+ foldr (fun x acc => ref_repr x +:+ ", " +:+ acc) "]" l
  | PDict d => "{" +:+ foldr (fun kv acc => ref_repr kv.2 +:+ ", " +:+ acc) "}" d
  end%string.

Definition ref_hash (data : list byte) : list byte :=
  let h := fold_left (fun acc b => (acc * 31 + Z_of_byte b) mod 2 ^ 64) data 7 in
  map (fun i => byte_of_Z (Z.shiftr h (8 * i))) [7; 6; 5; 4; 3; 2; 1; 0].

Definition digit_value (c : ascii) : option Z :=
  let n := nat_of_ascii c in
  if (48 <=? n)%nat && (n <=? 57)%nat then Some (Z.of_nat n - 48) else None.

Fixpoint parse_digits (acc : Z) (s : string) : option Z :=
  match s with
  | EmptyString => Some acc
  | String c r =>
      match digit_value c with
      | Some d => parse_digits (acc * 10 + d) r
      | None => None
      end
  end.

Definition ref_parse (s : string) : option Z :=
  match s with
  | EmptyString => None
  | _ => parse_digits 0 s
  end.

Definition unit_fraction (g : Z) : Q := (g mod 1000) # 1000.

#[export] Instance ref_runtime : Runtime := {|
  Gen := Z;
  blake2b_8 := ref_hash;
  repr_utf8 := fun v => list_byte_of_string (ref_repr v);
  isoformat := fun d => pretty d;
  fromisoformat := ref_parse;
  float_of_str := fun _ => None;
  int_of_str := ref_parse;
  default_rng := fun s => s;
  gen_random := fun g => (unit_fraction g, g + 1);
  gen_normal := fun mean sigma g => ((mean + sigma * inject_Z (g mod 7 - 3))%Q, g + 1);
  gen_uniform := fun lo hi g => ((lo + (hi - lo) * unit_fraction g)%Q, g + 1);
  gen_integers := fun lo hi g => (lo + g mod (hi - lo), g + 1);
  gen_integers_n := fun lo hi n g =>
    (map (fun i => lo + (g + Z.of_nat i) mod (hi - lo)) (seq 0 n), g + Z.of_nat n);
  gen_bytes := fun n g => (map (fun i => byte_of_Z (g + Z.of_nat i)) (seq 0 n), g + Z.of_nat n);
  gen_choice := fun p g => (Z.to_nat (g mod Z.of_nat (length p)), g + 1);
  gen_choice_norepl := fun n k g =>
    (map (fun i => Z.to_nat ((g + Z.of_nat i) mod Z.of_nat n)) (seq 0 k), g + 1);
  gen_multinomial := fun n p g =>
    (match p with
     | [] => []
     | _ :: rest => n :: map (fun _ => 0) rest
     end, g + 1)
|}.

End reference_runtime.

(* ===================================================================== *)
(** ** Generators as objects

    [seed_for] returns a new generator object on every call; a draw mutates
    the object it is called on.  A [world] holds the [DeterministicRNG] (its
    [_root] generator included) and every generator derived so far; a
    program is a list of operations on them, and running it produces the
    list of events observed. *)
(* ===================================================================== *)

Module streams.
Section Streams.
Context {R : Runtime}.

(** A method call on a generator. *)
Inductive draw_call :=
| CRandom
| CNormal (mean sigma : Q)
| CUniform (lo hi : Q)
| CIntegers (lo hi : Z)
| CIntegersN (lo hi : Z) (n : nat)
| CBytes (n : nat)
| CChoice (n : nat) (p : list Q)
| CChoiceNoRepl (n k : nat)
| CMultinomial (n : Z) (pvals : list Q).

Inductive draw_val :=
| VFloat (q : Q)
| VInt (z : Z)
| VInts (l : list Z)
| VBytes (b : list byte)
| VIndex (i : nat)
| VIndices (l : list nat).

(** Outcome of a call and the state it leaves; a call that raises leaves
    the generator as it was. *)
Definition with_state {A} (g : Gen) (f : A → draw_val) (r : result (A * Gen))
    : result draw_val * Gen :=
  match r with
  | Ok (a, g') => (Ok (f a), g')
  | Raise e => (Raise e, g)
  end.

Definition draw (c : draw_call) (g : Gen) : result draw_val * Gen :=
  match c with
  | CRandom => with_state g VFloat (Ok (gen_random g))
  | CNormal mean sigma => with_state g VFloat (np_normal mean sigma g)
  | CUniform lo hi => with_state g VFloat (Ok (gen_uniform lo hi g))
  | CIntegers lo hi => with_state g VInt (Ok (gen_integers lo hi g))
  | CIntegersN lo hi n => with_state g VInts (Ok (gen_integers_n lo hi n g))
  | CBytes n => with_state g VBytes (Ok (gen_bytes n g))
  | CChoice n p => with_state g VIndex (np_choice n p g)
  | CChoiceNoRepl n k => with_state g VIndices (np_choice_norepl n k g)
  | CMultinomial n pvals => with_state g VInts (np_multinomial n pvals g)
  end.

(** The values a generator in state [g] returns for a sequence of calls. *)
Fixpoint stream_of (g : Gen) (cs : list draw_call) : list (result draw_val) :=
  match cs with
  | [] => []
  | c :: rest => let '(v, g') := draw c g in v :: stream_of g' rest
  end.

Record world := { rng_obj : DeterministicRNG; derived : list Gen }.

Inductive op :=
| OSeedFor (key : pyval)            (* h = rng.seed_for(key), h the next handle *)
| ODraw (h : nat) (c : draw_call)   (* a draw on the derived generator h *)
| ODrawRoot (c : draw_call).        (* a draw on rng._root *)

Inductive event :=
| EDerived (h : nat)
| EDrew (h : nat) (v : result draw_val)
| EDrewRoot (v : result draw_val)
| ERaised (e : pyerr).

Definition step (w : world) (o : op) : world * event :=
  match o with
  | OSeedFor key =>
      match seed_for (rng_obj w) key with
      | Ok g => ({| rng_obj := rng_obj w; derived := derived w ++ [g] |},
                 EDerived (length (derived w)))
      | Raise e => (w, ERaised e)
      end
  | ODraw h c =>
      match derived w !! h with
      | Some g =>
          let '(v, g') := draw c g in
          ({| rng_obj := rng_obj w; derived := <[h := g']> (derived w) |}, EDrew h v)
      | None => (w, ERaised (ValueError "no such generator"))
      end
  | ODrawRoot c =>
      let '(v, g') := draw c (_root (rng_obj w)) in
      ({| rng_obj := {| global_seed := global_seed (rng_obj w); _root := g' |};
          derived := derived w |}, EDrewRoot v)
  end.

Fixpoint steps (w : world) (os : list op) : world * list event :=
  match os with
  | [] => (w, [])
  | o :: rest =>
      let '(w', e) := step w o in
      let '(w'', es) := steps w' rest in
      (w'', e :: es)
  end.

(** The calls a program makes on generator [h], and the values the events
    record for it. *)
Definition calls_on (h : nat) (os : list op) : list draw_call :=
  omap (fun o => match o with
                 | ODraw h' c => if Nat.eqb h' h then Some c else None
                 | _ => None
                 end) os.

Definition draws_on (h : nat) (es : list event) : list (result draw_val) :=
  omap (fun e => match e with
                 | EDrew h' v => if Nat.eqb h' h then Some v else None
                 | _ => None
                 end) es.

(** The first [N] values drawn from the generator that [seed_for key]
    returns in world [w], when the program [os] runs after it. *)
Definition first_draws (N : nat) (w : world) (key : pyval) (os : list op)
    : list (result draw_val) :=
  take N (draws_on (length (derived w)) (steps w (OSeedFor key :: os)).2).

(** The same, computed from the seed and the key alone. *)
Definition stream (seed : Z) (key : pyval) (cs : list draw_call) : list (result draw_val) :=
  match seed_for {| global_seed := seed; _root := default_rng seed |} key with
  | Ok g => stream_of g cs
  | Raise _ => []
  end.
End Streams.
End streams.
Export streams.

(* ===================================================================== *)
(** ** The allocation plan of a day

    The counts the nested loops of [generate_dataset] iterate over: the
    day total, its split by agent, each agent's split by shift, each
    shift's split by time bucket. *)
(* ===================================================================== *)

Module allocation.
Section Allocation.
Context {R : Runtime}.

Record ShiftPlan := { shift_key : pkey; shift_count : Z; by_bucket : list (pkey * Z) }.
Record AgentPlan := { agent_key : pkey; agent_count : Z; by_shift : list ShiftPlan }.
Record DayAllocation := { day_total : Z; by_agent : list AgentPlan }.

Definition allocation_plan (cfg : EffectiveConfig) (rng : DeterministicRNG)
    (day : calendar.DayPlan) : result DayAllocation :=
  vol ← estimate_daily_volume day cfg rng;
  agents ← split_by_agent (estimated vol) (calendar.is_weekend day) cfg rng;
  plans ← mapR (fun agent =>
                  agent_name ← as_str agent.1;
                  shifts ← split_by_shift agent_name agent.2 cfg rng;
                  shift_plans ← mapR (fun shift =>
                                        buckets ← split_by_time_buckets shift.2
                                                    (calendar.is_weekend day) cfg rng;
                                        Ok {| shift_key := shift.1; shift_count := shift.2;
                                              by_bucket := buckets |}) shifts;
                  Ok {| agent_key := agent.1; agent_count := agent.2;
                        by_shift := shift_plans |}) agents;
  Ok {| day_total := estimated vol; by_agent := plans |}.

(** Children sum to the parent at every level. *)
Definition conserved (p : DayAllocation) : Prop :=
  Zsum (map agent_count (by_agent p)) = day_total p ∧
  Forall (fun a =>
            Zsum (map shift_count (by_shift a)) = agent_count a ∧
            Forall (fun s => Zsum (dict_values (by_bucket s)) = shift_count s) (by_shift a))
         (by_agent p).

(** The probabilities [multinomial_split] computes from the float values of
    [ratios] before dividing them by their sum. *)
Definition split_probs (qs : list Q) : list Q :=
  if Qle_bool (py_sum qs) 0
  then map (fun _ => (1 / inject_Z (Z.of_nat (length qs)))%Q) qs
  else qs.

(** A branch of the allocation tree: the split of a day's total, of an
    agent's count on a day, of a shift's count of an agent on a day. *)
Inductive branch :=
| BDay (d : pydate)
| BAgent (d : pydate) (agent : string)
| BShift (d : pydate) (agent shift : string).

(** The RandomKey [generate_dataset] uses for the split of a branch whose
    day has the given [is_weekend] and whose count is [count]. *)
Definition branch_key (b : branch) (is_weekend : bool) (count : Z) : pyval :=
  match b with
  | BDay _ => split_by_agent_key is_weekend count
  | BAgent _ agent => split_by_shift_key agent
  | BShift _ _ _ => split_by_time_buckets_key is_weekend count
  end.
End Allocation.
End allocation.
Export allocation.

(** The customer key and the identity fields read back from a record. *)
Definition call_cust_key (call : Call) : option CustKey :=
  match call !! "customer_segment"%string, call !! "channel"%string, call !! "scenario"%string with
  | Some (PStr seg), Some (PStr ch), Some (PStr sc) => Some (seg, ch, scenario_topic sc)
  | _, _, _ => None
  end.

Definition call_identity_fields (call : Call) : option CustMeta :=
  match call !! "ANI"%string, call !! "region"%string, call !! "language"%string with
  | Some (PStr a), Some (PStr r), Some (PStr l) =>
      Some {| meta_ANI := a; meta_region := r; meta_language := l |}
  | _, _, _ => None
  end.

(** The fields assembled up to the NPS step, the three that a text-channel
    record omits apart; the fields added after the identity step; all
    fields but the three. *)
Definition EARLY_FIELDS : list string :=
  ["call_id"; "date"; "weekday"; "time_of_day_bucket"; "agent_name"; "team"; "agent_shift";
   "customer_segment"; "channel"; "region"; "language"; "device_type"; "intent"; "scenario";
   "AWT"; "Transfers_count"; "FCR";
   "repeat_call_within_72h"; "escalation"; "complaint_category";
   "NPS_score"; "sentiment_score"]%string.

Definition LATE_FIELDS : list string :=
  ["Silence_total_seconds"; "product"; "amount_bucket";
   "self_service_potential"; "automation_action_present"; "automation_action_type";
   "compliance_flags"; "kb_article_used"; "language_switch"; "pii_disclosure_flag";
   "script_adherence"]%string.

Definition OTHER_FIELDS : list string := EARLY_FIELDS ++ ["ANI"%string] ++ LATE_FIELDS.

(** The channel contract of a finished record. *)
Definition channel_contract (call : Call) : Prop :=
  ∃ ch, call !! "channel"%string = Some (PStr ch)
        ∧ (ch = "text"%string → Forall (fun k => call !! k = None) SUPPRESSED)
        ∧ (ch ≠ "text"%string → Forall (fun k => is_Some (call !! k)) SUPPRESSED)
        ∧ Forall (fun k => is_Some (call !! k)) OTHER_FIELDS.

(** The identity of a record is the cache entry of its customer key. *)
Definition identity_cached (cache : gmap CustKey CustMeta) (call : Call) : Prop :=
  ∃ k m, call_cust_key call = Some k ∧ call_identity_fields call = Some m
         ∧ cache !! k = Some m.

(** ["+49"] followed by 9 to 12 decimal digits. *)
Definition well_formed_ani (s : string) : Prop :=
  ∃ ds, s = ("+49" +:+ ds)%string ∧ (9 ≤ String.length ds ≤ 12)%nat
        ∧ Forall (fun c => is_digit c = true) (list_ascii_of_string ds).

(** A record written with validation on is a valid instance of the schema
    unless its channel is ["text"]. *)
Definition validated (validate : bool) (call : Call) : Prop :=
  validate = true → call !! "channel"%string ≠ Some (PStr "text") → call_violations call = [].

(** The bounds the samplers keep on the four bounded fields: the NPS score
    lies between 0 and the configured cap, the sentiment score in [-1, 1],
    the silence ratio (when the record has one) is not negative, the script
    adherence lies in [0, 100]. *)
Definition bounded_fields {R : Runtime} (cfg : EffectiveConfig) (call : Call) : Prop :=
  (∃ z cap, call !! "NPS_score"%string = Some (PInt z)
            ∧ py_int (get cfg "nps.corrections.happy_cap" (PInt 10)) = Ok cap
            ∧ 0 ≤ z ≤ py_maxZ 0 cap)
  ∧ (∃ q, call !! "sentiment_score"%string = Some (PFloat q) ∧ (-1 <= q)%Q ∧ (q <= 1)%Q)
  ∧ (∀ v, call !! "Silence_ratio"%string = Some v → ∃ q, v = PFloat q ∧ (0 <= q)%Q)
  ∧ (∃ q, call !! "script_adherence"%string = Some (PFloat q) ∧ (0 <= q)%Q ∧ (q <= 100)%Q).

(** What holds of the run state while [generate_dataset] loops, [n0] files
    having been there before the run: every file written since satisfies the
    channel contract, carries the identity cached for its customer key, was
    validated unless its channel is ["text"], and keeps the bounds of the
    samplers; the keys written to the cache are pairwise distinct and are
    the keys of the cache; every cached ANI is well formed. *)
Definition run_inv {R : Runtime} (cfg : EffectiveConfig) (validate : bool) (n0 : nat)
    (st : RunState) : Prop :=
  (n0 ≤ length (files st))%nat
  ∧ Forall (fun f => identity_cached (ani_cache st) (file_call f)
                     ∧ channel_contract (file_call f)
                     ∧ validated validate (file_call f)
                     ∧ bounded_fields cfg (file_call f))
           (drop n0 (files st))
  ∧ NoDup (cache_writes st)
  ∧ (∀ k, k ∈ cache_writes st ↔ is_Some (ani_cache st !! k))
  ∧ (∀ k m, ani_cache st !! k = Some m → well_formed_ani (meta_ANI m)).

(** The state a run starts in: the files already in the output directory;
    the identity cache is created by the run. *)
Definition start_state (fs : list File) : RunState :=
  {| ani_cache := ∅; cache_writes := []; files := fs |}.

(** The state a run ends in, whether it returns or raises; the files it has
    written; the keys it has assigned in the identity cache, in order. *)
Definition final_state {R : Runtime} (cfg : EffectiveConfig) (start_date end_date : pydate)
    (seed : Z) (validate : bool) (fs : list File) : RunState :=
  (exec (generate_dataset cfg start_date end_date seed validate) (start_state fs)).1.

Definition run_files {R : Runtime} (cfg : EffectiveConfig) (start_date end_date : pydate)
    (seed : Z) (validate : bool) (fs : list File) : list File :=
  drop (length fs) (files (final_state cfg start_date end_date seed validate fs)).

Definition run_cache_writes {R : Runtime} (cfg : EffectiveConfig) (start_date end_date : pydate)
    (seed : Z) (validate : bool) (fs : list File) : list CustKey :=
  cache_writes (final_state cfg start_date end_date seed validate fs).

(** The outcome of a run. *)
Definition run_outcome {R : Runtime} (cfg : EffectiveConfig) (start_date end_date : pydate)
    (seed : Z) (validate : bool) (fs : list File) : result () :=
  (exec (generate_dataset cfg start_date end_date seed validate) (start_state fs)).2.

(* ===================================================================== *)
(** ** Example configurations

    Small configurations on which the model is run with the reference
    runtime.  Every categorical table has a single label, so that the label
    drawn is the same for any generator.  Dates are ordinals: 738886 is
    Monday 2024-01-01. *)
(* ===================================================================== *)

Module examples.
Import reference_runtime.

Definition one (label : string) : pyval := PDict [(KStr label, PFloat 1)].

Definition member : pyval :=
  PDict [(KStr "team", PStr "Team A"); (KStr "shifts", one "Early")].

(** One agent on weekdays and one on weekend days, one shift, one bucket;
    [base_weekday = base_weekend = 10] and the default reduction factor 0.2
    give two calls a day. *)
Definition cfg_with (weekday_agent weekend_agent channel : string)
    (extra : list (pkey * pyval)) : EffectiveConfig :=
  {| data := PDict ([
       (KStr "agents",
        PDict [(KStr "allocation",
                PDict [(KStr "weekday", one weekday_agent);
                       (KStr "weekend", one weekend_agent)]);
               (KStr "members",
                PDict [(KStr "Monika_Mueller", member); (KStr "Bob", member)])]);
       (KStr "buckets", PDict [(KStr "weekday", one "Morning"); (KStr "weekend", one "Morning")]);
       (KStr "volume", PDict [(KStr "base_weekday", PInt 10); (KStr "base_weekend", PInt 10)]);
       (KStr "channels", PDict [(KStr "base", one channel)]);
       (KStr "geo", PDict [(KStr "region", one "ZH"); (KStr "language", one "DE")]);
       (KStr "devices", PDict [(KStr "base", one "iOS")]);
       (KStr "intents", PDict [(KStr "base", one "Cards")]);
       (KStr "scenarios", PDict [(KStr "base", one "Card lost")]);
       (KStr "products", PDict [(KStr "base", one "Card")]);
       (KStr "automation",
        PDict [(KStr "self_service_potential", one "Low");
               (KStr "action_type", one "check balance")]);
       (KStr "compliance",
        PDict [(KStr "pass_rates",
                PDict [(KStr "Greeting", PFloat (9 # 10)); (KStr "Empathy", PFloat (9 # 10));
                       (KStr "Summary", PFloat (9 # 10)); (KStr "Farewell", PFloat (9 # 10))])])
     ] ++ extra) |}.

Definition cfg_voice : EffectiveConfig := cfg_with "Monika_Mueller" "Monika_Mueller" "voice" [].
Definition cfg_text : EffectiveConfig := cfg_with "Monika_Mueller" "Monika_Mueller" "text" [].

(** On weekdays every call goes to an agent whose name the schema does not
    list; on weekend days to one it lists. *)
Definition cfg_unknown_agent : EffectiveConfig := cfg_with "Bob" "Monika_Mueller" "voice" [].

(** A cap of 12 on the NPS score with all weight on the base score 12 and
    no corrections; a silence ratio of mean 150 and deviation 0. *)
Definition cfg_out_of_range : EffectiveConfig :=
  cfg_with "Monika_Mueller" "Monika_Mueller" "voice"
    [(KStr "nps",
      PDict [(KStr "base_weights", PDict [(KInt 12, PFloat 1)]);
             (KStr "corrections",
              PDict [(KStr "happy_cap", PInt 12); (KStr "awt_gt_120", PInt 0);
                     (KStr "fcr_zero", PInt 0); (KStr "premium_waittime", PInt 0)])]);
     (KStr "ops",
      PDict [(KStr "silence_ratio", PDict [(KStr "mean", PFloat 150); (KStr "sigma", PFloat 0)])])].

(** One outage in the week, app issues on the two days after it. *)
Definition cfg_incident : EffectiveConfig :=
  {| data := PDict [(KStr "calendar",
                     PDict [(KStr "incidents",
                             PDict [(KStr "outages_count", PInt 1);
                                    (KStr "app_issue_after_outage_days", PInt 2)])])] |}.

Definition monday : pydate := 738886.
Definition friday : pydate := 738890.
Definition saturday : pydate := 738891.
Definition sunday : pydate := 738892.

(** The [i]-th file of a list, an empty file if there is none; one of its
    fields. *)
Definition nth_file (l : list File) (i : nat) : File :=
  nth i l {| file_dir := ""; file_name := ""; file_call := ∅ |}.

Definition field (l : list File) (i : nat) (k : string) : option pyval :=
  file_call (nth_file l i) !! k.

Definition rng42 : DeterministicRNG := {| global_seed := 42; _root := 42 |}.

End examples.

(* ===================================================================== *)
(** ** config.py: merging the base configuration with the overrides *)
(* ===================================================================== *)

(** The value [_deep_merge] stores at a key of [out]: [_deep_merge(out[k], v)]
    when both [v] and [out.get(k)] are dicts, [deepcopy(v)] otherwise.  The
    loop over [b.items()] is the [foldl]. *)
Fixpoint merged_value (old : option pyval) (v : pyval) {struct v} : pyval :=
  match v, old with
  | PDict b, Some (PDict a) =>
      PDict (foldl (fun out kv => dict_set out kv.1 (merged_value (dict_get out kv.1) kv.2)) a b)
  | _, _ => v
  end.

Definition _deep_merge (a b : list (pkey * pyval)) : list (pkey * pyval) :=
  foldl (fun out kv => dict_set out kv.1 (merged_value (dict_get out kv.1) kv.2)) a b.

(** Every dict inside a value has pairwise distinct keys (as every Python
    dict has). *)
Fixpoint dicts_wf (v : pyval) : bool :=
  match v with
  | PDict d => bool_decide (NoDup (map fst d)) && forallb (fun kv => dicts_wf kv.2) d
  | PList l | PTuple l => forallb dicts_wf l
  | _ => true
  end.

Definition is_dict (v : pyval) : bool :=
  match v with
  | PDict _ => true
  | _ => false
  end.

(* ===================================================================== *)
(** ** Shapes of the values [rng.py] returns *)
(* ===================================================================== *)

Definition is_hex_lower (c : ascii) : bool :=
  let n := nat_of_ascii c in
  ((48 <=? n)%nat && (n <=? 57)%nat) || ((97 <=? n)%nat && (n <=? 102)%nat).

(** The character at position [i] of the text form of a version-4 UUID:
    hyphens at 8, 13, 18 and 23, the version digit [4] at 14, the variant
    digit [8], [9], [a] or [b] at 19, lower-case hexadecimal digits
    elsewhere. *)
Definition uuid4_char_ok (i : nat) (c : ascii) : bool :=
  if Nat.eqb i 8 || Nat.eqb i 13 || Nat.eqb i 18 || Nat.eqb i 23 then Ascii.eqb c "-"
  else if Nat.eqb i 14 then Ascii.eqb c "4"
  else if Nat.eqb i 19 then
    Ascii.eqb c "8" || Ascii.eqb c "9" || Ascii.eqb c "a" || Ascii.eqb c "b"
  else is_hex_lower c.

Definition is_uuid4 (s : string) : bool :=
  let cs := list_ascii_of_string s in
  Nat.eqb (length cs) 36 && forallb (fun ic => uuid4_char_ok ic.1 ic.2) (zip (seq 0 36) cs).

(** The body of the loop of [_apply_adjustments]:
    [out[k] = out.get(k, 0.0) + float(v)]. *)
Definition adjust_step {R : Runtime} (acc : result (list (pkey * pyval))) (kv : pkey * pyval)
    : result (list (pkey * pyval)) :=
  out ← acc;
  v ← py_float kv.2;
  old ← py_number (default (PFloat 0) (dict_get out kv.1));
  Ok (dict_set out kv.1 (PFloat (old + v))).

(* ===================================================================== *)
(** ** Where a call is generated *)
(* ===================================================================== *)

(** The position of the loops of [generate_dataset] when the body of the
    innermost loop runs for call [i]: the generator of the run, a day of
    the calendar, an agent of the day's split, a shift of the agent's split,
    a bucket of the shift's split, and [i] below the bucket's count. *)
Definition call_site {R : Runtime} (cfg : EffectiveConfig) (start_date end_date : pydate)
    (seed : Z) (rng : DeterministicRNG) (day : calendar.DayPlan)
    (agent_name team shift_name bucket : string) (i : Z) : Prop :=
  DeterministicRNG_init seed = Ok rng
  ∧ ∃ days vol by_agent agent_count by_shift shift_count by_bucket n_calls,
      calendar.make_calendar start_date end_date cfg rng = Ok days
      ∧ day ∈ days
      ∧ estimate_daily_volume day cfg rng = Ok vol
      ∧ split_by_agent (estimated vol) (calendar.is_weekend day) cfg rng = Ok by_agent
      ∧ (KStr agent_name, agent_count) ∈ by_agent
      ∧ split_by_shift agent_name agent_count cfg rng = Ok by_shift
      ∧ team_of cfg agent_name = Ok team
      ∧ (KStr shift_name, shift_count) ∈ by_shift
      ∧ split_by_time_buckets shift_count (calendar.is_weekend day) cfg rng = Ok by_bucket
      ∧ (KStr bucket, n_calls) ∈ by_bucket
      ∧ 0 ≤ i < n_calls.

(* ===================================================================== *)
(** ** The records of a run *)
(* ===================================================================== *)

(** Fields of one record that are derived from each other in the loop body
    of [generate_dataset]: the escalation from the FCR flag
    ([sample_resolution]), the amount bucket from the product
    ([sample_products]), the automation action type from its presence flag
    ([sample_automation]); and the total silence, which is truncated at 0
    ([sample_silence_total_seconds]). *)
Definition cross_field_consistent (call : Call) : Prop :=
  (∃ fcr esc,
     call !! "FCR"%string = Some (PBool fcr)
     ∧ call !! "escalation"%string = Some (PStr esc)
     ∧ (fcr = true ↔ esc = "None"%string)
     ∧ esc ∈ ["None"; "Supervisor"; "Backoffice"; "IT Ticket"]%string)
  ∧ (∃ prod,
       call !! "product"%string = Some (PStr prod)
       ∧ (call !! "amount_bucket"%string = Some PNone
          ↔ prod ∉ ["Transfer"; "Loan"; "Hypothek"]%string))
  ∧ (∃ present,
       call !! "automation_action_present"%string = Some (PBool present)
       ∧ (call !! "automation_action_type"%string = Some PNone ↔ present = false))
  ∧ (∃ q, call !! "Silence_total_seconds"%string = Some (PFloat q) ∧ (0 <= q)%Q).

(** Where a written file comes from: its name is the record's [call_id]
    followed by [.json], the id has the form of a version-4 UUID, the date
    is the ISO form of a day of the requested range, the weekday is the
    label of that date, and the team is the one the configuration gives the
    record's agent. *)
Definition record_provenance {R : Runtime} (cfg : EffectiveConfig)
    (start_date end_date : pydate) (f : File) : Prop :=
  ∃ id d agent team,
    file_name f = (id +:+ ".json")%string
    ∧ is_uuid4 id = true
    ∧ start_date ≤ d ≤ end_date
    ∧ team_of cfg agent = Ok team
    ∧ file_call f !! "call_id"%string = Some (PStr id)
    ∧ file_call f !! "date"%string = Some (PStr (isoformat d))
    ∧ file_call f !! "weekday"%string
      = Some (PStr (calendar.weekday_label (calendar.date_weekday d)))
    ∧ file_call f !! "agent_name"%string = Some (PStr agent)
    ∧ file_call f !! "team"%string = Some (PStr team).

(* ===================================================================== *)
(** ** The split of a branch *)
(* ===================================================================== *)

(** The split [generate_dataset] makes at a branch whose day has the given
    [is_weekend] and whose count is [count]. *)
Definition branch_split {R : Runtime} (cfg : EffectiveConfig) (rng : DeterministicRNG)
    (b : branch) (is_weekend : bool) (count : Z) : result (list (pkey * Z)) :=
  match b with
  | BDay _ => split_by_agent count is_weekend cfg rng
  | BAgent _ agent => split_by_shift agent count cfg rng
  | BShift _ _ _ => split_by_time_buckets count is_weekend cfg rng
  end.

(* ===================================================================== *)
(** ** The loops of [generate_dataset], one by one *)
(* ===================================================================== *)

(** The bodies of the five loops of [generate_dataset], from the innermost
    out: the loop over the calls of a time bucket, over the buckets of a
    shift, over the shifts of an agent, over the agents of a day, and the
    body of the loop over the days. *)
Definition bucket_body {R : Runtime} (cfg : EffectiveConfig) (seed : Z) (validate : bool)
    (rng : DeterministicRNG) (day : calendar.DayPlan) (agent_name team shift_name : string)
    (bk : pkey * Z) : run () :=
  bucket ← lift (as_str bk.1);
  for_each (py_range 0 bk.2) (fun i =>
    generate_call cfg seed validate rng day agent_name team shift_name bucket i).

Definition shift_body {R : Runtime} (cfg : EffectiveConfig) (seed : Z) (validate : bool)
    (rng : DeterministicRNG) (day : calendar.DayPlan) (agent_name team : string)
    (shift : pkey * Z) : run () :=
  shift_name ← lift (as_str shift.1);
  by_bucket ← lift (split_by_time_buckets shift.2 (calendar.is_weekend day) cfg rng);
  for_each by_bucket (bucket_body cfg seed validate rng day agent_name team shift_name).

Definition agent_body {R : Runtime} (cfg : EffectiveConfig) (seed : Z) (validate : bool)
    (rng : DeterministicRNG) (day : calendar.DayPlan) (agent : pkey * Z) : run () :=
  agent_name ← lift (as_str agent.1);
  by_shift ← lift (split_by_shift agent_name agent.2 cfg rng);
  team ← lift (team_of cfg agent_name);
  for_each by_shift (shift_body cfg seed validate rng day agent_name team).

Definition day_body {R : Runtime} (cfg : EffectiveConfig) (seed : Z) (validate : bool)
    (rng : DeterministicRNG) (day : calendar.DayPlan) : run () :=
  day_rng ← lift (seed_for rng (PTuple [PStr "day"; PStr (isoformat (calendar.date day))]));
  vol ← lift (estimate_daily_volume day cfg rng);
  by_agent ← lift (split_by_agent (estimated vol) (calendar.is_weekend day) cfg rng);
  for_each by_agent (agent_body cfg seed validate rng day).

(** What a loop body computes before its inner loop starts; none of it
    reads or writes the run state. *)
Definition day_plan {R : Runtime} (cfg : EffectiveConfig) (rng : DeterministicRNG)
    (day : calendar.DayPlan) : result (list (pkey * Z)) :=
  day_rng ← seed_for rng (PTuple [PStr "day"; PStr (isoformat (calendar.date day))]);
  vol ← estimate_daily_volume day cfg rng;
  split_by_agent (estimated vol) (calendar.is_weekend day) cfg rng.

Definition agent_plan {R : Runtime} (cfg : EffectiveConfig) (rng : DeterministicRNG)
    (agent : pkey * Z) : result (string * string * list (pkey * Z)) :=
  agent_name ← as_str agent.1;
  by_shift ← split_by_shift agent_name agent.2 cfg rng;
  team ← team_of cfg agent_name;
  Ok (agent_name, team, by_shift).

Definition shift_plan {R : Runtime} (cfg : EffectiveConfig) (rng : DeterministicRNG)
    (day : calendar.DayPlan) (shift : pkey * Z) : result (string * list (pkey * Z)) :=
  shift_name ← as_str shift.1;
  by_bucket ← split_by_time_buckets shift.2 (calendar.is_weekend day) cfg rng;
  Ok (shift_name, by_bucket).

(** A loop ends at an element: the elements before it went through, the
    body raises [e] at it and leaves the state [st']; the elements after it
    are not visited. *)
Definition raises_at {A} (xs : list A) (body : A → run ()) (st st' : RunState) (e : pyerr)
    : Prop :=
  ∃ pre x post st1,
    xs = pre ++ x :: post
    ∧ exec (for_each pre body) st = (st1, Ok ())
    ∧ exec (body x) st1 = (st', Raise e).

(* ===================================================================== *)
(** ** Weights in binary64

    [normalize] and [_normalize] once more, on Python floats with their
    rounding and overflow.  A finite float is held as the rational number it
    denotes (the sign of a zero is not kept); an integer weight of a
    configuration is held as its value.  The arithmetic of the interpreter
    is a parameter: [f_sum] is [sum(...)] of non-negative floats from [0],
    [f_div] is [/].  [ArithLaws] is what IEEE 754 binary64 and CPython
    guarantee of them (the standard model of floating-point arithmetic,
    N. Higham, Accuracy and Stability of Numerical Algorithms, 2.2 and 4.2):
    a quotient is the exact quotient rounded, with relative error at most
    the unit roundoff [u = 2^-53] or, for a subnormal result, absolute error
    at most [eta = 2^-1075]; a sum of [n] non-negative floats differs from
    the exact sum by at most [gamma n] times the sum, or is [+inf] when the
    sum exceeds the range.  A division by zero does not occur in
    [normalize]. *)
(* ===================================================================== *)

Module binary64.

Inductive float :=
| Fin (q : Q)
| Inf (neg : bool)
| NaN.

(** Unit roundoff, half the smallest subnormal, and [gamma n = n u / (1 - n u)]. *)
Definition u : Q := 1 # 9007199254740992.
Definition eta : Q := Qmake 1 (2 ^ 1075).
Definition gamma (n : nat) : Q :=
  (inject_Z (Z.of_nat n) * u / (1 - inject_Z (Z.of_nat n) * u))%Q.

Class Arith := {
  f_sum : list float → float;
  f_div : float → float → float;
}.

Class ArithLaws (F : Arith) : Prop := {
  f_sum_nonneg (qs : list Q) :
    Forall (fun q => (0 <= q)%Q) qs → Z.of_nat (length qs) < 4503599627370496 →
    match f_sum (map Fin qs) with
    | Fin t => (Qabs (t - py_sum qs) <= gamma (length qs) * py_sum qs)%Q
    | Inf neg => neg = false ∧ (inject_Z (2 ^ 1023) <= py_sum qs)%Q
    | NaN => False
    end;
  f_div_rounded (a b : Q) :
    (0 <= a)%Q → (0 < b)%Q → (a <= 2 * b)%Q →
    ∃ q, f_div (Fin a) (Fin b) = Fin q
         ∧ (0 <= q)%Q ∧ (Qabs (q - a / b) <= u * (a / b) + eta)%Q;
  f_div_inf (a : Q) : f_div (Fin a) (Inf false) = Fin 0;
}.

Section Weights.
Context {F : Arith}.

(** [max(0.0, v)]: [v] only when [v > 0.0]. *)
Definition max0 (v : float) : float :=
  match v with
  | Fin q => if Qltb 0 q then v else Fin 0
  | Inf false => v
  | _ => Fin 0
  end.

(** [total <= 0.0] *)
Definition le0 (t : float) : bool :=
  match t with
  | Fin q => Qle_bool q 0
  | Inf neg => neg
  | NaN => false
  end.

(** [DeterministicRNG.normalize] *)
Definition normalize (weights : list (pkey * float)) : list (pkey * float) :=
  let total := f_sum (map (fun kv => max0 kv.2) weights) in
  if le0 total then
    let n := if Nat.eqb (length weights) 0 then 1%nat else length weights in
    map (fun kv => (kv.1, f_div (Fin 1) (Fin (inject_Z (Z.of_nat n))))) weights
  else map (fun kv => (kv.1, f_div (max0 kv.2) total)) weights.

(** [weights._normalize]; the weights are numbers of the configuration. *)
Definition _normalize (weights : list (pkey * pyval)) : result (list (pkey * float)) :=
  ws ← weights_of weights;
  let ws := map (fun kv => (kv.1, Fin kv.2)) ws in
  let total := f_sum (map (fun kv => max0 kv.2) ws) in
  if le0 total then
    let n := if Nat.eqb (length ws) 0 then 1%nat else length ws in
    Ok (map (fun kv => (kv.1, f_div (Fin 1) (Fin (inject_Z (Z.of_nat n))))) ws)
  else Ok (map (fun kv => (kv.1, f_div (max0 kv.2) total)) ws).
End Weights.

(** An arithmetic to run the model on: exact, with overflow to infinity
    at [2^1024]. *)
Definition finite_values (l : list float) : option (list Q) :=
  foldr (fun x acc => match x, acc with
                      | Fin q, Some qs => Some (q :: qs)
                      | _, _ => None
                      end) (Some []) l.

Definition exact_sum (l : list float) : float :=
  match finite_values l with
  | Some qs =>
      let s := py_sum qs in
      if Qle_bool (inject_Z (2 ^ 1024)) s then Inf false
      else if Qle_bool s (- inject_Z (2 ^ 1024)) then Inf true
      else Fin s
  | None => NaN
  end.

Definition exact_div (a b : float) : float :=
  match a, b with
  | Fin x, Fin y => if Qeq_bool y 0 then NaN else Fin (x / y)
  | Fin _, Inf _ => Fin 0
  | Inf n, Fin y => Inf (xorb n (Qltb y 0))
  | _, _ => NaN
  end.

Definition exact_arith : Arith := {| f_sum := exact_sum; f_div := exact_div |}.

End binary64.

(* ===================================================================== *)
(** * Properties *)
(* ===================================================================== *)

(** ** Streams derived by [seed_for] *)

Section StreamFacts.
Context {R : Runtime}.

Lemma seed_for_seed_only (rng1 rng2 : DeterministicRNG) (key : pyval) :
  global_seed rng1 = global_seed rng2 → seed_for rng1 key = seed_for rng2 key.
Proof. intros Hs. unfold seed_for. by rewrite Hs. Qed.

Lemma stream_of_take (N : nat) (cs : list draw_call) (g : Gen) :
  take N (stream_of g cs) = stream_of g (take N cs).
Proof.
  revert N g. induction cs as [|c cs IH]; intros [|N] g; simpl; try done.
  destruct (draw c g) as [v g']. simpl. by rewrite IH.
Qed.

(** Steps never change the seed of the [DeterministicRNG]. *)
Lemma step_seed (w : world) (o : op) :
  global_seed (rng_obj (step w o).1) = global_seed (rng_obj w).
Proof.
  destruct o as [key|h c|c]; simpl.
  - by destruct (seed_for (rng_obj w) key).
  - destruct (derived w !! h); [|done]. by destruct (draw c g).
  - by destruct (draw c (_root (rng_obj w))).
Qed.

(** The values drawn from a live generator are its own stream, whatever
    else the program does. *)
Lemma draws_on_live (os : list op) (w : world) (h : nat) (g : Gen) :
  derived w !! h = Some g →
  draws_on h (steps w os).2 = stream_of g (calls_on h os).
Proof.
  revert w g. induction os as [|o os IH]; intros w g Hg; [done|].
  simpl. destruct (step w o) as [w' e] eqn:Hstep.
  destruct (steps w' os) as [w'' es] eqn:Hsteps. simpl.
  specialize (IH w'). rewrite Hsteps in IH. simpl in IH.
  destruct o as [key|h' c|c]; simpl in Hstep.
  - destruct (seed_for (rng_obj w) key); inversion Hstep; subst; simpl.
    + apply IH. simpl. by apply lookup_app_l_Some.
    + by apply IH.
  - destruct (derived w !! h') as [g0|] eqn:Hh'.
    + destruct (draw c g0) as [v g'] eqn:Hd. inversion Hstep; subst; simpl.
      destruct (Nat.eqb_spec h' h) as [->|Hne]; simpl.
      * rewrite Hg in Hh'. inversion Hh'; subst. rewrite Hd. f_equal.
        apply IH. simpl. apply list_lookup_insert_eq. by eapply lookup_lt_Some.
      * apply IH. simpl. by rewrite list_lookup_insert_ne.
    + inversion Hstep; subst; simpl.
      destruct (Nat.eqb_spec h' h) as [->|Hne]; [congruence|]. by apply IH.
  - destruct (draw c (_root (rng_obj w))) as [v g']. inversion Hstep; subst; simpl.
    by apply IH.
Qed.

(** When the seed does not fit 8 bytes no generator is ever derived. *)
Lemma draws_on_dead (os : list op) (w : world) (h : nat) (e : pyerr) :
  to_bytes8 (global_seed (rng_obj w)) = Raise e →
  (length (derived w) ≤ h)%nat →
  draws_on h (steps w os).2 = [].
Proof.
  revert w. induction os as [|o os IH]; intros w He Hh; [done|].
  simpl. destruct (step w o) as [w' ev] eqn:Hstep.
  destruct (steps w' os) as [w'' es] eqn:Hsteps. simpl.
  specialize (IH w'). rewrite Hsteps in IH. simpl in IH.
  assert (Hseed : global_seed (rng_obj w') = global_seed (rng_obj w)).
  { replace w' with (step w o).1 by (by rewrite Hstep). apply step_seed. }
  destruct o as [key|h' c|c]; simpl in Hstep.
  - unfold seed_for in Hstep. rewrite He in Hstep. simpl in Hstep.
    inversion Hstep; subst. simpl. by apply IH.
  - destruct (derived w !! h') as [g0|] eqn:Hh'.
    + destruct (draw c g0) as [v g']. inversion Hstep; subst; simpl.
      apply lookup_lt_Some in Hh'.
      destruct (Nat.eqb_spec h' h) as [->|Hne]; [lia|].
      apply IH; [done|]. simpl. by rewrite length_insert.
    + inversion Hstep; subst; simpl. by apply IH.
  - destruct (draw c (_root (rng_obj w))) as [v g']. inversion Hstep; subst; simpl.
    by apply IH.
Qed.

(** The stream of a derived generator is a function of the seed and the
    key: the world it was derived in and the operations on other generators
    do not enter. *)
Lemma first_draws_stream (N : nat) (w : world) (key : pyval) (os : list op) :
  first_draws N w key os
  = take N (stream (global_seed (rng_obj w)) key (calls_on (length (derived w)) os)).
Proof.
  unfold first_draws, stream. f_equal.
  rewrite (seed_for_seed_only _ (rng_obj w) key) by done.
  simpl. destruct (seed_for (rng_obj w) key) as [g|e] eqn:Hs.
  - destruct (steps _ os) as [w'' es] eqn:Hsteps. simpl.
    change es with (w'', es).2. rewrite <- Hsteps.
    apply draws_on_live. simpl. by rewrite lookup_app_r, Nat.sub_diag.
  - destruct (steps w os) as [w'' es] eqn:Hsteps. simpl.
    change es with (w'', es).2. rewrite <- Hsteps.
    unfold seed_for in Hs.
    destruct (to_bytes8 (global_seed (rng_obj w))) as [sb|e'] eqn:Hb; [done|].
    by eapply draws_on_dead.
Qed.
End StreamFacts.

(** C1.  Two generators derived with the same seed and the same key return
    the same first [N] values, for every [N], when the same first [N] calls
    are made on each: the worlds they are derived in (everything derived
    and drawn before) and the operations interleaved with the draws (on the
    root generator, on other derived generators, further derivations) are
    arbitrary and may differ. *)
Theorem seed_for_same_key_same_draws {R : Runtime} (w1 w2 : world) (key : pyval)
    (os1 os2 : list op) (N : nat) :
  global_seed (rng_obj w1) = global_seed (rng_obj w2) →
  take N (calls_on (length (derived w1)) os1) = take N (calls_on (length (derived w2)) os2) →
  first_draws N w1 key os1 = first_draws N w2 key os2.
Proof.
  intros Hseed Hcalls. rewrite !first_draws_stream, <- Hseed. unfold stream.
  destruct (seed_for _ key) as [g|e]; [|done].
  by rewrite !stream_of_take, Hcalls.
Qed.

(** ** The reference runtime satisfies the laws *)

#[export] Instance ref_runtime_laws : RuntimeLaws reference_runtime.ref_runtime.
Proof.
  split; simpl.
  - intros lo hi g Hlt. pose proof (Z.mod_pos_bound g (hi - lo)). lia.
  - intros lo hi n g. by rewrite length_map, length_seq.
  - intros lo hi n g Hlt. apply Forall_forall. intros d Hd.
    apply list_elem_of_In, in_map_iff in Hd. destruct Hd as (i & <- & _).
    pose proof (Z.mod_pos_bound (g + Z.of_nat i) (hi - lo)). lia.
  - intros p g Hp. destruct p as [|x p]; [done|].
    pose proof (Z.mod_pos_bound g (Z.of_nat (length (x :: p)))) as Hb.
    simpl length in *. lia.
  - intros n p g. destruct p; simpl; [done|]. by rewrite length_map.
  - intros n p g Hn. destruct p; simpl; [constructor|].
    constructor; [done|]. apply Forall_forall. intros c Hc.
    apply list_elem_of_In, in_map_iff in Hc. destruct Hc as (? & <- & _). done.
  - intros n p g Hn Hp _. destruct p as [|x p]; [done|]. simpl.
    assert (Zsum (map (fun _ : Q => 0) p) = 0) as ->; [|lia].
    clear. induction p; simpl; lia.
Qed.

(** ** Sums of rationals *)

Lemma fold_left_Qplus_acc (l : list Q) (a : Q) :
  (fold_left Qplus l a == a + fold_left Qplus l 0)%Q.
Proof.
  revert a. induction l as [|x l IH]; intros a; simpl.
  - ring.
  - rewrite (IH (a + x)%Q), (IH (0 + x)%Q). ring.
Qed.

Section SumFacts.
Context {R : Runtime}.

Lemma py_sum_cons (x : Q) (l : list Q) : (py_sum (x :: l) == x + py_sum l)%Q.
Proof. unfold py_sum. simpl. rewrite fold_left_Qplus_acc. ring. Qed.

Lemma py_sum_nil : py_sum [] = 0%Q.
Proof. done. Qed.

Lemma py_sum_nonneg (l : list Q) : Forall (fun x => (0 <= x)%Q) l → (0 <= py_sum l)%Q.
Proof.
  induction 1 as [|x l Hx _ IH]; [done|].
  rewrite py_sum_cons. replace 0%Q with (0 + 0)%Q by done. by apply Qplus_le_compat.
Qed.

Lemma py_sum_elem_le (l : list Q) (x : Q) :
  Forall (fun x => (0 <= x)%Q) l → x ∈ l → (x <= py_sum l)%Q.
Proof.
  induction 1 as [|y l Hy Hl IH]; intros Hin; [by apply elem_of_nil in Hin|].
  rewrite py_sum_cons. apply elem_of_cons in Hin as [->|Hin].
  - rewrite <- (Qplus_0_r y) at 1. apply Qplus_le_compat; [apply Qle_refl|by apply py_sum_nonneg].
  - rewrite <- (Qplus_0_l x). apply Qplus_le_compat; [done|by apply IH].
Qed.

Lemma py_sum_map_div (l : list Q) (s : Q) :
  (py_sum (map (fun p => p / s) l) == py_sum l / s)%Q.
Proof.
  induction l as [|x l IH]; simpl.
  - unfold py_sum. simpl. unfold Qdiv. ring.
  - rewrite !py_sum_cons, IH. unfold Qdiv. ring.
Qed.

Lemma py_sum_removelast_le (l : list Q) :
  Forall (fun x => (0 <= x)%Q) l → (py_sum (removelast l) <= py_sum l)%Q.
Proof.
  induction 1 as [|x l Hx Hl IH]; [apply Qle_refl|].
  destruct l as [|y l].
  - simpl. rewrite py_sum_cons. unfold py_sum. simpl.
    by rewrite Qplus_0_r.
  - change (removelast (x :: y :: l)) with (x :: removelast (y :: l)).
    rewrite (py_sum_cons x (removelast (y :: l))), (py_sum_cons x (y :: l)).
    apply Qplus_le_compat; [apply Qle_refl|done].
Qed.

Lemma py_sum_const (n : nat) (c : Q) :
  (py_sum (replicate n c) == inject_Z (Z.of_nat n) * c)%Q.
Proof.
  induction n as [|n IH].
  - unfold py_sum. simpl. ring.
  - change (replicate (S n) c) with (c :: replicate n c).
    rewrite py_sum_cons, IH, Nat2Z.inj_succ. unfold Z.succ. rewrite inject_Z_plus. ring.
Qed.
End SumFacts.

(** ** Results and [mapR] *)

Ltac bind_inv H :=
  let E := fresh "E" in
  match type of H with
  | mbind _ ?m = Ok _ =>
      destruct m eqn:E; [unfold mbind, result_bind in H; simpl in H|discriminate H]
  | fmap _ ?m = Ok _ =>
      destruct m eqn:E; [unfold fmap, result_fmap in H; simpl in H|discriminate H]
  | match ?m with Ok _ => _ | Raise _ => _ end = Ok _ =>
      destruct m eqn:E; [simpl in H|discriminate H]
  end.

Lemma bind_Ok_inv {A B} (f : A → result B) (m : result A) (b : B) :
  mbind f m = Ok b → ∃ a, m = Ok a ∧ f a = Ok b.
Proof. destruct m as [a|e]; [by exists a|discriminate]. Qed.

(** One step through a computation known to return: the bound result gets
    a name, a [let] becomes a local definition. *)
Ltac step_Ok H :=
  lazymatch type of H with
  | mbind _ _ = Ok _ =>
      let a := fresh "a" in
      let E := fresh "E" in
      apply bind_Ok_inv in H; destruct H as (a & E & H); cbv beta in H
  | match ?p with pair _ _ => _ end = Ok _ =>
      destruct p eqn:?; cbv beta iota in H
  | (let x := ?v in _) = Ok _ =>
      let x' := fresh x in
      set (x' := v) in H; cbv zeta in H
  end.

Lemma mapR_Forall2 {A B} (f : A → result B) (l : list A) (l' : list B) :
  mapR f l = Ok l' ↔ Forall2 (fun x y => f x = Ok y) l l'.
Proof.
  revert l'. induction l as [|x l IH]; intros l'; simpl.
  - split; [intros [= <-]; constructor|by inversion 1].
  - split.
    + intros H. bind_inv H. bind_inv H. inversion H; subst.
      constructor; [done|]. by apply IH.
    + inversion 1 as [|? y ? l'' Hf Hl]; subst. rewrite Hf. simpl.
      apply IH in Hl. rewrite Hl. done.
Qed.

Lemma mapR_length {A B} (f : A → result B) (l : list A) (l' : list B) :
  mapR f l = Ok l' → length l' = length l.
Proof. intros H. apply mapR_Forall2 in H. symmetry. by eapply Forall2_length. Qed.

Lemma map_fst_zip {A B} (l : list A) (k : list B) :
  length l = length k → map fst (zip l k) = l.
Proof.
  revert k. induction l as [|x l IH]; intros [|y k] Hlen; simpl in *; try done.
  f_equal. apply IH. lia.
Qed.

Lemma map_snd_zip {A B} (l : list A) (k : list B) :
  length l = length k → map snd (zip l k) = k.
Proof.
  revert k. induction l as [|x l IH]; intros [|y k] Hlen; simpl in *; try done.
  f_equal. apply IH. lia.
Qed.

Lemma Zsum_zeros {A} (l : list A) : Zsum (map (fun _ => 0) l) = 0.
Proof. induction l; simpl; lia. Qed.

Lemma Qltb_false (a b : Q) : Qltb a b = false ↔ (b <= a)%Q.
Proof. unfold Qltb. rewrite negb_false_iff. apply Qle_bool_iff. Qed.

Lemma Qltb_true (a b : Q) : Qltb a b = true ↔ (a < b)%Q.
Proof.
  unfold Qltb. rewrite negb_true_iff. split.
  - intros H. apply Qnot_le_lt. intros Hle. apply Qle_bool_iff in Hle. congruence.
  - intros H. destruct (Qle_bool b a) eqn:E; [|done].
    apply Qle_bool_iff in E. exfalso. by eapply Qlt_not_le.
Qed.

Lemma Qle_bool_false (a b : Q) : Qle_bool a b = false ↔ (b < a)%Q.
Proof.
  split.
  - intros H. apply Qnot_le_lt. intros Hle. apply Qle_bool_iff in Hle. congruence.
  - intros H. destruct (Qle_bool a b) eqn:E; [|done].
    apply Qle_bool_iff in E. exfalso. by eapply Qlt_not_le.
Qed.

(** ** Allocation conservation *)

Section SplitFacts.
Context {R : Runtime} {L : RuntimeLaws R}.

Lemma split_probs_length (qs : list Q) : length (split_probs qs) = length qs.
Proof. unfold split_probs. destruct (Qle_bool _ _); [by rewrite length_map|done]. Qed.

(** Whenever [multinomial_split] returns, it returns one count per key, the
    counts are non-negative and they sum to [total]. *)
Lemma multinomial_split_conserves (self : DeterministicRNG) (total : Z)
    (ratios : list (pkey * pyval)) (rng : option Gen) (m : list (pkey * Z)) (g' : Gen) :
  0 ≤ total →
  multinomial_split self total ratios rng = Ok (m, g') →
  dict_keys m = dict_keys ratios ∧ Zsum (dict_values m) = total
  ∧ Forall (fun c => 0 ≤ c) (dict_values m).
Proof.
  intros Htot H. unfold multinomial_split in H.
  bind_inv H. rename a into qs. apply mapR_length in E.
  unfold dict_values in E. rewrite length_map in E.
  fold (split_probs qs) in H. pose proof (split_probs_length qs) as Hlen.
  destruct (0 <? total) eqn:Hpos.
  - bind_inv H. destruct a as [draws r']. inversion H; subst. clear H.
    unfold np_multinomial in E0.
    destruct (_ || _); [done|].
    destruct (Nat.eqb _ 0) eqn:Hne; [done|].
    destruct (forallb _ _) eqn:Hok; [|done]. cbn [negb] in E0.
    destruct (Qltb _ _); [done|].
    destruct (total <? 0); [done|].
    set (pv := map (fun p => (p / py_sum (split_probs qs))%Q) (split_probs qs)) in *.
    assert (Hgm : gen_multinomial total pv (rng_or_root self rng) = (draws, g')) by congruence.
    clear E0.
    assert (length draws = length ratios) as Hl.
    { pose proof (gen_multinomial_length total pv (rng_or_root self rng)) as Hl.
      rewrite Hgm in Hl. simpl in Hl. rewrite Hl. unfold pv. rewrite length_map. congruence. }
    unfold dict_keys, dict_values.
    rewrite map_fst_zip, map_snd_zip by (by rewrite length_map).
    split; [done|]. split.
    + pose proof (gen_multinomial_sum total pv (rng_or_root self rng) Htot) as Hs.
      rewrite Hgm in Hs. apply Hs.
      * intros Hnil. by rewrite Hnil in Hne.
      * apply Forall_forall. intros x Hx.
        rewrite forallb_forall in Hok. apply list_elem_of_In, Hok in Hx.
        unfold pvals_ok in Hx. apply andb_true_iff in Hx as [H0 H1].
        by apply Qle_bool_iff in H0, H1.
    + pose proof (gen_multinomial_nonneg total pv (rng_or_root self rng) Htot) as Hs.
      by rewrite Hgm in Hs.
  - simpl in H. inversion H; subst. clear H.
    assert (total = 0) as -> by lia.
    unfold dict_keys, dict_values.
    rewrite map_fst_zip, map_snd_zip by (rewrite !length_map; congruence).
    split; [done|]. split; [apply Zsum_zeros|].
    apply Forall_forall. intros c Hc.
    apply list_elem_of_In, in_map_iff in Hc. destruct Hc as (? & <- & _). done.
Qed.
End SplitFacts.

Section SplitExists.
Context {R : Runtime} {L : RuntimeLaws R}.

Lemma map_const_replicate {A B} (l : list A) (c : B) :
  map (fun _ => c) l = replicate (length l) c.
Proof. induction l; simpl; [done|by f_equal]. Qed.

Lemma inject_Z_pos (n : nat) : (0 < n)%nat → (0 < inject_Z (Z.of_nat n))%Q.
Proof. intros Hn. change 0%Q with (inject_Z 0). rewrite <- Zlt_Qlt. lia. Qed.

Lemma split_probs_nonneg (qs : list Q) :
  Forall (fun x => (0 <= x)%Q) qs → Forall (fun x => (0 <= x)%Q) (split_probs qs).
Proof.
  intros Hqs. unfold split_probs. destruct (Qle_bool _ _); [|done].
  apply Forall_forall. intros x Hx.
  apply list_elem_of_In, in_map_iff in Hx. destruct Hx as (y & <- & Hy).
  destruct qs as [|q qs]; [done|].
  apply Qle_shift_div_l; [by apply inject_Z_pos; simpl; lia|]. by rewrite Qmult_0_l.
Qed.

Lemma split_probs_sum_pos (qs : list Q) :
  qs ≠ [] → (0 < py_sum (split_probs qs))%Q.
Proof.
  intros Hne. unfold split_probs. destruct (Qle_bool _ _) eqn:E.
  - rewrite map_const_replicate, py_sum_const.
    assert (0 < length qs)%nat as Hn by (destruct qs; [done|simpl; lia]).
    apply inject_Z_pos in Hn.
    assert (inject_Z (Z.of_nat (length qs)) * (1 / inject_Z (Z.of_nat (length qs))) == 1)%Q
      as ->; [|done].
    field. intros H0. rewrite H0 in Hn. by apply Qlt_irrefl in Hn.
  - by apply Qle_bool_false in E.
Qed.

(** With non-negative probabilities of positive sum the argument checks of
    [r.multinomial] pass. *)
Lemma np_multinomial_accepts (n : Z) (ps : list Q) (g : Gen) :
  0 ≤ n < 2 ^ 63 → ps ≠ [] → Forall (fun x => (0 <= x)%Q) ps → (0 < py_sum ps)%Q →
  np_multinomial n (map (fun p => (p / py_sum ps)%Q) ps) g
  = Ok (gen_multinomial n (map (fun p => (p / py_sum ps)%Q) ps) g).
Proof.
  intros Hn Hne Hnn Hpos. unfold np_multinomial.
  assert (((n <? - 2 ^ 63) || (2 ^ 63 <=? n)) = false) as -> by lia.
  assert ((n <? 0) = false) as -> by lia.
  rewrite length_map.
  destruct ps as [|p0 ps0] eqn:Hps; [done|]. rewrite <- Hps in *. simpl Nat.eqb.
  assert (Nat.eqb (length ps) 0 = false) as -> by (rewrite Hps; done).
  assert (Forall (fun x => (0 <= x)%Q ∧ (x <= 1)%Q) (map (fun p => (p / py_sum ps)%Q) ps)) as Hok.
  { apply Forall_forall. intros x Hx.
    apply list_elem_of_In, in_map_iff in Hx. destruct Hx as (p & <- & Hp).
    apply list_elem_of_In in Hp. split.
    - apply Qle_shift_div_l; [done|]. rewrite Qmult_0_l.
      rewrite Forall_forall in Hnn. by apply Hnn.
    - apply Qle_shift_div_r; [done|]. rewrite Qmult_1_l. by apply py_sum_elem_le. }
  assert (forallb pvals_ok (map (fun p => (p / py_sum ps)%Q) ps) = true) as ->.
  { apply forallb_forall. intros x Hx. apply list_elem_of_In in Hx.
    rewrite Forall_forall in Hok. destruct (Hok x Hx) as [H0 H1].
    unfold pvals_ok. apply andb_true_iff. split; by apply Qle_bool_iff. }
  cbn [negb].
  assert (Qltb (1 + (1 # 1000000000000))
            (py_sum (removelast (map (fun p => (p / py_sum ps)%Q) ps))) = false) as ->; [|done].
  apply Qltb_false.
  eapply Qle_trans; [apply py_sum_removelast_le|].
  { eapply Forall_impl; [exact Hok|]. by intros x [H0 _]. }
  rewrite py_sum_map_div.
  assert (py_sum ps / py_sum ps == 1)%Q as ->; [|done].
  field. intros H0. rewrite H0 in Hpos. by apply Qlt_irrefl in Hpos.
Qed.

Lemma mapR_py_float_nonneg (ratios : list (pkey * pyval)) :
  Forall (fun kv => ∃ q, py_float kv.2 = Ok q ∧ (0 <= q)%Q) ratios →
  ∃ qs, mapR py_float (dict_values ratios) = Ok qs ∧ Forall (fun x => (0 <= x)%Q) qs
        ∧ length qs = length ratios.
Proof.
  induction 1 as [|kv ratios (q & Hq & Hnn) _ (qs & Hqs & Hall & Hlen)].
  - exists []. by repeat split.
  - exists (q :: qs). unfold dict_values in *. cbn [map mapR]. rewrite Hq, Hqs.
    repeat split; [by constructor|simpl; by rewrite Hlen].
Qed.

(** For non-negative weights [multinomial_split] returns. *)
Lemma multinomial_split_returns (self : DeterministicRNG) (total : Z)
    (ratios : list (pkey * pyval)) (rng : option Gen) :
  0 ≤ total < 2 ^ 63 → ratios ≠ [] →
  Forall (fun kv => ∃ q, py_float kv.2 = Ok q ∧ (0 <= q)%Q) ratios →
  ∃ m g', multinomial_split self total ratios rng = Ok (m, g').
Proof.
  intros Htot Hne Hnn. destruct (mapR_py_float_nonneg ratios Hnn) as (qs & Hqs & Hall & Hlen).
  unfold multinomial_split. rewrite Hqs. unfold mbind at 1, result_bind at 1.
  fold (split_probs qs).
  destruct (0 <? total) eqn:Hpos; [|by eexists _, _].
  assert (qs ≠ []) as Hqne by (intros ->; destruct ratios; done).
  rewrite np_multinomial_accepts;
    [|done| |by apply split_probs_nonneg|by apply split_probs_sum_pos].
  - simpl. destruct (gen_multinomial _ _ _). by eexists _, _.
  - intros Hnil. pose proof (split_probs_length qs) as Hl. rewrite Hnil in Hl.
    destruct qs; done.
Qed.

Lemma split_by_agent_conserves (v : Z) (we : bool) (cfg : EffectiveConfig)
    (rng : DeterministicRNG) (m : list (pkey * Z)) :
  0 ≤ v → split_by_agent v we cfg rng = Ok m →
  Zsum (dict_values m) = v ∧ Forall (fun c => 0 ≤ c) (dict_values m).
Proof.
  intros Hv H. unfold split_by_agent in H. bind_inv H. bind_inv H. bind_inv H.
  destruct a1 as [m' g]. simpl in H. inversion H; subst.
  by apply multinomial_split_conserves in E1 as (_ & ? & ?).
Qed.

Lemma split_by_shift_conserves (agent : string) (v : Z) (cfg : EffectiveConfig)
    (rng : DeterministicRNG) (m : list (pkey * Z)) :
  0 ≤ v → split_by_shift agent v cfg rng = Ok m →
  Zsum (dict_values m) = v ∧ Forall (fun c => 0 ≤ c) (dict_values m).
Proof.
  intros Hv H. unfold split_by_shift in H. bind_inv H. bind_inv H. bind_inv H.
  destruct a1 as [m' g]. simpl in H. inversion H; subst.
  by apply multinomial_split_conserves in E1 as (_ & ? & ?).
Qed.

Lemma split_by_time_buckets_conserves (v : Z) (we : bool) (cfg : EffectiveConfig)
    (rng : DeterministicRNG) (m : list (pkey * Z)) :
  0 ≤ v → split_by_time_buckets v we cfg rng = Ok m →
  Zsum (dict_values m) = v ∧ Forall (fun c => 0 ≤ c) (dict_values m).
Proof.
  intros Hv H. unfold split_by_time_buckets in H. bind_inv H. bind_inv H. bind_inv H.
  destruct a1 as [m' g]. simpl in H. inversion H; subst.
  by apply multinomial_split_conserves in E1 as (_ & ? & ?).
Qed.

Lemma py_maxZ_lower (a b : Z) : a ≤ py_maxZ a b.
Proof. unfold py_maxZ. destruct (a <? b) eqn:E; lia. Qed.

Lemma estimate_daily_volume_nonneg (day : calendar.DayPlan) (cfg : EffectiveConfig)
    (rng : DeterministicRNG) (vol : DailyVolumePlan) :
  estimate_daily_volume day cfg rng = Ok vol → 0 ≤ estimated vol.
Proof.
  intros H. unfold estimate_daily_volume in H. bind_inv H. bind_inv H. bind_inv H.
  inversion H; subst. simpl. apply py_maxZ_lower.
Qed.
End SplitExists.

Section PlanFacts.
Context {R : Runtime} {L : RuntimeLaws R}.

Lemma Forall2_map_eq {A B C} (f : A → C) (g : B → C) (l : list A) (l' : list B) :
  Forall2 (fun x y => g y = f x) l l' → map g l' = map f l.
Proof. induction 1; simpl; [done|by f_equal]. Qed.

Lemma allocation_plan_conserved (cfg : EffectiveConfig) (rng : DeterministicRNG)
    (day : calendar.DayPlan) (p : DayAllocation) :
  allocation_plan cfg rng day = Ok p → conserved p.
Proof.
  intros H. unfold allocation_plan in H.
  bind_inv H. rename a into vol. bind_inv H. rename a into agents.
  bind_inv H. rename a into plans. inversion H; subst; clear H.
  pose proof (estimate_daily_volume_nonneg _ _ _ _ E) as Hvol.
  destruct (split_by_agent_conserves _ _ _ _ _ Hvol E0) as [Hsum Hnn].
  apply mapR_Forall2 in E1. unfold conserved. simpl. split.
  - rewrite <- Hsum. unfold dict_values. f_equal.
    apply Forall2_map_eq. eapply Forall2_impl; [exact E1|].
    intros agent plan Hp. simpl in Hp.
    bind_inv Hp. bind_inv Hp. bind_inv Hp. by inversion Hp.
  - unfold dict_values in Hnn. rewrite Forall_map in Hnn.
    clear Hsum E0. induction E1 as [|agent plan agents plans Hp _ IH]; [constructor|].
    inversion Hnn as [|? ? Hc Hrest]; subst. constructor; [|by apply IH].
    clear IH Hrest Hnn. simpl in Hp.
    bind_inv Hp. rename a into agent_name. bind_inv Hp. rename a into shifts.
    bind_inv Hp. rename a into shift_plans. inversion Hp; subst; clear Hp. simpl.
    destruct (split_by_shift_conserves _ _ _ _ _ Hc E1) as [Hs Hsn].
    apply mapR_Forall2 in E2. split.
    + rewrite <- Hs. unfold dict_values. f_equal.
      apply Forall2_map_eq. eapply Forall2_impl; [exact E2|].
      intros shift sp Hsp. simpl in Hsp. bind_inv Hsp. by inversion Hsp.
    + unfold dict_values in Hsn. rewrite Forall_map in Hsn.
      clear Hs E1. induction E2 as [|shift sp shifts sps Hsp _ IH]; [constructor|].
      inversion Hsn as [|? ? Hc' Hrest]; subst. constructor; [|by apply IH].
      simpl in Hsp. bind_inv Hsp. inversion Hsp; subst; clear Hsp. simpl.
      match goal with
      | Hb : split_by_time_buckets _ _ _ _ = Ok _ |- _ =>
          by destruct (split_by_time_buckets_conserves _ _ _ _ _ Hc' Hb)
      end.
Qed.
End PlanFacts.




(** ** Weight normalization *)

Section NormalizeFacts.
Context {R : Runtime}.

Lemma py_max_lower (a b : Q) : (a <= py_max a b)%Q.
Proof.
  unfold py_max. destruct (Qltb a b) eqn:E; [|apply Qle_refl].
  apply Qltb_true in E. by apply Qlt_le_weak.
Qed.

Lemma py_max_upper (a b : Q) : (b <= py_max a b)%Q.
Proof.
  unfold py_max. destruct (Qltb a b) eqn:E; [apply Qle_refl|]. by apply Qltb_false in E.
Qed.

Lemma py_min_upper (a b : Q) : (py_min a b <= a)%Q.
Proof.
  unfold py_min. destruct (Qltb b a) eqn:E; [|apply Qle_refl].
  apply Qltb_true in E. by apply Qlt_le_weak.
Qed.

Lemma py_min_glb (a b c : Q) : (c <= a)%Q → (c <= b)%Q → (c <= py_min a b)%Q.
Proof. intros Ha Hb. unfold py_min. by destruct (Qltb b a). Qed.

Lemma py_max_lub (a b c : Q) : (a <= c)%Q → (b <= c)%Q → (py_max a b <= c)%Q.
Proof. intros Ha Hb. unfold py_max. by destruct (Qltb a b). Qed.

Lemma py_max_nonpos (x : Q) : (x <= 0)%Q → py_max 0 x = 0%Q.
Proof. intros Hx. unfold py_max. apply Qltb_false in Hx. by rewrite Hx. Qed.

(** [_normalize] is [normalize] of [rng.py] on the values read as numbers. *)
Lemma _normalize_normalize (weights : list (pkey * pyval)) :
  _normalize weights = normalize <$> weights_of weights.
Proof.
  unfold _normalize, normalize. destruct (weights_of weights) as [ws|e]; [|done].
  unfold mbind, result_bind, fmap, result_fmap. by destruct (Qle_bool _ _).
Qed.

Lemma weights_of_keys (weights : list (pkey * pyval)) (ws : list (pkey * Q)) :
  weights_of weights = Ok ws → dict_keys ws = dict_keys weights.
Proof.
  intros H. apply mapR_Forall2 in H. unfold dict_keys.
  apply Forall2_map_eq. eapply Forall2_impl; [exact H|].
  intros kv kq Hk. simpl in Hk. bind_inv Hk. by inversion Hk.
Qed.

Lemma weights_of_nonpos (weights : list (pkey * pyval)) (ws : list (pkey * Q)) :
  weights_of weights = Ok ws →
  Forall (fun kv => ∃ q, py_number kv.2 = Ok q ∧ (q <= 0)%Q) weights →
  Forall (fun kv => (kv.2 <= 0)%Q) ws.
Proof.
  intros H. apply mapR_Forall2 in H.
  induction H as [|kv kq weights ws Hk _ IH]; intros Hall; [constructor|].
  inversion Hall as [|? ? (q & Hq & Hle) Hrest]; subst.
  constructor; [|by apply IH].
  simpl in Hk. rewrite Hq in Hk. inversion Hk; subst. done.
Qed.

Lemma normalize_keys (ws : list (pkey * Q)) : dict_keys (normalize ws) = dict_keys ws.
Proof.
  unfold normalize, dict_keys. destruct (Qle_bool _ _); rewrite map_map; by apply map_ext.
Qed.

Lemma normalize_nonneg (ws : list (pkey * Q)) :
  Forall (fun kv => (0 <= kv.2)%Q) (normalize ws).
Proof.
  unfold normalize. destruct (Qle_bool _ _) eqn:E; apply Forall_forall; intros kv Hkv;
    apply list_elem_of_In, in_map_iff in Hkv; destruct Hkv as (x & <- & Hx); simpl.
  - apply Qle_shift_div_l; [|by rewrite Qmult_0_l].
    apply inject_Z_pos. destruct (Nat.eqb_spec (length ws) 0); lia.
  - apply Qle_bool_false in E.
    apply Qle_shift_div_l; [done|]. rewrite Qmult_0_l. apply py_max_lower.
Qed.

Lemma normalize_sum (ws : list (pkey * Q)) :
  ws ≠ [] → (py_sum (dict_values (normalize ws)) == 1)%Q.
Proof.
  intros Hne. unfold normalize, dict_values. destruct (Qle_bool _ _) eqn:E.
  - rewrite map_map. simpl. rewrite map_const_replicate, py_sum_const.
    assert (0 < length ws)%nat as Hn by (destruct ws; [done|simpl; lia]).
    assert (Nat.eqb (length ws) 0 = false) as -> by (apply Nat.eqb_neq; lia).
    apply inject_Z_pos in Hn. field. intros H0. rewrite H0 in Hn. by apply Qlt_irrefl in Hn.
  - apply Qle_bool_false in E. rewrite map_map. simpl.
    rewrite <- (map_map (fun kv => py_max 0 kv.2) (fun p => (p / _)%Q)).
    rewrite py_sum_map_div. field. intros H0. rewrite H0 in E. by apply Qlt_irrefl in E.
Qed.

Lemma normalize_uniform (ws : list (pkey * Q)) :
  Forall (fun kv => (kv.2 <= 0)%Q) ws →
  Forall (fun kv => (kv.2 == 1 / inject_Z (Z.of_nat (length ws)))%Q) (normalize ws).
Proof.
  intros Hall. unfold normalize.
  assert (map (fun kv : pkey * Q => py_max 0 kv.2) ws = map (fun _ => 0%Q) ws) as ->.
  { apply map_ext_in. intros kv Hkv. apply py_max_nonpos.
    rewrite Forall_forall in Hall. by apply Hall, list_elem_of_In. }
  rewrite map_const_replicate, py_sum_const.
  assert (Qle_bool (inject_Z (Z.of_nat (length ws)) * 0) 0 = true) as ->.
  { apply Qle_bool_iff. rewrite Qmult_0_r. apply Qle_refl. }
  apply Forall_forall. intros kv Hkv.
  apply list_elem_of_In, in_map_iff in Hkv. destruct Hkv as (x & <- & Hx). simpl.
  destruct ws as [|w ws]; [done|]. reflexivity.
Qed.
End NormalizeFacts.

Module binary64_facts.
Import binary64.

Lemma eta_small : (0 < eta)%Q ∧ (eta <= 1 # 1000000000000000000000000000000)%Q.
Proof.
  split; [reflexivity|]. apply Qle_bool_iff. by vm_compute.
Qed.

Lemma gamma_small (n : nat) :
  Z.of_nat n ≤ 1000000 → (0 <= gamma n)%Q ∧ (gamma n <= 1 # 4000000000)%Q.
Proof.
  intros Hn. unfold gamma, u.
  set (N := inject_Z (Z.of_nat n)).
  assert (0 <= N)%Q as H0.
  { unfold N. change 0%Q with (inject_Z 0). rewrite <- Zle_Qle. lia. }
  assert (N <= 1000000)%Q as H1.
  { unfold N. change 1000000%Q with (inject_Z 1000000). rewrite <- Zle_Qle. lia. }
  split.
  - apply Qle_shift_div_l; lra.
  - apply Qle_shift_div_r; lra.
Qed.

Section Laws.
Context {F : Arith} {FL : ArithLaws F}.

Lemma max0_Fin (q : Q) : max0 (Fin q) = Fin (py_max 0 q).
Proof. unfold max0, py_max. by destruct (Qltb 0 q). Qed.

(** The quotients of a list of non-negative numbers by a positive float. *)
Lemma f_div_list (t : Q) (ps : list Q) :
  (0 < t)%Q → Forall (fun p => (0 <= p)%Q ∧ (p <= 2 * t)%Q) ps →
  ∃ qs, map (fun p => f_div (Fin p) (Fin t)) ps = map Fin qs
        ∧ Forall (fun q => (0 <= q)%Q) qs
        ∧ ((py_sum ps / t) * (1 - u) - inject_Z (Z.of_nat (length ps)) * eta
           <= py_sum qs)%Q
        ∧ (py_sum qs
           <= (py_sum ps / t) * (1 + u) + inject_Z (Z.of_nat (length ps)) * eta)%Q.
Proof.
  intros Ht. induction 1 as [|p ps [Hp0 Hp2] _ (qs & Hqs & Hnn & Hlo & Hhi)].
  - exists []. split; [done|]. split; [constructor|].
    unfold py_sum. simpl. change (inject_Z 0) with 0%Q. unfold Qdiv.
    split; apply Qle_lteq; right; ring.
  - destruct (f_div_rounded p t Hp0 Ht Hp2) as (q & Hq & Hq0 & Hqe).
    exists (q :: qs). split; [by rewrite !map_cons, Hq, Hqs|]. split; [by constructor|].
    apply Qabs_Qle_condition in Hqe as [Hqlo Hqhi].
    assert (py_sum (p :: ps) / t == p / t + py_sum ps / t)%Q as Hsum
      by (rewrite py_sum_cons; unfold Qdiv; ring).
    rewrite Hsum, !py_sum_cons. cbn [length]. rewrite Nat2Z.inj_succ. unfold Z.succ.
    rewrite inject_Z_plus.
    set (r := (p / t)%Q) in *. set (rs := (py_sum ps / t)%Q) in *.
    set (m := inject_Z (Z.of_nat (length ps))) in *.
    change (inject_Z 1) with 1%Q. unfold u in *. split; lra.
Qed.

Lemma positive_parts (ws : list (pkey * Q)) :
  map (fun kv => max0 kv.2) (map (fun kv => (kv.1, Fin kv.2)) ws)
  = map Fin (map (fun kv => py_max 0 kv.2) ws).
Proof. rewrite !map_map. apply map_ext. intros kv. apply max0_Fin. Qed.

Lemma positive_parts_nonneg (ws : list (pkey * Q)) :
  Forall (fun q => (0 <= q)%Q) (map (fun kv => py_max 0 kv.2) ws).
Proof.
  apply Forall_forall. intros q Hq. apply list_elem_of_In, in_map_iff in Hq as (kv & <- & _).
  apply py_max_lower.
Qed.

(** The total of a table of at most 10^6 weights, when it is finite: within
    a factor [1 +- 2.5e-10] of the exact sum of the positive parts. *)
Lemma total_bounds (ps : list Q) (t : Q) :
  Forall (fun q => (0 <= q)%Q) ps → Z.of_nat (length ps) ≤ 1000000 →
  f_sum (map Fin ps) = Fin t →
  ((1 - (1 # 4000000000)) * py_sum ps <= t)%Q
  ∧ (t <= (1 + (1 # 4000000000)) * py_sum ps)%Q.
Proof.
  intros Hps Hn Ht. pose proof (f_sum_nonneg ps Hps ltac:(lia)) as Hlaw.
  rewrite Ht in Hlaw. destruct (gamma_small _ Hn) as [Hg0 Hg1].
  pose proof (py_sum_nonneg _ Hps) as HS.
  apply Qabs_Qle_condition in Hlaw as [Hlo Hhi].
  pose proof (Qmult_le_compat_r _ _ _ Hg1 HS) as Hd.
  set (S := py_sum ps) in *. set (g := (gamma (length ps) * S)%Q) in *. split; lra.
Qed.

(** The resolved weights of a table whose positive parts sum to a finite,
    positive total. *)
Lemma scaled_weights (ps : list Q) (t : Q) :
  Forall (fun q => (0 <= q)%Q) ps → Z.of_nat (length ps) ≤ 1000000 →
  f_sum (map Fin ps) = Fin t → (0 < t)%Q →
  ∃ qs, map (fun p => f_div (Fin p) (Fin t)) ps = map Fin qs
        ∧ Forall (fun q => (0 <= q)%Q) qs
        ∧ (Qabs (py_sum qs - 1) < 1 # 1000000000)%Q.
Proof.
  intros Hps Hn Ht Hpos. destruct (total_bounds ps t Hps Hn Ht) as [Hlo Hhi].
  pose proof (py_sum_nonneg _ Hps) as HS.
  destruct (f_div_list t ps Hpos) as (qs & Hqs & Hnn & Hqlo & Hqhi).
  { apply Forall_forall. intros p Hp. split.
    - rewrite Forall_forall in Hps. by apply Hps.
    - pose proof (py_sum_elem_le ps p Hps Hp). lra. }
  exists qs. split; [done|]. split; [done|].
  assert (1 - (1 # 4000000000) <= py_sum ps / t)%Q as Hr1 by (apply Qle_shift_div_l; lra).
  assert (py_sum ps / t <= 1 + (2 # 4000000000))%Q as Hr2 by (apply Qle_shift_div_r; lra).
  destruct eta_small as [He0 He1].
  assert (inject_Z (Z.of_nat (length ps)) * eta <= 1000000 * eta)%Q as Hm.
  { apply Qmult_le_compat_r; [|lra]. change 1000000%Q with (inject_Z 1000000).
    by rewrite <- Zle_Qle. }
  assert (0 <= inject_Z (Z.of_nat (length ps)) * eta)%Q as Hm0.
  { apply Qmult_le_0_compat; [|lra]. change 0%Q with (inject_Z 0). rewrite <- Zle_Qle. lia. }
  apply Qabs_Qlt_condition.
  set (r := (py_sum ps / t)%Q) in *. set (m := (inject_Z (Z.of_nat (length ps)) * eta)%Q) in *.
  set (e := eta) in *. unfold u in *. split; lra.
Qed.

(** The uniform weights of a table without a positive weight. *)
Lemma uniform_weights (n : nat) :
  (0 < n)%nat → Z.of_nat n ≤ 1000000 →
  ∃ q, f_div (Fin 1) (Fin (inject_Z (Z.of_nat n))) = Fin q
       ∧ (0 <= q)%Q
       ∧ (Qabs (py_sum (replicate n q) - 1) < 1 # 1000000000)%Q.
Proof.
  intros Hpos Hn. pose proof (inject_Z_pos n Hpos) as HN.
  assert (1 <= inject_Z (Z.of_nat n))%Q as HN1.
  { change 1%Q with (inject_Z 1). rewrite <- Zle_Qle. lia. }
  assert (inject_Z (Z.of_nat n) <= 1000000)%Q as HN2.
  { change 1000000%Q with (inject_Z 1000000). by rewrite <- Zle_Qle. }
  destruct (f_div_rounded 1 (inject_Z (Z.of_nat n))) as (q & Hq & Hq0 & Hqe); [lra..|].
  exists q. split; [done|]. split; [done|].
  rewrite py_sum_const. apply Qabs_Qle_condition in Hqe as [Hlo Hhi].
  destruct eta_small as [He0 He1].
  assert (inject_Z (Z.of_nat n) * (1 / inject_Z (Z.of_nat n)) == 1)%Q as Hi.
  { field. intros H0. rewrite H0 in HN. by apply Qlt_irrefl in HN. }
  set (N := inject_Z (Z.of_nat n)) in *. set (i := (1 / N)%Q) in *. set (e := eta) in *.
  unfold u in *.
  apply Qabs_Qlt_condition. split; nra.
Qed.

Lemma positive_parts_zero (ws : list (pkey * Q)) :
  Forall (fun kv => (kv.2 <= 0)%Q) ws →
  (py_sum (map (fun kv => py_max 0 kv.2) ws) == 0)%Q.
Proof.
  induction 1 as [|kv ws Hkv _ IH]; [done|].
  cbn [map]. rewrite py_sum_cons, IH, (py_max_nonpos _ Hkv). ring.
Qed.

(** [normalize] on a table of at most 10^6 finite weights whose positive
    parts sum below the overflow threshold. *)
Lemma b64_normalize_resolved (ws : list (pkey * Q)) :
  Z.of_nat (length ws) ≤ 1000000 →
  (py_sum (map (fun kv => py_max 0 kv.2) ws) < inject_Z (2 ^ 1023))%Q →
  (∃ qs, dict_values (normalize (map (fun kv => (kv.1, Fin kv.2)) ws)) = map Fin qs
         ∧ Forall (fun q => (0 <= q)%Q) qs
         ∧ (ws ≠ [] → (Qabs (py_sum qs - 1) < 1 # 1000000000)%Q))
  ∧ (Forall (fun kv => (kv.2 <= 0)%Q) ws →
     Forall (fun kv => kv.2 = f_div (Fin 1) (Fin (inject_Z (Z.of_nat (length ws)))))
            (normalize (map (fun kv => (kv.1, Fin kv.2)) ws))).
Proof.
  intros Hn Hs. set (ps := map (fun kv : pkey * Q => py_max 0 kv.2) ws) in *.
  pose proof (positive_parts_nonneg ws) as Hps. fold ps in Hps.
  assert (length ps = length ws) as Hlen by (unfold ps; by rewrite length_map).
  pose proof (f_sum_nonneg ps Hps ltac:(lia)) as Hlaw.
  unfold normalize. rewrite positive_parts. fold ps. rewrite (length_map _ ws).
  destruct (f_sum (map Fin ps)) as [t|neg|] eqn:Ht; [| |done].
  2:{ destruct Hlaw as [_ Hbig]. exfalso. by apply (Qlt_not_le _ _ Hs). }
  destruct (total_bounds ps t Hps ltac:(lia) Ht) as [Hlo Hhi].
  pose proof (py_sum_nonneg _ Hps) as HS.
  cbn [le0]. destruct (Qle_bool t 0) eqn:Hle.
  - destruct (Nat.eqb_spec (length ws) 0) as [H0|Hne].
    + destruct ws; [|discriminate H0]. split; [|constructor].
      exists []. split; [done|]. split; [constructor|done].
    + destruct (uniform_weights (length ws) ltac:(lia) Hn) as (q & Hq & Hq0 & Hsum).
      split.
      * exists (map (fun _ => q) ws). unfold dict_values. rewrite !map_map. cbn [snd].
        split; [by rewrite Hq|]. split.
        -- apply Forall_forall. intros x Hx.
           by apply list_elem_of_In, in_map_iff in Hx as (kv & <- & _).
        -- intros _. by rewrite map_const_replicate.
      * intros _. apply Forall_forall. intros kv Hkv.
        by apply list_elem_of_In, in_map_iff in Hkv as (kv0 & <- & _).
  - apply Qle_bool_false in Hle. split.
    + destruct (scaled_weights ps t Hps ltac:(lia) Ht Hle) as (qs & Hqs & Hnn & Hsum).
      exists qs. split; [|by split].
      unfold dict_values. rewrite <- Hqs. unfold ps. rewrite !map_map. apply map_ext.
      intros kv. cbn [snd]. by rewrite max0_Fin.
    + intros Hall. apply positive_parts_zero in Hall. fold ps in Hall. exfalso.
      set (S := py_sum ps) in *. lra.
Qed.

Lemma b64_normalize_overflow (ws : list (pkey * Q)) :
  f_sum (map (fun kv => max0 (Fin kv.2)) ws) = Inf false →
  Forall (fun kv => kv.2 = Fin 0) (normalize (map (fun kv => (kv.1, Fin kv.2)) ws)).
Proof.
  intros H. unfold normalize. rewrite map_map. cbn [snd]. rewrite H. cbn [le0].
  apply Forall_forall. intros kv Hkv.
  apply list_elem_of_In, in_map_iff in Hkv as (kv0 & <- & Hin).
  apply in_map_iff in Hin as (kv1 & <- & _). cbn [snd].
  rewrite max0_Fin. apply f_div_inf.
Qed.

Lemma b64_normalize_keys (ws : list (pkey * float)) :
  dict_keys (normalize ws) = dict_keys ws.
Proof.
  unfold normalize, dict_keys. destruct (le0 _); rewrite map_map; by apply map_ext.
Qed.

Lemma b64__normalize_normalize (weights : list (pkey * pyval)) :
  _normalize weights
  = (ws ← weights_of weights; Ok (normalize (map (fun kv => (kv.1, Fin kv.2)) ws))).
Proof.
  unfold _normalize, normalize. destruct (weights_of weights) as [ws|e]; [|done]. simpl.
  by destruct (le0 _).
Qed.
End Laws.

(** The exact arithmetic keeps the laws. *)
Lemma finite_values_Fin (qs : list Q) : finite_values (map Fin qs) = Some qs.
Proof.
  induction qs as [|q qs IH]; [done|]. unfold finite_values in *. cbn [map foldr].
  by rewrite IH.
Qed.

Lemma gamma_nonneg (n : nat) : Z.of_nat n < 4503599627370496 → (0 <= gamma n)%Q.
Proof.
  intros Hn. unfold gamma, u. set (N := inject_Z (Z.of_nat n)).
  assert (0 <= N)%Q as H0.
  { unfold N. change 0%Q with (inject_Z 0). rewrite <- Zle_Qle. lia. }
  assert (N <= 4503599627370496)%Q as H1.
  { unfold N. change 4503599627370496%Q with (inject_Z 4503599627370496).
    rewrite <- Zle_Qle. lia. }
  apply Qle_shift_div_l; lra.
Qed.

#[export] Instance exact_arith_laws : ArithLaws exact_arith.
Proof.
  split.
  - intros qs Hqs Hn. cbn [f_sum exact_arith]. unfold exact_sum.
    rewrite finite_values_Fin. cbv zeta.
    pose proof (py_sum_nonneg _ Hqs) as HS.
    destruct (Qle_bool (inject_Z (2 ^ 1024)) (py_sum qs)) eqn:E1.
    + split; [done|]. apply Qle_bool_iff in E1.
      apply Qle_trans with (inject_Z (2 ^ 1024)); [|done].
      rewrite <- Zle_Qle. apply Z.pow_le_mono_r; lia.
    + destruct (Qle_bool (py_sum qs) (- inject_Z (2 ^ 1024))) eqn:E2.
      * apply Qle_bool_iff in E2. exfalso.
        assert (0 < inject_Z (2 ^ 1024))%Q as Hp.
        { change 0%Q with (inject_Z 0). rewrite <- Zlt_Qlt. by apply Z.pow_pos_nonneg. }
        set (S := py_sum qs) in *. set (T := inject_Z (2 ^ 1024)) in *. lra.
      * assert (py_sum qs - py_sum qs == 0)%Q as -> by ring.
        change (Qabs 0) with 0%Q.
        apply Qmult_le_0_compat; [by apply gamma_nonneg|done].
  - intros a b Ha Hb Hab. cbn [f_div exact_arith]. unfold exact_div.
    destruct (Qeq_bool b 0) eqn:E.
    { apply Qeq_bool_iff in E. rewrite E in Hb. by apply Qlt_irrefl in Hb. }
    exists (a / b)%Q. split; [done|].
    assert (0 <= a / b)%Q as Hq by (apply Qle_shift_div_l; lra).
    split; [done|].
    assert (a / b - a / b == 0)%Q as -> by ring.
    change (Qabs 0) with 0%Q. destruct eta_small as [He _].
    set (r := (a / b)%Q) in *. set (e := eta) in *. unfold u. lra.
  - done.
Qed.
End binary64_facts.




(** Every resolver of [weights.py] returns what [_normalize] returns for the
    base table with the adjustments applied. *)
Lemma resolvers_end_in_normalize {R : Runtime} (ctx : Context) (cfg : EffectiveConfig)
    (intent : string) (t : list (pkey * Q)) :
  intent_weights ctx cfg = Ok t ∨ scenario_weights ctx intent cfg = Ok t
  ∨ channel_weights ctx cfg = Ok t ∨ device_weights ctx cfg = Ok t
  ∨ product_weights ctx cfg = Ok t →
  ∃ w, _normalize w = Ok t.
Proof.
  intros [H|[H|[H|[H|H]]]].
  - unfold intent_weights in H. do 6 bind_inv H. eauto.
  - unfold scenario_weights in H. do 4 bind_inv H. eauto.
  - unfold channel_weights in H. do 2 bind_inv H. eauto.
  - unfold device_weights in H. do 2 bind_inv H. eauto.
  - unfold product_weights in H. do 3 bind_inv H. eauto.
Qed.

(** ** RandomKeys of the volume splits *)



(** ** Bounded fields *)

Ltac bind_all H :=
  repeat (first
    [ bind_inv H
    | match type of H with
      | (let '(_, _) := ?p in _) = Ok _ => destruct p eqn:?; simpl in H
      | context [mbind _ (Ok ?a)] => unfold mbind at 1, result_bind at 1 in H; simpl in H
      end ]).

Section RoundFacts.

Lemma round_half_even_lower (y : Q) (lo : Z) :
  (inject_Z lo <= y)%Q → lo ≤ round_half_even y.
Proof.
  intros Hlo. unfold round_half_even.
  assert (lo ≤ Qfloor y) as Hf.
  { rewrite <- (Qfloor_Z lo). by apply Qfloor_resp_le. }
  destruct (Qltb _ _); [done|]. destruct (Qltb _ _); [lia|]. destruct (Z.even _); lia.
Qed.

Lemma round_half_even_upper (y : Q) (hi : Z) :
  (y <= inject_Z hi)%Q → round_half_even y ≤ hi.
Proof.
  intros Hhi. unfold round_half_even.
  assert (Qfloor y ≤ hi) as Hf.
  { rewrite <- (Qfloor_Z hi). by apply Qfloor_resp_le. }
  destruct (Qltb (y - inject_Z (Qfloor y)) (1 # 2)) eqn:Ehalf; [done|].
  apply Qltb_false in Ehalf.
  assert (Qfloor y < hi) as Hlt.
  { rewrite Zlt_Qlt. lra. }
  destruct (Qltb _ _); [lia|]. destruct (Z.even _); lia.
Qed.

Lemma pow10_pos (nd : nat) : (0 < inject_Z (10 ^ Z.of_nat nd))%Q.
Proof.
  change 0%Q with (inject_Z 0). rewrite <- Zlt_Qlt. apply Z.pow_pos_nonneg; lia.
Qed.

Lemma py_round_lower (x : Q) (nd : nat) (lo : Z) :
  (inject_Z lo <= x)%Q → (inject_Z lo <= py_round x nd)%Q.
Proof.
  intros Hlo. unfold py_round. pose proof (pow10_pos nd) as Hp.
  apply Qle_shift_div_l; [done|].
  rewrite <- inject_Z_mult, <- Zle_Qle.
  apply round_half_even_lower. rewrite inject_Z_mult.
  apply Qmult_le_compat_r; [done|by apply Qlt_le_weak].
Qed.

Lemma py_round_upper (x : Q) (nd : nat) (hi : Z) :
  (x <= inject_Z hi)%Q → (py_round x nd <= inject_Z hi)%Q.
Proof.
  intros Hhi. unfold py_round. pose proof (pow10_pos nd) as Hp.
  apply Qle_shift_div_r; [done|].
  rewrite <- inject_Z_mult, <- Zle_Qle.
  apply round_half_even_upper. rewrite inject_Z_mult.
  apply Qmult_le_compat_r; [done|by apply Qlt_le_weak].
Qed.

Lemma py_maxZ_upper (a b c : Z) : a ≤ c → b ≤ c → py_maxZ a b ≤ c.
Proof. intros Ha Hb. unfold py_maxZ. by destruct (a <? b). Qed.

Lemma py_minZ_upper (a b : Z) : py_minZ a b ≤ a.
Proof. unfold py_minZ. destruct (b <? a) eqn:E; lia. Qed.
End RoundFacts.

Section BoundFacts.
Context {R : Runtime}.

Lemma sample_nps_bounds (ctx : Context) (fcr : bool) (awt : Q) (cfg : EffectiveConfig)
    (rng : DeterministicRNG) (r r' : Gen) (nps : Nps) :
  sample_nps ctx fcr awt cfg rng r = Ok (nps, r') →
  ∃ cap, py_int (get cfg "nps.corrections.happy_cap" (PInt 10)) = Ok cap
         ∧ 0 ≤ NPS_score nps ≤ py_maxZ 0 cap
         ∧ (-1 <= sentiment_score nps)%Q ∧ (sentiment_score nps <= 1)%Q.
Proof.
  intros H. unfold sample_nps in H. bind_all H.
  inversion H; subst; clear H. simpl.
  eexists. split; [done|]. split; [|split].
  - split; [apply py_maxZ_lower|].
    apply py_maxZ_upper; [apply py_maxZ_lower|].
    etrans; [apply py_minZ_upper|]. unfold py_maxZ. destruct (0 <? _) eqn:?; lia.
  - apply (py_round_lower _ 3 (-1)). apply py_max_lower.
  - apply (py_round_upper _ 3 1). apply py_max_lub; [done|apply py_min_upper].
Qed.
Lemma _trunc_normal_lower (r r' : Gen) (mean sigma min_v v : Q) :
  _trunc_normal r mean sigma min_v = Ok (v, r') → (min_v <= v)%Q.
Proof.
  intros H. unfold _trunc_normal in H. bind_all H. inversion H; subst. apply py_max_lower.
Qed.

Lemma sample_ops_metrics_silence_ratio (ctx : Context) (cfg : EffectiveConfig)
    (rng : DeterministicRNG) (r r' : Gen) (op : OpsMetrics) :
  sample_ops_metrics ctx cfg rng r = Ok (op, r') → (0 <= Silence_ratio op)%Q.
Proof.
  intros H. unfold sample_ops_metrics in H. bind_all H.
  inversion H; subst; clear H. simpl.
  apply (py_round_lower _ 2 0).
  match goal with
  | Ht : _trunc_normal _ (_ + _) _ 0 = Ok (?q, _) |- (_ <= ?q)%Q =>
      exact (_trunc_normal_lower _ _ _ _ _ _ Ht)
  end.
Qed.

Lemma sample_compliance_script_adherence (ctx : Context) (cfg : EffectiveConfig)
    (rng : DeterministicRNG) (r r' : Gen) (comp : Compliance) :
  sample_compliance ctx cfg rng r = Ok (comp, r') →
  (0 <= script_adherence comp)%Q ∧ (script_adherence comp <= 100)%Q.
Proof.
  intros H. unfold sample_compliance in H. bind_all H.
  inversion H; subst; clear H. simpl. split.
  - apply (py_round_lower _ 1 0). apply py_max_lower.
  - apply (py_round_upper _ 1 100). apply py_max_lub; [done|apply py_min_upper].
Qed.
End BoundFacts.

(** ** The generated ANI *)

Section AniFacts.
Context {R : Runtime} {L : RuntimeLaws R}.

Lemma str_of_int_digit (d : Z) :
  0 ≤ d < 10 → ∃ c, str_of_int d = String c EmptyString ∧ is_digit c = true.
Proof.
  intros Hd.
  assert (d = 0 ∨ d = 1 ∨ d = 2 ∨ d = 3 ∨ d = 4 ∨ d = 5 ∨ d = 6 ∨ d = 7 ∨ d = 8 ∨ d = 9)
    as Hcases by lia.
  destruct Hcases as [->|[->|[->|[->|[->|[->|[->|[->|[->| ->]]]]]]]]];
    eexists; split; reflexivity.
Qed.

Lemma digits_string (ds : list Z) :
  Forall (fun d => 0 ≤ d < 10) ds →
  let digits := foldr (fun d acc => str_of_int d +:+ acc) ""%string ds in
  String.length digits = length ds
  ∧ Forall (fun c => is_digit c = true) (list_ascii_of_string digits).
Proof.
  induction 1 as [|d ds Hd _ [IHlen IHall]]; simpl; [by split|].
  destruct (str_of_int_digit d Hd) as (c & -> & Hc). simpl. split; [by f_equal|].
  by constructor.
Qed.

Lemma well_formed_ani_matches (s : string) :
  well_formed_ani s → matches PatANI s = true.
Proof.
  intros (ds & -> & [Hlo Hhi] & Hall). unfold matches.
  change (list_ascii_of_string ("+49" +:+ ds))
    with ("+"%char :: "4"%char :: "9"%char :: list_ascii_of_string ds).
  assert (Hstrip : strip_final_newline ("+"%char :: "4"%char :: "9"%char :: list_ascii_of_string ds)
                   = "+"%char :: "4"%char :: "9"%char :: list_ascii_of_string ds).
  { unfold strip_final_newline.
    destruct (reverse _) as [|c r] eqn:Hrev; [done|].
    assert (c ∈ "+"%char :: "4"%char :: "9"%char :: list_ascii_of_string ds) as Hin.
    { apply elem_of_reverse. rewrite Hrev. by left. }
    destruct (Ascii.eqb_spec c "010"%char) as [->|_]; [|done].
    repeat (apply elem_of_cons in Hin as [Hin|Hin]; [discriminate Hin|]).
    rewrite Forall_forall in Hall. by specialize (Hall _ Hin). }
  rewrite Hstrip.
  assert (length (list_ascii_of_string ds) = String.length ds) as Hlen.
  { clear. induction ds; simpl; [done|by f_equal]. }
  rewrite Hlen. apply andb_true_iff. split; [apply andb_true_iff; split|].
  - apply Nat.leb_le. lia.
  - apply Nat.leb_le. lia.
  - apply forallb_forall. intros c Hc. rewrite Forall_forall in Hall.
    by apply Hall, list_elem_of_In.
Qed.

Lemma generate_german_ani_well_formed (rng : DeterministicRNG) (key : list pyval) (s : string) :
  generate_german_ani rng key = Ok s → well_formed_ani s.
Proof.
  intros H. unfold generate_german_ani in H. bind_inv H. rename a into r.
  pose proof (gen_integers_range 9 13 r ltac:(lia)) as Hlen.
  destruct (gen_integers 9 13 r) as [len r1]. simpl in Hlen.
  destruct (len <? 0) eqn:Hneg; [lia|].
  pose proof (gen_integers_n_length 0 10 (Z.to_nat len) r1) as Hn.
  pose proof (gen_integers_n_range 0 10 (Z.to_nat len) r1 ltac:(lia)) as Hr.
  destruct (gen_integers_n 0 10 (Z.to_nat len) r1) as [ds r2]. simpl in Hn, Hr.
  inversion H; subst; clear H.
  destruct (digits_string ds Hr) as [Hl Hall].
  eexists. split; [reflexivity|]. split; [|done].
  rewrite Hl, Hn. lia.
Qed.

Lemma generate_german_ani_returns (rng : DeterministicRNG) (key : list pyval) :
  0 ≤ global_seed rng < 2 ^ 64 → ∃ s, generate_german_ani rng key = Ok s.
Proof.
  intros Hseed. unfold generate_german_ani, seed_for, to_bytes8.
  assert ((global_seed rng <? 0) = false) as -> by lia.
  assert ((2 ^ 64 <=? global_seed rng) = false) as -> by lia.
  unfold mbind, result_bind.
  match goal with |- context [gen_integers 9 13 ?r] =>
    pose proof (gen_integers_range 9 13 r ltac:(lia)) as Hlen;
    destruct (gen_integers 9 13 r) as [len r1] end.
  simpl in Hlen. assert ((len <? 0) = false) as -> by lia.
  destruct (gen_integers_n _ _ _ _). by eexists.
Qed.
End AniFacts.

(** ** The record assembled for one call *)

Section RecordFacts.
Context {R : Runtime}.

Lemma pop_key_eq (call : Call) (k : string) : pop_key call k !! k = None.
Proof. unfold pop_key. destruct (call !! k) eqn:E; [apply lookup_delete_eq|done]. Qed.

Lemma pop_key_ne (call : Call) (k k' : string) : k ≠ k' → pop_key call k !! k' = call !! k'.
Proof. intros Hne. unfold pop_key. destruct (call !! k); [by apply lookup_delete_ne|done]. Qed.

(** The removal step touches the three fields only. *)
Lemma suppress_text_fields_frame (ctx : Context) (call : Call) (k : string) :
  k ∉ SUPPRESSED → suppress_text_fields ctx call !! k = call !! k.
Proof.
  intros Hk. unfold suppress_text_fields. destruct (String.eqb _ _); [|done].
  unfold SUPPRESSED in *. simpl.
  rewrite !pop_key_ne; [done|intros Heq; apply Hk; rewrite <- Heq; repeat constructor..].
Qed.

Lemma suppress_text_fields_text (ctx : Context) (call : Call) (k : string) :
  channel ctx = "text"%string → k ∈ SUPPRESSED → suppress_text_fields ctx call !! k = None.
Proof.
  intros Hch Hk. unfold suppress_text_fields. rewrite Hch. simpl.
  unfold SUPPRESSED in Hk.
  apply elem_of_cons in Hk as [->|Hk];
    [rewrite !pop_key_ne by done; apply pop_key_eq|].
  apply elem_of_cons in Hk as [->|Hk];
    [rewrite pop_key_ne by done; apply pop_key_eq|].
  apply elem_of_cons in Hk as [->|Hk]; [apply pop_key_eq|].
  by apply elem_of_nil in Hk.
Qed.

Lemma suppress_text_fields_other (ctx : Context) (call : Call) (k : string) :
  k ≠ "Hold_time"%string → k ≠ "Silence_ratio"%string → k ≠ "Interruptions_count"%string →
  suppress_text_fields ctx call !! k = call !! k.
Proof.
  intros H1 H2 H3. apply suppress_text_fields_frame. unfold SUPPRESSED.
  intros Hin. repeat (apply elem_of_cons in Hin as [Hin|Hin]; [done|]).
  by apply elem_of_nil in Hin.
Qed.

Lemma suppress_text_fields_voice (ctx : Context) (call : Call) :
  channel ctx ≠ "text"%string → suppress_text_fields ctx call = call.
Proof.
  intros Hch. unfold suppress_text_fields.
  destruct (String.eqb_spec (channel ctx) "text"); [done|done].
Qed.
End RecordFacts.

Ltac lookup_through :=
  repeat first
    [ rewrite lookup_insert_eq
    | rewrite lookup_insert_ne by done
    | rewrite suppress_text_fields_other by done ].

(** A concrete field name is not in a concrete list of field names. *)
Ltac not_in_fields :=
  let Hin := fresh "Hin" in
  intros Hin; repeat (apply elem_of_cons in Hin as [Hin|Hin]; [discriminate Hin|]);
  by apply elem_of_nil in Hin.

Section AssembledFacts.
Context {R : Runtime}.

Lemma call_upto_nps_spec (cfg : EffectiveConfig) (seed : Z) (rng : DeterministicRNG)
    (day : calendar.DayPlan) (agent_name team shift_name bucket : string) (i : Z)
    (s : Sampled) :
  call_upto_nps cfg seed rng day agent_name team shift_name bucket i = Ok s →
  s_call s !! "customer_segment"%string = Some (PStr (s_seg s))
  ∧ s_call s !! "channel"%string = Some (PStr (channel (s_ctx s)))
  ∧ s_call s !! "scenario"%string = Some (PStr (s_scenario s))
  ∧ s_call s !! "region"%string = Some (PStr (region (s_ctx s)))
  ∧ s_call s !! "language"%string = Some (PStr (language (s_ctx s)))
  ∧ (channel (s_ctx s) = "text"%string → Forall (fun k => s_call s !! k = None) SUPPRESSED)
  ∧ (channel (s_ctx s) ≠ "text"%string →
     Forall (fun k => is_Some (s_call s !! k)) SUPPRESSED)
  ∧ Forall (fun k => is_Some (s_call s !! k)) EARLY_FIELDS
  ∧ (∃ z cap, s_call s !! "NPS_score"%string = Some (PInt z)
              ∧ py_int (get cfg "nps.corrections.happy_cap" (PInt 10)) = Ok cap
              ∧ 0 ≤ z ≤ py_maxZ 0 cap)
  ∧ (∃ q, s_call s !! "sentiment_score"%string = Some (PFloat q)
          ∧ (-1 <= q)%Q ∧ (q <= 1)%Q)
  ∧ (∀ v, s_call s !! "Silence_ratio"%string = Some v → ∃ q, v = PFloat q ∧ (0 <= q)%Q).
Proof.
  intros H. unfold call_upto_nps in H. repeat step_Ok H.
  injection H as <-.
  match goal with
  | Hn : sample_nps _ _ _ _ _ _ = Ok _ |- _ =>
      apply sample_nps_bounds in Hn as (cap & Hcap & Hscore & Hsent1 & Hsent2)
  end.
  match goal with
  | Ho : sample_ops_metrics _ _ _ _ = Ok _ |- _ =>
      apply sample_ops_metrics_silence_ratio in Ho as Hsil
  end.
  cbn [s_call s_ctx s_seg s_scenario update foldl ops_items resolution_items nps_items fst snd
       set_intent set_geo set_channel set_customer_segment channel region language].
  split; [|split; [|split; [|split; [|split; [|split; [|split; [|split; [|split; [|split]]]]]]]]].
  - by lookup_through.
  - by lookup_through.
  - by lookup_through.
  - by lookup_through.
  - by lookup_through.
  - intros Htext. repeat constructor;
      (rewrite !lookup_insert_ne by done; apply suppress_text_fields_text; [done|];
       unfold SUPPRESSED; repeat constructor).
  - intros Hvoice. rewrite suppress_text_fields_voice by done.
    repeat constructor; lookup_through; by eexists.
  - repeat constructor; lookup_through; by eexists.
  - eexists _, cap. split; [by lookup_through|]. by split.
  - eexists. split; [by lookup_through|]. by split.
  - intros v. rewrite !lookup_insert_ne by done.
    match goal with
    | |- suppress_text_fields ?c _ !! _ = _ → _ =>
        destruct (decide (channel c = "text"%string)) as [Ht|Hv]
    end.
    + rewrite suppress_text_fields_text; [done|done|unfold SUPPRESSED; repeat constructor].
    + rewrite suppress_text_fields_voice by done. lookup_through.
      intros [= <-]. by eexists.
Qed.
End AssembledFacts.

(** ** Steps of the run *)

Section RunFacts.
Context {R : Runtime} {L : RuntimeLaws R}.

Lemma exec_bind {A B} (m : run A) (f : A → run B) (st : RunState) :
  exec (m ≫= f) st
  = match exec m st with
    | (st', Ok a) => exec (f a) st'
    | (st', Raise e) => (st', Raise e)
    end.
Proof. reflexivity. Qed.

Lemma exec_lift_bind {A B} (r : result A) (f : A → run B) (st : RunState) :
  exec (lift r ≫= f) st
  = match r with
    | Ok a => exec (f a) st
    | Raise e => (st, Raise e)
    end.
Proof. rewrite exec_bind. simpl. by destruct r. Qed.

(** A loop raises exactly when its body raises at some element after the
    elements before it went through: the state and the exception of the
    loop are those of that body, and no later element is visited. *)
Lemma for_each_raise {A} (xs : list A) (body : A → run ()) (st st' : RunState) (e : pyerr) :
  exec (for_each xs body) st = (st', Raise e) ↔
  ∃ pre x post st1,
    xs = pre ++ x :: post
    ∧ exec (for_each pre body) st = (st1, Ok ())
    ∧ exec (body x) st1 = (st', Raise e).
Proof.
  revert st. induction xs as [|x xs IH]; intros st.
  - split; [discriminate|]. intros (pre & y & post & st1 & Hxs & _). by destruct pre.
  - cbn [for_each]. rewrite exec_bind. destruct (exec (body x) st) as [st1 [[]|e1]] eqn:Hx.
    + rewrite IH. split.
      * intros (pre & y & post & st2 & -> & Hpre & Hy).
        exists (x :: pre), y, post, st2. repeat split; [|done].
        cbn [app for_each]. by rewrite exec_bind, Hx.
      * intros (pre & y & post & st2 & Hxs & Hpre & Hy).
        destruct pre as [|x' pre].
        -- simpl in *. injection Hxs as <- <-. injection Hpre as <-. congruence.
        -- injection Hxs as <- ->. cbn [for_each] in Hpre. rewrite exec_bind, Hx in Hpre.
           by exists pre, y, post, st2.
    + split.
      * intros [= <- <-]. exists [], x, xs, st. by repeat split.
      * intros (pre & y & post & st2 & Hxs & Hpre & Hy).
        destruct pre as [|x' pre].
        -- simpl in *. injection Hxs as <- <-. injection Hpre as <-. congruence.
        -- injection Hxs as <- ->. cbn [for_each] in Hpre. rewrite exec_bind, Hx in Hpre.
           discriminate.
Qed.

(** Invariants of the state go through loops and binds. *)
Lemma for_each_inv {A} (I : RunState → Prop) (xs : list A) (body : A → run ()) :
  (∀ x st, I st → I (exec (body x) st).1) →
  ∀ st, I st → I (exec (for_each xs body) st).1.
Proof.
  intros Hbody. induction xs as [|x xs IH]; intros st Hst; [done|].
  cbn [for_each]. rewrite exec_bind. specialize (Hbody x st Hst).
  destruct (exec (body x) st) as [st1 [[]|e]]; [by apply IH|done].
Qed.

Lemma lift_bind_inv {A B} (I : RunState → Prop) (r : result A) (f : A → run B) :
  (∀ a st, r = Ok a → I st → I (exec (f a) st).1) →
  ∀ st, I st → I (exec (lift r ≫= f) st).1.
Proof.
  intros Hf st Hst. rewrite exec_lift_bind. destruct r as [a|e]; [by apply Hf|done].
Qed.

(** [write_call_json] on a record that violates the schema, validation on:
    nothing is written and the error lists the violations. *)
Lemma write_call_json_invalid (call : Call) (st : RunState) :
  call_violations call ≠ [] →
  exec (write_call_json call true) st = (st, Raise (ValidationError (call_violations call))).
Proof.
  intros Hv. unfold write_call_json. rewrite exec_lift_bind.
  unfold validate_against_schema. by destruct (call_violations call).
Qed.

(** What [write_call_json] does to the state: nothing, or one file with the
    record, which passed validation if validation was on. *)
Lemma write_call_json_spec (call : Call) (validate : bool) (st st' : RunState)
    (out : result string) :
  exec (write_call_json call validate) st = (st', out) →
  (st' = st ∧ ∃ e, out = Raise e)
  ∨ (∃ dir name, st' = {| ani_cache := ani_cache st; cache_writes := cache_writes st;
                          files := files st ++ [{| file_dir := dir; file_name := name;
                                                   file_call := call |}] |}
                 ∧ out = Ok name
                 ∧ (validate = true → call_violations call = [])).
Proof.
  unfold write_call_json. rewrite exec_lift_bind.
  destruct (if validate then validate_against_schema call else Ok ()) as [[]|e] eqn:Hval;
    [|intros [= <- <-]; left; eauto].
  rewrite exec_lift_bind.
  destruct (mbind _ (call_str call "date")) as [d|e]; [|intros [= <- <-]; left; eauto].
  rewrite exec_lift_bind.
  destruct (call_str call "call_id") as [cid|e]; [|intros [= <- <-]; left; eauto].
  rewrite exec_bind. simpl. intros [= <- <-]. right.
  eexists _, _. repeat split. intros ->. unfold validate_against_schema in Hval.
  by destruct (call_violations call).
Qed.
Lemma call_after_identity_spec (cfg : EffectiveConfig) (det : DeterministicRNG) (s : Sampled)
    (call0 call : Call) :
  call_after_identity cfg det s call0 = Ok call →
  (∀ k, k ∉ LATE_FIELDS → call !! k = call0 !! k)
  ∧ Forall (fun k => is_Some (call !! k)) LATE_FIELDS
  ∧ (∃ q, call !! "script_adherence"%string = Some (PFloat q) ∧ (0 <= q)%Q ∧ (q <= 100)%Q).
Proof.
  intros H. unfold call_after_identity in H. repeat step_Ok H. injection H as <-.
  match goal with
  | Hc : sample_compliance _ _ _ _ = Ok _ |- _ =>
      apply sample_compliance_script_adherence in Hc as [Hlo Hhi]
  end.
  cbn [update foldl products_items automation_items compliance_items fst snd].
  split; [|split].
  - intros k Hk. unfold LATE_FIELDS in Hk.
    rewrite !lookup_insert_ne; [done|intros Heq; apply Hk; rewrite <- Heq; repeat constructor..].
  - repeat constructor; lookup_through; by eexists.
  - eexists. split; [by lookup_through|]. by split.
Qed.

(** The identity step: the record gets the identity cached for its customer
    key; the cache is left as it was (hit) or gets one new entry with a
    freshly generated ANI (miss). *)
Lemma call_identity_spec (det : DeterministicRNG) (s : Sampled) (st st1 : RunState)
    (out : result Call) :
  s_call s !! "region"%string = Some (PStr (region (s_ctx s))) →
  s_call s !! "language"%string = Some (PStr (language (s_ctx s))) →
  exec (call_identity det s) st = (st1, out) →
  let key := (s_seg s, channel (s_ctx s), scenario_topic (s_scenario s)) in
  (st1 = st ∧ ∃ e, out = Raise e)
  ∨ (∃ call0 m,
       out = Ok call0
       ∧ ani_cache st1 !! key = Some m
       ∧ call0 !! "ANI"%string = Some (PStr (meta_ANI m))
       ∧ call0 !! "region"%string = Some (PStr (meta_region m))
       ∧ call0 !! "language"%string = Some (PStr (meta_language m))
       ∧ (∀ k, k ≠ "ANI"%string → k ≠ "region"%string → k ≠ "language"%string →
               call0 !! k = s_call s !! k)
       ∧ (st1 = st
          ∨ (ani_cache st !! key = None
             ∧ well_formed_ani (meta_ANI m)
             ∧ st1 = {| ani_cache := <[key := m]> (ani_cache st);
                        cache_writes := cache_writes st ++ [key];
                        files := files st |}))).
Proof.
  intros Hreg Hlang. unfold call_identity. rewrite exec_bind.
  cbn [cache_lookup exec].
  destruct (ani_cache st !! _) as [m|] eqn:Hhit.
  - intros [= <- <-]. right. exists (update (s_call s)
      [("ANI"%string, PStr (meta_ANI m)); ("region"%string, PStr (meta_region m));
       ("language"%string, PStr (meta_language m))]), m.
    cbn [update foldl fst snd].
    split; [reflexivity|]. split; [done|].
    split; [by lookup_through|]. split; [by lookup_through|]. split; [by lookup_through|].
    split; [intros k H1 H2 H3; by rewrite !lookup_insert_ne|by left].
  - rewrite exec_lift_bind.
    destruct (generate_german_ani det _) as [ani|e] eqn:Hani;
      [|intros [= <- <-]; left; eauto].
    rewrite exec_bind. cbn [cache_store exec]. intros [= <- <-]. right.
    eexists _, {| meta_ANI := ani; meta_region := region (s_ctx s);
                  meta_language := language (s_ctx s) |}.
    cbn [ani_cache meta_ANI meta_region meta_language].
    split; [reflexivity|]. split; [apply lookup_insert_eq|].
    split; [apply lookup_insert_eq|].
    split; [by rewrite lookup_insert_ne|]. split; [by rewrite lookup_insert_ne|].
    split; [intros k H1 H2 H3; by rewrite lookup_insert_ne|].
    right. split; [done|]. split; [by eapply generate_german_ani_well_formed|done].
Qed.
Lemma run_inv_store (cfg : EffectiveConfig) (validate : bool) (n0 : nat) (st : RunState)
    (k : CustKey) (m : CustMeta) :
  run_inv cfg validate n0 st → ani_cache st !! k = None → well_formed_ani (meta_ANI m) →
  run_inv cfg validate n0 {| ani_cache := <[k := m]> (ani_cache st);
                         cache_writes := cache_writes st ++ [k];
                         files := files st |}.
Proof.
  intros (Hn & Hfiles & Hnd & Hdom & Hwf) Hnone Hm. unfold run_inv. simpl.
  split; [done|]. split; [|split; [|split]].
  - eapply Forall_impl; [exact Hfiles|]. intros f ((k' & m' & Hk & Hf & Hc) & Hrest).
    split; [|done]. exists k', m'. repeat split; [done..|].
    rewrite lookup_insert_ne; [done|]. intros ->. congruence.
  - apply NoDup_app. split; [done|]. split; [|apply NoDup_singleton].
    intros k' Hin Hin'. apply list_elem_of_singleton in Hin' as ->.
    apply Hdom in Hin as [? ?]. congruence.
  - intros k'. rewrite elem_of_app, list_elem_of_singleton, Hdom.
    destruct (decide (k = k')) as [->|Hne].
    + rewrite lookup_insert_eq. split; [by eexists|by right].
    + rewrite lookup_insert_ne by done. split; [by intros [?|?]|by left].
  - intros k' m'. destruct (decide (k = k')) as [->|Hne].
    + rewrite lookup_insert_eq. by intros [= <-].
    + rewrite lookup_insert_ne by done. apply Hwf.
Qed.

Lemma run_inv_write (cfg : EffectiveConfig) (validate : bool) (n0 : nat) (st : RunState)
    (f : File) :
  run_inv cfg validate n0 st →
  identity_cached (ani_cache st) (file_call f) → channel_contract (file_call f) →
  validated validate (file_call f) → bounded_fields cfg (file_call f) →
  run_inv cfg validate n0 {| ani_cache := ani_cache st; cache_writes := cache_writes st;
                         files := files st ++ [f] |}.
Proof.
  intros (Hn & Hfiles & Hrest) Hid Hch Hval Hb. unfold run_inv. simpl.
  split; [rewrite length_app; lia|]. split; [|done].
  rewrite drop_app_le by done. apply Forall_app. split; [done|]. by constructor.
Qed.

(** One call keeps the invariant of the run. *)
Lemma generate_call_inv (cfg : EffectiveConfig) (seed : Z) (validate : bool)
    (rng : DeterministicRNG) (day : calendar.DayPlan)
    (agent_name team shift_name bucket : string) (i : Z) (n0 : nat) (st : RunState) :
  run_inv cfg validate n0 st →
  run_inv cfg validate n0
    (exec (generate_call cfg seed validate rng day agent_name team shift_name bucket i) st).1.
Proof.
  intros Hinv. unfold generate_call. rewrite exec_lift_bind.
  destruct (call_upto_nps _ _ _ _ _ _ _ _ _) as [s|e] eqn:Hs; [|done].
  apply call_upto_nps_spec in Hs
    as (Hseg & Hchan & Hscen & Hreg & Hlang & Htext & Hvoice & Hearly & Hnps & Hsent & Hsil).
  rewrite exec_lift_bind. destruct (DeterministicRNG_init seed) as [det|e]; [|done].
  rewrite exec_bind. destruct (exec (call_identity det s) st) as [st1 out1] eqn:Hid.
  apply (call_identity_spec det s st st1 out1 Hreg Hlang) in Hid
    as [[-> [e ->]]|(call0 & m & -> & Hcache & Hani & Hreg0 & Hlang0 & Hother & Hst1)]; [done|].
  assert (run_inv cfg validate n0 st1) as Hinv1.
  { destruct Hst1 as [->|(Hnone & Hwf & ->)]; [done|by apply run_inv_store]. }
  rewrite exec_lift_bind.
  destruct (call_after_identity cfg det s call0) as [call|e] eqn:Hafter; [|done].
  apply call_after_identity_spec in Hafter as (Hlate & Hlatefields & Hscript).
  rewrite exec_bind.
  destruct (exec (write_call_json call _) st1) as [st2 out2] eqn:Hw.
  apply write_call_json_spec in Hw as [[-> [e ->]]|(dir & name & -> & -> & Hval)]; [done|].
  cbn [exec mret run_mret run_ret fst].
  apply (run_inv_write cfg validate n0 st1
           {| file_dir := dir; file_name := name; file_call := call |} Hinv1);
    cbn [file_call].
  - exists (s_seg s, channel (s_ctx s), scenario_topic (s_scenario s)), m.
    split; [|split; [|done]].
    + unfold call_cust_key.
      rewrite !Hlate by (unfold LATE_FIELDS; not_in_fields).
      rewrite !Hother by done. by rewrite Hseg, Hchan, Hscen.
    + unfold call_identity_fields.
      rewrite !Hlate by (unfold LATE_FIELDS; not_in_fields).
      rewrite Hani, Hreg0, Hlang0. by destruct m.
  - exists (channel (s_ctx s)). split; [|split; [|split]].
    + rewrite Hlate by (unfold LATE_FIELDS; not_in_fields). by rewrite Hother.
    + intros Ht. specialize (Htext Ht). unfold SUPPRESSED in *.
      repeat match goal with
             | H : Forall _ (_ :: _) |- _ => apply Forall_cons in H as [? H]
             end.
      repeat constructor;
        (rewrite Hlate by (unfold LATE_FIELDS; not_in_fields); by rewrite Hother).
    + intros Hv. specialize (Hvoice Hv). unfold SUPPRESSED in *.
      repeat match goal with
             | H : Forall _ (_ :: _) |- _ => apply Forall_cons in H as [? H]
             end.
      repeat constructor;
        (rewrite Hlate by (unfold LATE_FIELDS; not_in_fields); by rewrite Hother).
    + unfold OTHER_FIELDS. apply Forall_app. split; [|apply Forall_app; split; [|done]].
      * unfold EARLY_FIELDS in *.
        repeat match goal with
               | H : Forall _ (_ :: _) |- _ => apply Forall_cons in H as [? H]
               end.
        repeat constructor;
          (rewrite Hlate by (unfold LATE_FIELDS; not_in_fields);
           first [by rewrite Hother | by rewrite Hreg0 | by rewrite Hlang0]).
      * constructor; [|constructor].
        rewrite Hlate by (unfold LATE_FIELDS; not_in_fields). by rewrite Hani.
  - intros -> Hnt. apply Hval.
    rewrite Hlate in Hnt by (unfold LATE_FIELDS; not_in_fields).
    rewrite Hother, Hchan in Hnt by done.
    destruct (String.eqb_spec (channel (s_ctx s)) "text") as [Heq|_]; [|done].
    by rewrite Heq in Hnt.
  - destruct Hnps as (z & cap & Hz & Hcap & Hzb). destruct Hsent as (q & Hq & Hqb).
    split; [|split; [|split]].
    + exists z, cap. rewrite Hlate by (unfold LATE_FIELDS; not_in_fields).
      by rewrite Hother.
    + exists q. rewrite Hlate by (unfold LATE_FIELDS; not_in_fields). by rewrite Hother.
    + intros v. rewrite Hlate by (unfold LATE_FIELDS; not_in_fields).
      rewrite Hother by done. apply Hsil.
    + done.
Qed.
Lemma run_inv_start (cfg : EffectiveConfig) (validate : bool) (fs : list File) :
  run_inv cfg validate (length fs) (start_state fs).
Proof.
  unfold run_inv, start_state. simpl. split; [done|]. rewrite drop_all.
  split; [constructor|]. split; [constructor|]. split.
  - intros k. rewrite lookup_empty. split; [by intros ?%elem_of_nil|by intros [? ?]].
  - intros k m. by rewrite lookup_empty.
Qed.

(** The invariant holds of the state a run ends in, whether it returns or
    raises. *)
Lemma generate_dataset_inv (cfg : EffectiveConfig) (start_date end_date : pydate) (seed : Z)
    (validate : bool) (fs : list File) :
  run_inv cfg validate (length fs)
    (exec (generate_dataset cfg start_date end_date seed validate) (start_state fs)).1.
Proof.
  pose proof (run_inv_start cfg validate fs) as Hstart.
  set (I := run_inv cfg validate (length fs)) in *.
  unfold generate_dataset. rewrite exec_lift_bind.
  destruct (DeterministicRNG_init seed) as [rng|e]; [|done].
  rewrite exec_lift_bind.
  destruct (calendar.make_calendar _ _ _ _) as [days|e]; [|done].
  rewrite exec_bind. cbn [new_cache exec].
  apply for_each_inv; [|done].
  intros day sa Ha.
  apply (lift_bind_inv I); [|done]. intros day_rng sa1 _ Ha1.
  apply (lift_bind_inv I); [|done]. intros vol sa2 _ Ha2.
  apply (lift_bind_inv I); [|done]. intros by_agent sa3 _ Ha3.
  apply for_each_inv; [|done]. intros agent sb Hb.
  apply (lift_bind_inv I); [|done]. intros agent_name sb1 _ Hb1.
  apply (lift_bind_inv I); [|done]. intros by_shift sb2 _ Hb2.
  apply (lift_bind_inv I); [|done]. intros team sb3 _ Hb3.
  apply for_each_inv; [|done]. intros shift sc Hc.
  apply (lift_bind_inv I); [|done]. intros shift_name sc1 _ Hc1.
  apply (lift_bind_inv I); [|done]. intros by_bucket sc2 _ Hc2.
  apply for_each_inv; [|done]. intros bk sd Hd.
  apply (lift_bind_inv I); [|done]. intros bucket sd1 _ Hd1.
  apply for_each_inv; [|done]. intros i se He.
  by apply generate_call_inv.
Qed.

(** What the invariant says of the files of a finished run. *)
Lemma generate_dataset_files (cfg : EffectiveConfig) (start_date end_date : pydate) (seed : Z)
    (validate : bool) (fs : list File) :
  Forall (fun f => identity_cached
                     (ani_cache (final_state cfg start_date end_date seed validate fs))
                     (file_call f)
                   ∧ channel_contract (file_call f)
                   ∧ validated validate (file_call f)
                   ∧ bounded_fields cfg (file_call f)
                   ∧ ∃ ani, file_call f !! "ANI"%string = Some (PStr ani)
                            ∧ well_formed_ani ani)
         (run_files cfg start_date end_date seed validate fs)
  ∧ NoDup (run_cache_writes cfg start_date end_date seed validate fs).
Proof.
  pose proof (generate_dataset_inv cfg start_date end_date seed validate fs) as Hinv.
  fold (final_state cfg start_date end_date seed validate fs) in Hinv.
  destruct Hinv as (_ & Hfiles & Hnd & _ & Hwf).
  split; [|done]. unfold run_files.
  eapply Forall_impl; [exact Hfiles|].
  intros f (Hid & Hch & Hval & Hb). do 4 (split; [done|]).
  destruct Hid as (k & m & Hk & Hf & Hc). unfold call_identity_fields in Hf.
  destruct (file_call f !! "ANI"%string) as [[| | | |ani| | | |]|]; try discriminate.
  destruct (file_call f !! "region"%string) as [[| | | |reg| | | |]|]; try discriminate.
  destruct (file_call f !! "language"%string) as [[| | | |lang| | | |]|]; try discriminate.
  injection Hf as <-. exists ani. split; [done|]. by apply (Hwf k _ Hc).
Qed.
End RunFacts.

(** ** Incident propagation in the calendar *)

Section CalendarFacts.
Context {R : Runtime}.

Lemma elem_of_py_range (a b x : Z) : x ∈ py_range a b ↔ a ≤ x < b.
Proof.
  unfold py_range. rewrite list_elem_of_In, in_map_iff. split.
  - intros (i & <- & Hi). apply in_seq in Hi. lia.
  - intros Hx. exists (Z.to_nat (x - a)). split; [lia|]. apply in_seq. lia.
Qed.

Lemma propagate_inner (d e x : Z) (ks : list Z) (acc : gset pydate) :
  x ∈ foldl (fun acc k => let nd := d + k in if nd <=? e then {[nd]} ∪ acc else acc) acc ks
  ↔ x ∈ acc ∨ ∃ k, k ∈ ks ∧ x = d + k ∧ x ≤ e.
Proof.
  revert acc. induction ks as [|k ks IH]; intros acc; simpl.
  - split; [by left|]. intros [?|(k & Hk & _)]; [done|by apply elem_of_nil in Hk].
  - rewrite IH. destruct (d + k <=? e) eqn:Hle.
    + rewrite elem_of_union, elem_of_singleton. split.
      * intros [[->|?]|(k' & Hk' & ? & ?)].
        -- right. exists k. split; [by left|]. split; [done|lia].
        -- by left.
        -- right. exists k'. split; [by right|done].
      * intros [?|(k' & Hk' & -> & ?)]; [by left; right|].
        apply elem_of_cons in Hk' as [->|Hk']; [by left; left|].
        right. by exists k'.
    + split.
      * intros [?|(k' & Hk' & ? & ?)]; [by left|]. right. exists k'. split; [by right|done].
      * intros [?|(k' & Hk' & -> & ?)]; [by left|].
        apply elem_of_cons in Hk' as [->|Hk']; [lia|]. right. by exists k'.
Qed.

Lemma propagate_outer (k e x : Z) (ds : list pydate) (acc : gset pydate) :
  x ∈ foldl (fun acc d =>
               foldl (fun acc k => let nd := d + k in
                                   if nd <=? e then {[nd]} ∪ acc else acc)
                     acc (py_range 1 (k + 1))) acc ds
  ↔ x ∈ acc ∨ ∃ d, d ∈ ds ∧ 1 ≤ x - d ≤ k ∧ x ≤ e.
Proof.
  revert acc. induction ds as [|d ds IH]; intros acc; simpl.
  - split; [by left|]. intros [?|(d & Hd & _)]; [done|by apply elem_of_nil in Hd].
  - rewrite IH, propagate_inner. split.
    + intros [[?|(j & Hj & -> & ?)]|(d' & Hd' & ?)].
      * by left.
      * right. exists d. split; [by left|]. apply elem_of_py_range in Hj. lia.
      * right. exists d'. split; [by right|done].
    + intros [?|(d' & Hd' & Hx & ?)]; [by left; left|].
      apply elem_of_cons in Hd' as [->|Hd'].
      * left. right. exists (x - d). split; [apply elem_of_py_range; lia|]. split; lia.
      * right. by exists d'.
Qed.

(** A date is in [app_issue_days] exactly when it lies 1 to [k] days after
    an outage date and not after the end of the range. *)
Lemma elem_of_propagate_app_issue (outage_days : gset pydate) (k e x : Z) :
  x ∈ calendar.propagate_app_issue (elements outage_days) k e
  ↔ ∃ d, d ∈ outage_days ∧ 1 ≤ x - d ≤ k ∧ x ≤ e.
Proof.
  unfold calendar.propagate_app_issue. rewrite propagate_outer. split.
  - intros [Hx|(d & Hd & ?)]; [by apply not_elem_of_empty in Hx|].
    exists d. by rewrite <- elem_of_elements.
  - intros (d & Hd & ?). right. exists d. by rewrite elem_of_elements.
Qed.

(** Outage days are dates of the range. *)
Lemma select_outage_days_range (start end_ : pydate) (outages : Z) (rng : DeterministicRNG)
    (S : gset pydate) (d : pydate) :
  calendar.select_outage_days start end_ outages rng = Ok S →
  d ∈ S → d ∈ calendar.daterange start end_.
Proof.
  intros H Hd. unfold calendar.select_outage_days in H.
  step_Ok H. destruct (_ || _); [injection H as <-; by apply not_elem_of_empty in Hd|].
  step_Ok H. step_Ok H. step_Ok H. injection H as <-.
  apply elem_of_list_to_set in Hd. apply mapR_Forall2 in E1.
  clear -E1 Hd. induction E1 as [|i y idxs ys Hi _ IH]; [by apply elem_of_nil in Hd|].
  apply elem_of_cons in Hd as [->|Hd]; [|by apply IH].
  destruct (_ !! i) as [d'|] eqn:Hl; [|discriminate]. injection Hi as <-.
  apply list_elem_of_lookup_2 in Hl. by apply list_elem_of_filter in Hl as [_ ?].
Qed.
End CalendarFacts.

(** C7.  In a calendar that [make_calendar] returns, with
    [app_issue_after_outage_days = k]: the days are the dates of the range
    in order, and a day has [app_issue_flag] exactly when it lies 1 to [k]
    days after some day of the calendar that has [outage_flag] (one outage
    is enough, several may apply). *)
Theorem app_issue_propagation {R : Runtime} (start_date end_date : pydate)
    (cfg : EffectiveConfig) (rng : DeterministicRNG) (days : list calendar.DayPlan) (k : Z) :
  calendar.make_calendar start_date end_date cfg rng = Ok days →
  py_int (py_or (get cfg "calendar.incidents.app_issue_after_outage_days" (PInt 0)) (PInt 0))
  = Ok k →
  map calendar.date days = calendar.daterange start_date end_date
  ∧ ∀ day, day ∈ days →
      (calendar.app_issue_flag day = true ↔
       ∃ o, o ∈ days ∧ calendar.outage_flag o = true
            ∧ 1 ≤ calendar.date day - calendar.date o ≤ k).
Proof.
  intros H Hk. unfold calendar.make_calendar in H.
  repeat step_Ok H. rewrite Hk in E0. injection E0 as <-. rename a2 into outage_days.
  apply mapR_Forall2 in H.
  assert (Hdays : Forall2 (fun d day =>
            calendar.date day = d
            ∧ calendar.outage_flag day = bool_decide (d ∈ outage_days)
            ∧ calendar.app_issue_flag day
              = bool_decide (d ∈ calendar.propagate_app_issue (elements outage_days) k end_date))
            (calendar.daterange start_date end_date) days).
  { eapply Forall2_impl; [exact H|]. intros d day Hd. cbv beta in Hd.
    step_Ok Hd. step_Ok Hd. by injection Hd as <-. }
  clear H.
  assert (Hdates : map calendar.date days = calendar.daterange start_date end_date).
  { rewrite <- (map_id (calendar.daterange start_date end_date)).
    apply Forall2_map_eq. eapply Forall2_impl; [exact Hdays|]. by intros d day [? _]. }
  split; [done|]. intros day Hday.
  (* the day's own date *)
  assert (Hin : ∀ x, x ∈ days →
            calendar.date x ∈ calendar.daterange start_date end_date
            ∧ calendar.outage_flag x = bool_decide (calendar.date x ∈ outage_days)
            ∧ calendar.app_issue_flag x
              = bool_decide (calendar.date x
                             ∈ calendar.propagate_app_issue (elements outage_days) k end_date)).
  { intros x Hx. apply list_elem_of_lookup in Hx as [i Hx].
    destruct (Forall2_lookup_r _ _ _ _ _ Hdays Hx) as (d & Hd & <- & ? & ?).
    split; [|done]. by eapply list_elem_of_lookup_2. }
  destruct (Hin day Hday) as (Hrange & _ & ->).
  rewrite bool_decide_eq_true, elem_of_propagate_app_issue. split.
  - intros (d & Hd & Hdist & _).
    assert (d ∈ calendar.daterange start_date end_date) as Hdr
      by (by eapply select_outage_days_range).
    apply list_elem_of_lookup in Hdr as [i Hi].
    destruct (Forall2_lookup_l _ _ _ _ _ Hdays Hi) as (o & Ho & <- & Hflag & _).
    exists o. split; [by eapply list_elem_of_lookup_2|].
    split; [|done]. rewrite Hflag. by apply bool_decide_eq_true.
  - intros (o & Ho & Hflag & Hdist).
    destruct (Hin o Ho) as (_ & Hof & _). rewrite Hof in Hflag.
    apply bool_decide_eq_true in Hflag.
    exists (calendar.date o). split; [done|]. split; [done|].
    unfold calendar.daterange in Hrange. apply elem_of_py_range in Hrange. lia.
Qed.

(** ** Loops over [range(n)] *)

Lemma py_range_0 (n : Z) : py_range 0 n = map Z.of_nat (seq 0 (Z.to_nat n)).
Proof. unfold py_range. rewrite Z.sub_0_r. by apply map_ext. Qed.

Lemma map_seq_from {A} (f : nat → A) (s b : nat) :
  map f (seq s b) = map (fun k => f (s + k)%nat) (seq 0 b).
Proof.
  revert s f. induction b as [|b IH]; intros s f; [done|]. simpl. f_equal.
  - f_equal. lia.
  - rewrite (IH (S s)), (IH 1%nat). apply map_ext. intros k. f_equal. lia.
Qed.

Lemma py_range_split (i n : Z) :
  0 ≤ i < n → py_range 0 n = py_range 0 i ++ i :: py_range (i + 1) n.
Proof.
  intros Hi. unfold py_range. rewrite !Z.sub_0_r.
  replace (Z.to_nat n) with (Z.to_nat i + S (Z.to_nat (n - (i + 1))))%nat by lia.
  rewrite seq_app, map_app. f_equal. simpl. f_equal; [lia|].
  rewrite map_seq_from. apply map_ext. intros k. lia.
Qed.

Lemma py_range_prefix (n x : Z) (pre post : list Z) :
  py_range 0 n = pre ++ x :: post →
  x = Z.of_nat (length pre) ∧ pre = py_range 0 x ∧ 0 ≤ x < n.
Proof.
  intros H. rewrite py_range_0 in H.
  assert (Hlen : (length pre < Z.to_nat n)%nat).
  { apply (f_equal length) in H. rewrite length_map, length_seq, length_app in H.
    simpl in H. lia. }
  assert (Hx : x = Z.of_nat (length pre)).
  { apply (f_equal (fun l => l !! length pre)) in H.
    rewrite list_lookup_middle in H by done.
    rewrite list_lookup_fmap, lookup_seq_lt in H by done. simpl in H. by injection H as <-. }
  split; [done|]. split; [|lia].
  apply (f_equal (take (length pre))) in H.
  rewrite take_app_length in H. rewrite <- H, py_range_0, Hx, Nat2Z.id.
  change (map Z.of_nat) with (fmap (M := list) Z.of_nat).
  rewrite <- fmap_take, take_seq. f_equal. f_equal. lia.
Qed.

(** The loop over the calls of a bucket raises exactly when call [i]
    raises after the calls [0 .. i-1] went through: the state and the
    exception are those of call [i], and the calls after it are not
    generated. *)
Lemma calls_loop_raise {R : Runtime} (body : Z → run ()) (n : Z) (st st' : RunState)
    (e : pyerr) :
  exec (for_each (py_range 0 n) body) st = (st', Raise e) ↔
  ∃ i st1, 0 ≤ i < n
           ∧ exec (for_each (py_range 0 i) body) st = (st1, Ok ())
           ∧ exec (body i) st1 = (st', Raise e).
Proof.
  rewrite for_each_raise. split.
  - intros (pre & x & post & st1 & Hr & Hpre & Hx).
    apply py_range_prefix in Hr as (_ & -> & Hn). by exists x, st1.
  - intros (i & st1 & Hi & Hpre & Hx).
    exists (py_range 0 i), i, (py_range (i + 1) n), st1. split; [|done].
    by apply py_range_split.
Qed.

(** ** Records of a run *)

Section LoopsOfRun.
Context {R : Runtime}.

Lemma generate_dataset_bodies (cfg : EffectiveConfig) (start_date end_date : pydate) (seed : Z)
    (validate : bool) :
  generate_dataset cfg start_date end_date seed validate
  = (rng ← lift (DeterministicRNG_init seed);
     days ← lift (calendar.make_calendar start_date end_date cfg rng);
     _ ← new_cache;
     for_each days (day_body cfg seed validate rng)).
Proof. reflexivity. Qed.

Lemma lift_bind_raise {A B} (r : result A) (f : A → run B) (st st' : RunState) (e : pyerr) :
  exec (lift r ≫= f) st = (st', Raise e) ↔
  (r = Raise e ∧ st' = st) ∨ ∃ a, r = Ok a ∧ exec (f a) st = (st', Raise e).
Proof.
  rewrite exec_lift_bind. destruct r as [a|e0]; split.
  - intros H. right. by exists a.
  - intros [[Hr _]|(a' & [= <-] & H)]; [discriminate Hr|done].
  - intros [= <- <-]. by left.
  - intros [[[= <-] ->]|(a' & Hr & _)]; [done|discriminate Hr].
Qed.

Lemma run_raise (cfg : EffectiveConfig) (start_date end_date : pydate) (seed : Z)
    (validate : bool) (fs : list File) (st' : RunState) (e : pyerr) :
  exec (generate_dataset cfg start_date end_date seed validate) (start_state fs)
  = (st', Raise e) ↔
  (DeterministicRNG_init seed = Raise e ∧ st' = start_state fs)
  ∨ ∃ rng, DeterministicRNG_init seed = Ok rng
      ∧ ((calendar.make_calendar start_date end_date cfg rng = Raise e ∧ st' = start_state fs)
         ∨ ∃ days, calendar.make_calendar start_date end_date cfg rng = Ok days
             ∧ raises_at days (day_body cfg seed validate rng) (start_state fs) st' e).
Proof.
  rewrite generate_dataset_bodies, lift_bind_raise.
  apply or_iff_compat_l. apply exist_proper. intros rng. apply and_iff_compat_l.
  rewrite lift_bind_raise. apply or_iff_compat_l. apply exist_proper. intros days.
  apply and_iff_compat_l. rewrite exec_bind. cbn [new_cache exec]. apply for_each_raise.
Qed.

Lemma result_bind_Ok {A B} (a : A) (f : A → result B) : (Ok a ≫= f) = f a.
Proof. reflexivity. Qed.

(** One step of a plan at the head of a loop body: it returns, or the body
    raises its exception and leaves the state as it was. *)
Ltac plan_step :=
  rewrite exec_lift_bind;
  match goal with
  | |- context [match ?r with Ok _ => _ | Raise _ => _ end] =>
      let e0 := fresh "e0" in
      let Hex := fresh "Hex" in
      destruct r as [?|e0];
      [rewrite ?result_bind_Ok; cbv beta iota
      |simpl; split;
       [intros [= <- <-]; by left
       |intros [[[= <-] ->]|Hex]; [done|decompose [ex and] Hex; discriminate]]]
  end.

Lemma day_raise (cfg : EffectiveConfig) (seed : Z) (validate : bool) (rng : DeterministicRNG)
    (day : calendar.DayPlan) (st st' : RunState) (e : pyerr) :
  exec (day_body cfg seed validate rng day) st = (st', Raise e) ↔
  (day_plan cfg rng day = Raise e ∧ st' = st)
  ∨ ∃ by_agent, day_plan cfg rng day = Ok by_agent
      ∧ raises_at by_agent (agent_body cfg seed validate rng day) st st' e.
Proof.
  unfold raises_at. setoid_rewrite <- for_each_raise.
  unfold day_body, day_plan. plan_step. plan_step. apply lift_bind_raise.
Qed.

Lemma agent_raise (cfg : EffectiveConfig) (seed : Z) (validate : bool)
    (rng : DeterministicRNG) (day : calendar.DayPlan) (agent : pkey * Z)
    (st st' : RunState) (e : pyerr) :
  exec (agent_body cfg seed validate rng day agent) st = (st', Raise e) ↔
  (agent_plan cfg rng agent = Raise e ∧ st' = st)
  ∨ ∃ agent_name team by_shift, agent_plan cfg rng agent = Ok (agent_name, team, by_shift)
      ∧ raises_at by_shift (shift_body cfg seed validate rng day agent_name team) st st' e.
Proof.
  unfold raises_at. setoid_rewrite <- for_each_raise.
  unfold agent_body, agent_plan. plan_step. plan_step. plan_step.
  split.
  - intros H. right. by eexists _, _, _.
  - intros [[Hr _]|(an & tm & bs & [= <- <- <-] & H)]; [discriminate Hr|done].
Qed.

Lemma shift_raise (cfg : EffectiveConfig) (seed : Z) (validate : bool)
    (rng : DeterministicRNG) (day : calendar.DayPlan) (agent_name team : string)
    (shift : pkey * Z) (st st' : RunState) (e : pyerr) :
  exec (shift_body cfg seed validate rng day agent_name team shift) st = (st', Raise e) ↔
  (shift_plan cfg rng day shift = Raise e ∧ st' = st)
  ∨ ∃ shift_name by_bucket, shift_plan cfg rng day shift = Ok (shift_name, by_bucket)
      ∧ raises_at by_bucket (bucket_body cfg seed validate rng day agent_name team shift_name)
          st st' e.
Proof.
  unfold raises_at. setoid_rewrite <- for_each_raise.
  unfold shift_body, shift_plan. plan_step. plan_step.
  split.
  - intros H. right. by eexists _, _.
  - intros [[Hr _]|(sn & bb & [= <- <-] & H)]; [discriminate Hr|done].
Qed.

Lemma bucket_raise (cfg : EffectiveConfig) (seed : Z) (validate : bool)
    (rng : DeterministicRNG) (day : calendar.DayPlan) (agent_name team shift_name : string)
    (bk : pkey * Z) (st st' : RunState) (e : pyerr) :
  exec (bucket_body cfg seed validate rng day agent_name team shift_name bk) st
  = (st', Raise e) ↔
  (as_str bk.1 = Raise e ∧ st' = st)
  ∨ ∃ bucket, as_str bk.1 = Ok bucket
      ∧ raises_at (py_range 0 bk.2)
          (generate_call cfg seed validate rng day agent_name team shift_name bucket) st st' e.
Proof.
  unfold raises_at. setoid_rewrite <- for_each_raise. unfold bucket_body.
  apply lift_bind_raise.
Qed.

(** A call whose assembled record violates the schema raises, when it is
    validated, the ValidationError of the record and writes nothing. *)
Lemma generate_call_invalid (cfg : EffectiveConfig) (seed : Z) (rng : DeterministicRNG)
    (day : calendar.DayPlan) (agent_name team shift_name bucket : string) (i : Z)
    (s : Sampled) (det : DeterministicRNG) (st st1 : RunState) (call0 call : Call) :
  call_upto_nps cfg seed rng day agent_name team shift_name bucket i = Ok s →
  DeterministicRNG_init seed = Ok det →
  exec (call_identity det s) st = (st1, Ok call0) →
  call_after_identity cfg det s call0 = Ok call →
  channel (s_ctx s) ≠ "text"%string →
  call_violations call ≠ [] →
  exec (generate_call cfg seed true rng day agent_name team shift_name bucket i) st
  = (st1, Raise (ValidationError (call_violations call))).
Proof.
  intros Hs Hdet Hid Hafter Hch Hviol. unfold generate_call.
  rewrite exec_lift_bind, Hs, exec_lift_bind, Hdet, exec_bind, Hid, exec_lift_bind, Hafter.
  rewrite exec_bind. destruct (String.eqb_spec (channel (s_ctx s)) "text") as [|_]; [done|].
  cbn [andb negb]. by rewrite write_call_json_invalid.
Qed.
End LoopsOfRun.

(** C5 (as amended).  A record that violates the schema, validation on:
    [write_call_json] raises the ValidationError of the record and writes
    nothing, and so does the call of [generate_dataset] that assembled the
    record.  The exception is not caught.  The loop over the calls of a
    bucket raises exactly when some call [i] raises after the calls before
    it went through, it ends in the state that call left, and the calls
    after [i] are not generated; a loop whose body raises at an element ends
    there, whatever elements remain.  Level by level, the body of the loop
    over buckets, shifts, agents and days raises exactly when a step of its
    plan raises or its inner loop ends at an element in this way, with the
    same exception and the same state; and the run raises exactly when the
    generator or the calendar cannot be made or the loop over the days ends
    at a day in this way: the run ends with the exception of the failing
    call, in the state that call left.  Every record that a run with
    validation on has written, text-channel records apart, is a valid
    instance of the schema. *)
Theorem validation_failure_ends_run {R : Runtime} {L : RuntimeLaws R} :
  (∀ (call : Call) (st : RunState),
     call_violations call ≠ [] →
     exec (write_call_json call true) st
     = (st, Raise (ValidationError (call_violations call))))
  ∧ (∀ (cfg : EffectiveConfig) (seed : Z) (rng : DeterministicRNG) (day : calendar.DayPlan)
       (agent_name team shift_name bucket : string) (i : Z) (s : Sampled)
       (det : DeterministicRNG) (st st1 : RunState) (call0 call : Call),
       call_upto_nps cfg seed rng day agent_name team shift_name bucket i = Ok s →
       DeterministicRNG_init seed = Ok det →
       exec (call_identity det s) st = (st1, Ok call0) →
       call_after_identity cfg det s call0 = Ok call →
       channel (s_ctx s) ≠ "text"%string →
       call_violations call ≠ [] →
       exec (generate_call cfg seed true rng day agent_name team shift_name bucket i) st
       = (st1, Raise (ValidationError (call_violations call)))
       ∧ files st1 = files st)
  ∧ (∀ (cfg : EffectiveConfig) (seed : Z) (validate : bool) (rng : DeterministicRNG)
       (day : calendar.DayPlan) (agent_name team shift_name bucket : string) (n : Z)
       (st st' : RunState) (e : pyerr),
       let body := generate_call cfg seed validate rng day agent_name team shift_name bucket in
       exec (for_each (py_range 0 n) body) st = (st', Raise e) ↔
       ∃ i st1, 0 ≤ i < n
                ∧ exec (for_each (py_range 0 i) body) st = (st1, Ok ())
                ∧ exec (body i) st1 = (st', Raise e))
  ∧ (∀ (A : Type) (body : A → run ()) (pre post : list A) (x : A)
       (st st1 st' : RunState) (e : pyerr),
       exec (for_each pre body) st = (st1, Ok ()) →
       exec (body x) st1 = (st', Raise e) →
       exec (for_each (pre ++ x :: post) body) st = (st', Raise e))
  ∧ (∀ (cfg : EffectiveConfig) (seed : Z) (validate : bool) (rng : DeterministicRNG)
       (day : calendar.DayPlan) (st st' : RunState) (e : pyerr),
       (∀ (agent_name team shift_name : string) (bk : pkey * Z),
          exec (bucket_body cfg seed validate rng day agent_name team shift_name bk) st
          = (st', Raise e) ↔
          (as_str bk.1 = Raise e ∧ st' = st)
          ∨ ∃ bucket, as_str bk.1 = Ok bucket
              ∧ raises_at (py_range 0 bk.2)
                  (generate_call cfg seed validate rng day agent_name team shift_name bucket)
                  st st' e)
       ∧ (∀ (agent_name team : string) (shift : pkey * Z),
            exec (shift_body cfg seed validate rng day agent_name team shift) st
            = (st', Raise e) ↔
            (shift_plan cfg rng day shift = Raise e ∧ st' = st)
            ∨ ∃ shift_name by_bucket,
                shift_plan cfg rng day shift = Ok (shift_name, by_bucket)
                ∧ raises_at by_bucket
                    (bucket_body cfg seed validate rng day agent_name team shift_name)
                    st st' e)
       ∧ (∀ (agent : pkey * Z),
            exec (agent_body cfg seed validate rng day agent) st = (st', Raise e) ↔
            (agent_plan cfg rng agent = Raise e ∧ st' = st)
            ∨ ∃ agent_name team by_shift,
                agent_plan cfg rng agent = Ok (agent_name, team, by_shift)
                ∧ raises_at by_shift (shift_body cfg seed validate rng day agent_name team)
                    st st' e)
       ∧ (exec (day_body cfg seed validate rng day) st = (st', Raise e) ↔
          (day_plan cfg rng day = Raise e ∧ st' = st)
          ∨ ∃ by_agent, day_plan cfg rng day = Ok by_agent
              ∧ raises_at by_agent (agent_body cfg seed validate rng day) st st' e))
  ∧ (∀ (cfg : EffectiveConfig) (start_date end_date : pydate) (seed : Z) (validate : bool)
       (fs : list File) (e : pyerr),
       run_outcome cfg start_date end_date seed validate fs = Raise e ↔
       DeterministicRNG_init seed = Raise e
       ∨ ∃ rng, DeterministicRNG_init seed = Ok rng
           ∧ (calendar.make_calendar start_date end_date cfg rng = Raise e
              ∨ ∃ days, calendar.make_calendar start_date end_date cfg rng = Ok days
                  ∧ raises_at days (day_body cfg seed validate rng) (start_state fs)
                      (final_state cfg start_date end_date seed validate fs) e))
  ∧ (∀ (cfg : EffectiveConfig) (start_date end_date : pydate) (seed : Z) (fs : list File)
       (f : File),
       f ∈ run_files cfg start_date end_date seed true fs →
       file_call f !! "channel"%string ≠ Some (PStr "text") →
       call_violations (file_call f) = []).
Proof.
  split; [|split; [|split; [|split; [|split; [|split]]]]].
  - intros call st. apply write_call_json_invalid.
  - intros cfg seed rng day agent_name team shift_name bucket i s det st st1 call0 call
      Hs Hdet Hid Hafter Hch Hviol.
    split; [by eapply generate_call_invalid|].
    pose proof (call_upto_nps_spec _ _ _ _ _ _ _ _ _ _ Hs) as (_ & _ & _ & Hreg & Hlang & _).
    pose proof (call_identity_spec det s st st1 _ Hreg Hlang Hid) as Hspec. cbv zeta in Hspec.
    destruct Hspec as [[-> _]|(c0 & m & _ & _ & _ & _ & _ & _ & [->|(_ & _ & ->)])]; done.
  - intros. apply calls_loop_raise.
  - intros A body pre post x st st1 st' e Hpre Hx.
    apply for_each_raise. by exists pre, x, post, st1.
  - intros cfg seed validate rng day st st' e. split; [|split; [|split]].
    + intros. apply bucket_raise.
    + intros. apply shift_raise.
    + intros. apply agent_raise.
    + apply day_raise.
  - intros cfg start_date end_date seed validate fs e. unfold run_outcome, final_state.
    destruct (exec (generate_dataset cfg start_date end_date seed validate) (start_state fs))
      as [stf out] eqn:Hrun.
    cbn [fst snd]. split.
    + intros ->. apply run_raise in Hrun as [[Hr _]|(rng & Hrng & [[Hd _]|(days & Hd & H)])].
      * by left.
      * right. exists rng. split; [done|by left].
      * right. exists rng. split; [done|]. right. by exists days.
    + intros H.
      assert (∃ st', exec (generate_dataset cfg start_date end_date seed validate)
                       (start_state fs) = (st', Raise e)) as [st' Hst'].
      { destruct H as [Hr|(rng & Hrng & [Hd|(days & Hd & H)])].
        - eexists. apply run_raise. by left.
        - eexists. apply run_raise. right. exists rng. split; [done|by left].
        - eexists. apply run_raise. right. exists rng. split; [done|]. right. by exists days. }
      rewrite Hrun in Hst'. by injection Hst' as _ ->.
  - intros cfg start_date end_date seed fs f Hf Hch.
    destruct (generate_dataset_files cfg start_date end_date seed true fs) as [Hfiles _].
    rewrite Forall_forall in Hfiles. destruct (Hfiles f Hf) as (_ & _ & Hval & _).
    by apply Hval.
Qed.

(** C6 (as amended).  Every record written by a run keeps the bounds of
    the samplers: [NPS_score] is an integer between 0 and the configured
    [happy_cap] (between 0 and 10 for the default cap, 0 if the cap is
    negative), [sentiment_score] lies in [-1, 1], [Silence_ratio], when the
    record has it, is not negative, [script_adherence] lies in [0, 100]. *)
Theorem bounded_fields_of_records {R : Runtime} {L : RuntimeLaws R} (cfg : EffectiveConfig)
    (start_date end_date : pydate) (seed : Z) (validate : bool) (fs : list File) (f : File) :
  f ∈ run_files cfg start_date end_date seed validate fs →
  bounded_fields cfg (file_call f).
Proof.
  intros Hf.
  destruct (generate_dataset_files cfg start_date end_date seed validate fs) as [Hfiles _].
  rewrite Forall_forall in Hfiles. by destruct (Hfiles f Hf) as (_ & _ & _ & Hb & _).
Qed.

(** C8.  The removal step changes no field but the three, and does nothing
    unless the channel is ["text"]; in every record written by a run whose
    channel is ["text"] the three fields are absent, in every other record
    they are present, and in both all the other fields are present. *)
Theorem text_channel_fields_removed {R : Runtime} {L : RuntimeLaws R} (cfg : EffectiveConfig)
    (start_date end_date : pydate) (seed : Z) (validate : bool) (fs : list File) (f : File) :
  f ∈ run_files cfg start_date end_date seed validate fs →
  channel_contract (file_call f)
  ∧ (∀ (ctx : Context) (call : Call) (k : string),
       k ∉ SUPPRESSED → suppress_text_fields ctx call !! k = call !! k)
  ∧ (∀ (ctx : Context) (call : Call),
       channel ctx ≠ "text"%string → suppress_text_fields ctx call = call).
Proof.
  intros Hf.
  destruct (generate_dataset_files cfg start_date end_date seed validate fs) as [Hfiles _].
  rewrite Forall_forall in Hfiles. destruct (Hfiles f Hf) as (_ & Hch & _).
  split; [done|]. split.
  - apply suppress_text_fields_frame.
  - apply suppress_text_fields_voice.
Qed.

(** C9.  Of two records written by one run that have the same customer
    key, the later carries the ANI, region and language of the earlier
    (both carry the cache entry of the key); and the keys assigned in the
    identity cache during the run are pairwise distinct: no entry is
    written twice. *)
Theorem identity_cache_reuse {R : Runtime} {L : RuntimeLaws R} (cfg : EffectiveConfig)
    (start_date end_date : pydate) (seed : Z) (validate : bool) (fs : list File)
    (i j : nat) (f g : File) :
  (i < j)%nat →
  run_files cfg start_date end_date seed validate fs !! i = Some f →
  run_files cfg start_date end_date seed validate fs !! j = Some g →
  call_cust_key (file_call f) = call_cust_key (file_call g) →
  (∃ m, call_identity_fields (file_call f) = Some m
        ∧ call_identity_fields (file_call g) = Some m)
  ∧ NoDup (run_cache_writes cfg start_date end_date seed validate fs).
Proof.
  intros _ Hf Hg Hkey.
  destruct (generate_dataset_files cfg start_date end_date seed validate fs) as [Hfiles Hnd].
  split; [|done]. rewrite Forall_forall in Hfiles.
  apply list_elem_of_lookup_2 in Hf, Hg.
  destruct (Hfiles f Hf) as ((k & m & Hk & Hm & Hc) & _).
  destruct (Hfiles g Hg) as ((k' & m' & Hk' & Hm' & Hc') & _).
  exists m. split; [done|]. rewrite Hm'. f_equal.
  rewrite Hk, Hk' in Hkey. injection Hkey as <-. congruence.
Qed.

(** C10.  Whenever [generate_german_ani] returns, for whatever seed and
    customer key, the string is ["+49"] followed by 9 to 12 decimal digits
    and matches the pattern of the schema; it returns for every seed that
    fits 8 bytes; and every record written by a run, text-channel records
    included, carries such an ANI. *)
Theorem generated_ani_well_formed {R : Runtime} {L : RuntimeLaws R} :
  (∀ (rng : DeterministicRNG) (key : list pyval) (s : string),
     generate_german_ani rng key = Ok s → well_formed_ani s ∧ matches PatANI s = true)
  ∧ (∀ (rng : DeterministicRNG) (key : list pyval),
       0 ≤ global_seed rng < 2 ^ 64 → ∃ s, generate_german_ani rng key = Ok s)
  ∧ (∀ (cfg : EffectiveConfig) (start_date end_date : pydate) (seed : Z) (validate : bool)
       (fs : list File) (f : File),
       f ∈ run_files cfg start_date end_date seed validate fs →
       ∃ ani, file_call f !! "ANI"%string = Some (PStr ani)
              ∧ well_formed_ani ani ∧ matches PatANI ani = true).
Proof.
  split; [|split].
  - intros rng key s Hs. apply generate_german_ani_well_formed in Hs.
    split; [done|by apply well_formed_ani_matches].
  - apply generate_german_ani_returns.
  - intros cfg start_date end_date seed validate fs f Hf.
    destruct (generate_dataset_files cfg start_date end_date seed validate fs) as [Hfiles _].
    rewrite Forall_forall in Hfiles.
    destruct (Hfiles f Hf) as (_ & _ & _ & _ & ani & Hani & Hwf).
    exists ani. split; [done|]. split; [done|by apply well_formed_ani_matches].
Qed.

(** ** The theorems at concrete inputs

    Runs use the reference runtime, seed 42 and an empty output directory. *)

Import reference_runtime examples.

(** C1, witness: seed 42; the first generator is derived in a fresh world
    and drawn from between draws on the root generator, the second in a
    world that already holds two generators and after another derivation. *)
Lemma seed_for_same_key_same_draws_witness :
  let key := PTuple [PStr "channel"; PStr "Morning"; PStr "Monika_Mueller"] in
  let w1 := {| rng_obj := rng42; derived := [] |} in
  let w2 := {| rng_obj := {| global_seed := 42; _root := 1000 |}; derived := [5; 6] |} in
  let os1 := [ODrawRoot CRandom; ODraw 0 CRandom; ODrawRoot CRandom; ODraw 0 (CIntegers 0 10)] in
  let os2 := [OSeedFor (PStr "other"); ODraw 3 CRandom; ODraw 2 CRandom; ODraw 0 CRandom;
              ODraw 2 (CIntegers 0 10); ODraw 2 (CNormal 0 1)] in
  first_draws 2 w1 key os1 = first_draws 2 w2 key os2
  ∧ length (first_draws 2 w1 key os1) = 2%nat.
Proof.
  intros key w1 w2 os1 os2. split; [|reflexivity].
  apply (seed_for_same_key_same_draws w1 w2 key os1 os2 2); reflexivity.
Defined.

(** C5, witness: the empty record violates the schema. *)
Lemma validation_failure_ends_run_witness :
  exec (write_call_json ∅ true) (start_state [])
  = (start_state [], Raise (ValidationError (call_violations ∅))).
Proof.
  apply (proj1 (validation_failure_ends_run (R := ref_runtime))). by vm_compute.
Defined.

(** C5 as stated fails.  With [cfg_unknown_agent], Friday's calls go to the
    agent "Bob", whose name the schema does not list, Saturday's to
    "Monika_Mueller".  The run of Friday and Saturday with validation on
    ends with the ValidationError of Friday's first record and has written
    nothing, although Saturday's two records are valid: the run of Saturday
    alone returns and writes both. *)
Lemma validation_failure_ends_run_counterexample :
  run_outcome cfg_unknown_agent friday saturday 42 true []
  = Raise (ValidationError [("agent_name", "enum")]%string)
  ∧ run_files cfg_unknown_agent friday saturday 42 true [] = []
  ∧ run_outcome cfg_unknown_agent saturday saturday 42 true [] = Ok ()
  ∧ length (run_files cfg_unknown_agent saturday saturday 42 true []) = 2%nat.
Proof. repeat split; by vm_compute. Qed.

(** C6, witness: the first record of a run of [cfg_voice]. *)
Lemma bounded_fields_of_records_witness :
  length (run_files cfg_voice monday monday 42 true []) = 2%nat
  ∧ bounded_fields cfg_voice
      (file_call (nth_file (run_files cfg_voice monday monday 42 true []) 0)).
Proof.
  split; [by vm_compute|].
  apply (bounded_fields_of_records (R := ref_runtime) cfg_voice monday monday 42 true []).
  apply (list_elem_of_lookup_2 _ 0%nat). by vm_compute.
Defined.

(** C6 as stated fails.  With [cfg_out_of_range] (NPS cap 12 and all weight
    on the base score 12; silence ratio of mean 150 and deviation 0) and
    validation off, the first record written has [NPS_score = 12], outside
    [0, 10], and [Silence_ratio = 150], outside [0, 100]. *)
Lemma bounded_fields_of_records_counterexample :
  (field (run_files cfg_out_of_range monday monday 42 false []) 0 "NPS_score" = Some (PInt 12)
   ∧ ¬ (0 ≤ 12 ≤ 10))
  ∧ ∃ q, field (run_files cfg_out_of_range monday monday 42 false []) 0 "Silence_ratio"
         = Some (PFloat q)
         ∧ (q == 150)%Q ∧ ¬ (q <= 100)%Q.
Proof.
  split; [split; [by vm_compute|lia]|].
  eexists. split; [vm_compute; reflexivity|]. split; [by vm_compute|].
  apply Qlt_not_le. reflexivity.
Qed.

(** C7, witness: the week of Monday 2024-01-01 with one outage and
    [app_issue_after_outage_days = 2]. *)
Lemma app_issue_propagation_witness :
  ∃ days,
    calendar.make_calendar monday sunday cfg_incident rng42 = Ok days
    ∧ map (fun d => (calendar.outage_flag d, calendar.app_issue_flag d)) days
      = [(false, false); (false, false); (true, false); (false, true); (false, true);
         (false, false); (false, false)]
    ∧ map calendar.date days = calendar.daterange monday sunday
    ∧ ∀ day, day ∈ days →
        (calendar.app_issue_flag day = true ↔
         ∃ o, o ∈ days ∧ calendar.outage_flag o = true
              ∧ 1 ≤ calendar.date day - calendar.date o ≤ 2).
Proof.
  eexists. split; [vm_compute; reflexivity|]. split; [reflexivity|].
  apply (app_issue_propagation (R := ref_runtime) monday sunday cfg_incident rng42);
    vm_compute; reflexivity.
Defined.

(** C8, witness: the first record of a run of [cfg_text]. *)
Lemma text_channel_fields_removed_witness :
  field (run_files cfg_text monday monday 42 true []) 0 "channel" = Some (PStr "text")
  ∧ channel_contract (file_call (nth_file (run_files cfg_text monday monday 42 true []) 0)).
Proof.
  split; [by vm_compute|].
  apply (text_channel_fields_removed (R := ref_runtime) cfg_text monday monday 42 true []).
  apply (list_elem_of_lookup_2 _ 0%nat). by vm_compute.
Defined.

(** C9, witness: the two records of a run of [cfg_voice] have the same
    customer key. *)
Lemma identity_cache_reuse_witness :
  let fs := run_files cfg_voice monday monday 42 true [] in
  call_cust_key (file_call (nth_file fs 0)) = Some ("Standard", "voice", "Card")%string
  ∧ (∃ m, call_identity_fields (file_call (nth_file fs 0)) = Some m
          ∧ call_identity_fields (file_call (nth_file fs 1)) = Some m)
  ∧ NoDup (run_cache_writes cfg_voice monday monday 42 true []).
Proof.
  intros fs. split; [by vm_compute|].
  apply (identity_cache_reuse (R := ref_runtime) cfg_voice monday monday 42 true [] 0 1).
  - lia.
  - by vm_compute.
  - by vm_compute.
  - by vm_compute.
Defined.

(** C10, witness: the ANI of the customer key (Premium, voice, Card). *)
Lemma generated_ani_well_formed_witness :
  generate_german_ani rng42 [PStr "Premium"; PStr "voice"; PStr "Card"] = Ok "+490123456789"%string
  ∧ well_formed_ani "+490123456789" ∧ matches PatANI "+490123456789" = true.
Proof.
  split; [reflexivity|].
  apply (proj1 (generated_ani_well_formed (R := ref_runtime)) rng42
           [PStr "Premium"; PStr "voice"; PStr "Card"]).
  reflexivity.
Defined.

(* ===================================================================== *)
(** ** Configuration lookup and merge *)
(* ===================================================================== *)

Lemma split_on_nonempty (sep : ascii) (s : string) : split_on sep s ≠ [].
Proof.
  destruct s as [|c r]; [done|]. simpl. destruct (split_on sep r); [done|].
  by destruct (Ascii.eqb c sep).
Qed.

Lemma split_on_app (sep : ascii) (p q : string) :
  split_on sep (p +:+ String sep q) = split_on sep p ++ split_on sep q.
Proof.
  induction p as [|c p IH].
  - simpl. pose proof (split_on_nonempty sep q). destruct (split_on sep q) eqn:E; [done|].
    by rewrite Ascii.eqb_refl.
  - change (split_on sep (String c p +:+ String sep q))
      with (match split_on sep (p +:+ String sep q) with
            | [] => [String c EmptyString]
            | h :: t => if Ascii.eqb c sep then EmptyString :: h :: t else String c h :: t
            end).
    rewrite IH. cbn [split_on].
    pose proof (split_on_nonempty sep p). destruct (split_on sep p) as [|h t]; [done|].
    simpl. by destruct (Ascii.eqb c sep).
Qed.

Lemma get_parts_app (node : pyval) (p q : list string) (d : pyval) :
  q ≠ [] →
  get_parts node (p ++ q) d = get_parts (get_parts node p (PDict [])) q d.
Proof.
  intros Hq. revert node. induction p as [|x p IH]; intros node; [done|].
  simpl. destruct node; try (destruct q; done).
  destruct (dict_get d0 (KStr x)); [apply IH|]. by destruct q.
Qed.

(** X1.  A dotted path is looked up component by component: [get] of
    [p + "." + q] is [get] of [q] in what [get] of [p] (with default [{}])
    returns, whatever [p] and [q] are; in particular [get] never raises and
    a missing prefix gives the default. *)
Theorem get_dotted_path (cfg : EffectiveConfig) (p q : string) (d : pyval) :
  get cfg (p +:+ "." +:+ q) d = get {| data := get cfg p (PDict []) |} q d.
Proof.
  unfold get. simpl data.
  change ("." +:+ q)%string with (String "."%char q).
  rewrite split_on_app. apply get_parts_app, split_on_nonempty.
Qed.

Lemma dict_get_set_eq {V} (d : list (pkey * V)) (k : pkey) (v : V) :
  dict_get (dict_set d k v) k = Some v.
Proof.
  induction d as [|[k' v'] d IH]; simpl.
  - unfold pkey_eqb. by rewrite bool_decide_eq_true_2.
  - unfold pkey_eqb in *. destruct (bool_decide (k' = k)) eqn:E; simpl; unfold pkey_eqb; by rewrite E.
Qed.

Lemma dict_get_set_ne {V} (d : list (pkey * V)) (k k' : pkey) (v : V) :
  k ≠ k' → dict_get (dict_set d k v) k' = dict_get d k'.
Proof.
  intros Hne. induction d as [|[k0 v0] d IH]; simpl.
  - unfold pkey_eqb. by rewrite bool_decide_eq_false_2.
  - unfold pkey_eqb in *. destruct (bool_decide (k0 = k)) eqn:E; simpl; unfold pkey_eqb.
    + apply bool_decide_eq_true_1 in E as ->. by rewrite !bool_decide_eq_false_2.
    + by rewrite IH.
Qed.

Lemma dict_get_None {V} (d : list (pkey * V)) (k : pkey) :
  dict_get d k = None ↔ k ∉ dict_keys d.
Proof.
  induction d as [|[k0 v0] d IH]; simpl.
  - split; [intros _; apply not_elem_of_nil|done].
  - unfold pkey_eqb. unfold dict_keys in *. rewrite not_elem_of_cons. simpl.
    destruct (bool_decide (k0 = k)) eqn:E.
    + apply bool_decide_eq_true_1 in E. split; [done|]. intros [? _]. congruence.
    + apply bool_decide_eq_false_1 in E. rewrite IH. split; [by split|by intros [_ ?]].
Qed.

Lemma dict_keys_set {V} (d : list (pkey * V)) (k : pkey) (v : V) :
  dict_keys (dict_set d k v)
  = if bool_decide (k ∈ dict_keys d) then dict_keys d else dict_keys d ++ [k].
Proof.
  unfold dict_keys. induction d as [|[k0 v0] d IH]; simpl.
  - first [done | rewrite bool_decide_eq_false_2; [done|apply not_elem_of_nil]].
  - unfold pkey_eqb. destruct (bool_decide (k0 = k)) eqn:E; simpl.
    + apply bool_decide_eq_true_1 in E as ->. rewrite bool_decide_eq_true_2; [done|left].
    + apply bool_decide_eq_false_1 in E. rewrite IH.
      destruct (bool_decide (k ∈ map fst d)) eqn:E2.
      * apply bool_decide_eq_true_1 in E2. rewrite bool_decide_eq_true_2; [done|by right].
      * apply bool_decide_eq_false_1 in E2. rewrite bool_decide_eq_false_2; [done|].
        rewrite not_elem_of_cons. split; [congruence|done].
Qed.

(** The recursion of the source: [_deep_merge] calls itself on the two dicts
    found at a key. *)
Lemma merged_value_cases (old : option pyval) (v : pyval) :
  merged_value old v
  = match v, old with
    | PDict b, Some (PDict a) => PDict (_deep_merge a b)
    | _, _ => v
    end.
Proof. by destruct v. Qed.

Lemma _deep_merge_cons (a : list (pkey * pyval)) (k : pkey) (v : pyval) (b : list (pkey * pyval)) :
  _deep_merge a ((k, v) :: b) = _deep_merge (dict_set a k (merged_value (dict_get a k) v)) b.
Proof. reflexivity. Qed.

Lemma _deep_merge_get (a b : list (pkey * pyval)) (k : pkey) :
  dict_wf b →
  dict_get (_deep_merge a b) k
  = match dict_get b k with
    | Some v => Some (merged_value (dict_get a k) v)
    | None => dict_get a k
    end.
Proof.
  intros Hwf. revert a. induction b as [|[k0 v0] b IH]; intros a; [done|].
  unfold dict_wf, dict_keys in Hwf. simpl in Hwf. apply NoDup_cons in Hwf as [Hk0 Hwf].
  rewrite _deep_merge_cons, IH by done. simpl. unfold pkey_eqb.
  destruct (bool_decide (k0 = k)) eqn:E.
  - apply bool_decide_eq_true_1 in E as ->.
    assert (dict_get b k = None) as -> by by apply dict_get_None.
    apply dict_get_set_eq.
  - apply bool_decide_eq_false_1 in E. rewrite dict_get_set_ne by done. done.
Qed.

Lemma _deep_merge_keys (a b : list (pkey * pyval)) :
  dict_wf b →
  dict_keys (_deep_merge a b)
  = dict_keys a ++ List.filter (fun k => bool_decide (k ∉ dict_keys a)) (dict_keys b).
Proof.
  intros Hwf. revert a. induction b as [|[k0 v0] b IH]; intros a.
  - simpl. by rewrite app_nil_r.
  - unfold dict_wf, dict_keys in Hwf. simpl in Hwf. apply NoDup_cons in Hwf as [Hk0 Hwf].
    rewrite _deep_merge_cons, IH by done. rewrite dict_keys_set. simpl.
    destruct (bool_decide (k0 ∈ dict_keys a)) eqn:E.
    + apply bool_decide_eq_true_1 in E. rewrite bool_decide_eq_false_2; [done|tauto].
    + apply bool_decide_eq_false_1 in E. rewrite bool_decide_eq_true_2 by done.
      rewrite <- app_assoc. simpl. do 2 f_equal.
      apply List.filter_ext_in. intros k Hk. apply bool_decide_ext.
      rewrite not_elem_of_app, list_elem_of_singleton. split; [tauto|]. intros Hka. split; [done|].
      intros ->. apply Hk0. by apply list_elem_of_In.
Qed.

Lemma dicts_wf_get (d : list (pkey * pyval)) (k : pkey) (v : pyval) :
  dicts_wf (PDict d) = true → dict_get d k = Some v → dicts_wf v = true.
Proof.
  simpl. intros [_ H]%andb_true_iff Hg. induction d as [|[k0 v0] d IH]; [done|].
  simpl in *. apply andb_true_iff in H as [H0 H].
  destruct (pkey_eqb k0 k); [by injection Hg as <-|auto].
Qed.

Lemma get_parts_override (parts : list string) (old : option pyval) (nb v : pyval) :
  dicts_wf nb = true →
  (∀ d, get_parts nb parts d = v) → is_dict v = false →
  ∀ d, get_parts (merged_value old nb) parts d = v.
Proof.
  revert old nb. induction parts as [|p rest IH]; intros old nb Hwf Hfound Hv d.
  - simpl in *. specialize (Hfound PNone). subst nb. destruct v, old; try done.
  - destruct nb as [| | | | | | | |b];
      try (exfalso; pose proof (Hfound PNone) as H1; pose proof (Hfound (PBool true)) as H2;
           simpl in H1, H2; congruence).
    destruct (dict_get b (KStr p)) as [vb|] eqn:Hb.
    2:{ exfalso. pose proof (Hfound PNone) as H1. pose proof (Hfound (PBool true)) as H2.
        simpl in H1, H2. rewrite Hb in H1, H2. congruence. }
    assert (∀ d, get_parts vb rest d = v) as Hrest.
    { intros d'. specialize (Hfound d'). simpl in Hfound. by rewrite Hb in Hfound. }
    assert (dicts_wf vb = true) as Hwfb by by eapply dicts_wf_get.
    destruct old as [[| | | | | | | |a]|]; try apply Hfound.
    rewrite merged_value_cases. cbn [get_parts]. rewrite _deep_merge_get.
    + rewrite Hb. by apply IH.
    + simpl in Hwf. apply andb_true_iff in Hwf as [Hnd _]. by apply bool_decide_eq_true_1 in Hnd.
Qed.

(** X2.  What [_deep_merge(a, b)] holds at a key: the merge of the two
    values when both [a] and [b] have a dict there, the value of [b] when
    [b] has the key otherwise, and the value of [a] when only [a] has it.
    The keys of [a] come first, in their order, followed by the new keys of
    [b] in theirs. *)
Theorem deep_merge_entries (a b : list (pkey * pyval)) :
  dict_wf b →
  (∀ k, dict_get (_deep_merge a b) k
        = match dict_get b k, dict_get a k with
          | Some (PDict vb), Some (PDict va) => Some (PDict (_deep_merge va vb))
          | Some v, _ => Some v
          | None, old => old
          end)
  ∧ dict_keys (_deep_merge a b)
    = dict_keys a ++ List.filter (fun k => bool_decide (k ∉ dict_keys a)) (dict_keys b).
Proof.
  intros Hwf. split; [|by apply _deep_merge_keys].
  intros k. rewrite _deep_merge_get by done.
  destruct (dict_get b k) as [v|]; [|done]. rewrite merged_value_cases.
  by destruct v, (dict_get a k) as [[]|].
Qed.

Lemma deep_merge_entries_witness :
  dict_get (_deep_merge [(KStr "volume", PDict [(KStr "base_weekday", PInt 200)]);
                         (KStr "meta", PInt 1)]
                        [(KStr "volume", PDict [(KStr "base_weekend", PInt 50)]);
                         (KStr "seed", PInt 7)]) (KStr "volume")
  = Some (PDict [(KStr "base_weekday", PInt 200); (KStr "base_weekend", PInt 50)]).
Proof.
  assert (dict_wf [(KStr "volume", PDict [(KStr "base_weekend", PInt 50)]);
                   (KStr "seed", PInt 7)]) as Hwf
    by (unfold dict_wf, dict_keys; simpl; apply (bool_decide_unpack _); vm_compute; exact I).
  rewrite (proj1 (deep_merge_entries _ _ Hwf)). reflexivity.
Defined.

(** X3.  Overrides win at any depth: a value that is not a dict and that
    [get] finds at a path of the overrides is what [get] finds at that path
    of the merged configuration, whatever the base configuration holds. *)
Theorem overrides_take_precedence (a b : list (pkey * pyval)) (path : string) (v : pyval) :
  dicts_wf (PDict b) = true →
  (∀ d, get {| data := PDict b |} path d = v) → is_dict v = false →
  ∀ d, get {| data := PDict (_deep_merge a b) |} path d = v.
Proof.
  intros Hwf Hfound Hv d. unfold get in *. cbn [data] in *.
  change (PDict (_deep_merge a b)) with (merged_value (Some (PDict a)) (PDict b)).
  by apply get_parts_override.
Qed.

Lemma overrides_take_precedence_witness :
  get {| data := PDict (_deep_merge
                          [(KStr "volume", PDict [(KStr "base_weekday", PInt 200)])]
                          [(KStr "volume", PDict [(KStr "base_weekday", PInt 50)])]) |}
      "volume.base_weekday" PNone = PInt 50.
Proof.
  apply (overrides_take_precedence
           [(KStr "volume", PDict [(KStr "base_weekday", PInt 200)])]
           [(KStr "volume", PDict [(KStr "base_weekday", PInt 50)])]
           "volume.base_weekday" (PInt 50)); [by vm_compute|done|done].
Defined.

(* ===================================================================== *)
(** ** rng.py: weighted choice and UUIDs *)
(* ===================================================================== *)

Lemma existsb_neg_Forall (l : list Q) :
  existsb (fun x => Qltb x 0) l = false ↔ Forall (fun x => (0 <= x)%Q) l.
Proof.
  induction l as [|x l IH]; simpl; [by split; [constructor|]|].
  rewrite orb_false_iff, IH, Forall_cons, Qltb_false. tauto.
Qed.

Lemma np_choice_Ok {R : Runtime} (n : nat) (p : list Q) (g : Gen) :
  is_Ok (np_choice n p g) ↔
  n ≠ 0%nat ∧ length p = n ∧ Forall (fun x => (0 <= x)%Q) p
  ∧ (Qabs (py_sum p - 1) <= 1 # 67108864)%Q.
Proof.
  unfold np_choice, is_Ok.
  destruct (Nat.eqb_spec n 0) as [->|Hn].
  { split; [by intros [? ?]|by intros [? _]]. }
  destruct (Nat.eqb_spec (length p) n) as [Hl|Hl]; simpl.
  2:{ split; [by intros [? ?]|by intros (_ & ? & _)]. }
  destruct (existsb _ p) eqn:Hex.
  { split; [by intros [? ?]|]. intros (_ & _ & Hall & _).
    apply existsb_neg_Forall in Hall. congruence. }
  apply existsb_neg_Forall in Hex.
  destruct (Qltb _ _) eqn:Hs.
  - apply Qltb_true in Hs. split; [by intros [? ?]|]. intros (_ & _ & _ & Hle).
    exfalso. by apply (Qlt_not_le _ _ Hs).
  - apply Qltb_false in Hs. split; [done|by eexists].
Qed.

Lemma np_choice_value {R : Runtime} (n : nat) (p : list Q) (g : Gen) (x : nat * Gen) :
  np_choice n p g = Ok x → x = gen_choice p g ∧ length p = n ∧ n ≠ 0%nat.
Proof.
  unfold np_choice.
  destruct (Nat.eqb_spec n 0); [done|].
  destruct (Nat.eqb_spec (length p) n); [|done]. simpl.
  destruct (existsb _ _); [done|]. destruct (Qltb _ _); [done|].
  by intros [= <-].
Qed.

(** X4.  [choice_weighted] returns exactly when there is at least one item,
    there are as many weights as items, no weight is negative and the
    weights sum to 1 up to numpy's tolerance (2^-26); what it returns is
    one of the items.  Weights that are not normalized raise. *)
Theorem choice_weighted_returns_item {R : Runtime} {L : RuntimeLaws R}
    (self : DeterministicRNG) (items : list string) (weights : list Q) (rng : option Gen) :
  (is_Ok (choice_weighted self items weights rng) ↔
   items ≠ [] ∧ length weights = length items ∧ Forall (fun w => (0 <= w)%Q) weights
   ∧ (Qabs (py_sum weights - 1) <= 1 # 67108864)%Q)
  ∧ (∀ it r', choice_weighted self items weights rng = Ok (it, r') → it ∈ items).
Proof.
  unfold choice_weighted. split.
  - pose proof (np_choice_Ok (length items) weights (rng_or_root self rng)) as Hnp.
    rewrite (length_zero_iff_nil items) in Hnp. rewrite <- Hnp. clear Hnp. split.
    + intros [[it r'] H]. bind_inv H. by eexists.
    + intros [x Hx]. rewrite Hx. destruct x as [idx r']. simpl.
      apply np_choice_value in Hx as (Hx & Hlen & Hn).
      assert (weights ≠ []) as Hw by (intros ->; simpl in Hlen; lia).
      pose proof (gen_choice_lt weights (rng_or_root self rng) Hw) as Hlt.
      rewrite <- Hx in Hlt. simpl in Hlt. rewrite Hlen in Hlt.
      apply lookup_lt_is_Some_2 in Hlt as [it Hit]. rewrite Hit. by eexists.
  - intros it r' H. bind_inv H. destruct a as [idx r1]. simpl in H.
    destruct (items !! idx) eqn:Hit; [|done]. injection H as <- <-.
    by eapply list_elem_of_lookup_2.
Qed.

Lemma choice_weighted_returns_item_witness :
  choice_weighted rng42 ["voice"; "text"]%string [3 # 4; 1 # 4]%Q None
  = Ok ("voice"%string, 43)
  ∧ "voice"%string ∈ ["voice"; "text"]%string.
Proof.
  split; [reflexivity|].
  apply (proj2 (choice_weighted_returns_item (R := ref_runtime) rng42 ["voice"; "text"]%string
                  [3 # 4; 1 # 4]%Q None) "voice"%string 43).
  reflexivity.
Defined.

Lemma is_hex_lower_hex_digit (z : Z) : is_hex_lower (hex_digit z) = true.
Proof.
  unfold hex_digit. destruct z as [|p|p]; [reflexivity| |reflexivity].
  do 5 (try destruct p as [p|p|]; try reflexivity).
Qed.

Lemma version_nibble (x : byte) :
  hex_digit (Z.lor (Z.land (Z_of_byte x) 15) 64 / 16) = "4"%char.
Proof. by destruct x. Qed.

Lemma variant_nibble (x : byte) :
  hex_digit (Z.lor (Z.land (Z_of_byte x) 63) 128 / 16) ∈ ["8"; "9"; "a"; "b"]%char.
Proof. destruct x; cbv; repeat first [by left | right]. Qed.

Lemma uuid_str_shape (z0 z1 z2 z3 z4 z5 z6 z7 z8 z9 z10 z11 z12 z13 z14 z15 : Z) :
  hex_digit (z6 / 16) = "4"%char →
  hex_digit (z8 / 16) ∈ ["8"; "9"; "a"; "b"]%char →
  is_uuid4 (uuid_str [z0; z1; z2; z3; z4; z5; z6; z7; z8; z9; z10; z11; z12; z13; z14; z15])
  = true.
Proof.
  intros H6 H8. unfold is_uuid4, uuid_str. cbn [take drop hex_of_bytes].
  pose proof is_hex_lower_hex_digit as Hh.
  revert H6 H8 Hh. generalize hex_digit. intros h H6 H8 Hh.
  simpl. rewrite H6, !Hh.
  repeat (apply elem_of_cons in H8 as [->|H8]; [reflexivity|]). by apply elem_of_nil in H8.
Qed.

Lemma uuid4_deterministic_shape {R : Runtime} (self : DeterministicRNG) (rng : option Gen)
    (s : string) (r' : Gen) :
  uuid4_deterministic self rng = Ok (s, r') →
  is_uuid4 s = true ∧ r' = (gen_bytes 16 (rng_or_root self rng)).2.
Proof.
  unfold uuid4_deterministic. destruct (gen_bytes 16 _) as [bs r1]. cbn [fst snd].
  destruct (map Z_of_byte bs !! 6%nat) as [b6|] eqn:H6; [|done].
  destruct (map Z_of_byte bs !! 8%nat) as [b8|] eqn:H8; [|done].
  destruct (Nat.eqb_spec (length (<[8%nat:=Z.lor (Z.land b8 63) 128]>
                                    (<[6%nat:=Z.lor (Z.land b6 15) 64]> (map Z_of_byte bs)))) 16)
    as [Hlen|]; [|done].
  intros [= <- <-]. split; [|done].
  rewrite !length_insert, length_map in Hlen.
  do 17 (destruct bs as [|? bs]; try discriminate Hlen).
  simpl in H6, H8. injection H6 as <-. injection H8 as <-.
  apply uuid_str_shape; [apply version_nibble|apply variant_nibble].
Qed.

(** X5.  Whatever bytes the generator returns, a string that
    [uuid4_deterministic] returns is the text form of a version-4 UUID: 36
    characters, hyphens after 8, 12, 16 and 20 hexadecimal digits, version
    digit 4 and variant digit 8, 9, a or b; the generator has then been
    advanced by one draw of 16 bytes.  It returns whenever the generator
    returns 16 bytes. *)
Theorem uuid4_deterministic_is_uuid4 {R : Runtime} (self : DeterministicRNG) (rng : option Gen) :
  (∀ s r', uuid4_deterministic self rng = Ok (s, r') →
           is_uuid4 s = true ∧ r' = (gen_bytes 16 (rng_or_root self rng)).2)
  ∧ (length (gen_bytes 16 (rng_or_root self rng)).1 = 16%nat →
     is_Ok (uuid4_deterministic self rng)).
Proof.
  split; [intros s r'; apply uuid4_deterministic_shape|].
  unfold uuid4_deterministic. destruct (gen_bytes 16 _) as [bs r1]. cbn [fst snd].
  intros Hlen. do 17 (destruct bs as [|? bs]; try discriminate Hlen). by eexists.
Qed.

Lemma uuid4_deterministic_is_uuid4_witness :
  uuid4_deterministic rng42 None = Ok ("2a2b2c2d-2e2f-4031-b233-343536373839"%string, 58)
  ∧ is_uuid4 "2a2b2c2d-2e2f-4031-b233-343536373839" = true.
Proof.
  split; [reflexivity|].
  apply (proj1 (uuid4_deterministic_is_uuid4 (R := ref_runtime) rng42 None) _ 58). reflexivity.
Defined.

(* ===================================================================== *)
(** ** weights.py: additive adjustments *)
(* ===================================================================== *)

Section AdjustFacts.
Context {R : Runtime}.

Lemma _apply_adjustments_fold (base adj : list (pkey * pyval)) :
  _apply_adjustments base (PDict adj) = foldl adjust_step (Ok base) adj.
Proof. by destruct adj. Qed.

Lemma adjust_step_Raise (e : pyerr) (l : list (pkey * pyval)) :
  foldl adjust_step (Raise e) l = Raise e.
Proof. by induction l. Qed.

(** One round of the loop of [_apply_adjustments]. *)
Lemma _apply_adjustments_cons (base : list (pkey * pyval)) (k : pkey) (v : pyval)
    (adj : list (pkey * pyval)) (out : list (pkey * pyval)) :
  _apply_adjustments base (PDict ((k, v) :: adj)) = Ok out →
  ∃ q old, py_float v = Ok q
           ∧ py_number (default (PFloat 0) (dict_get base k)) = Ok old
           ∧ _apply_adjustments (dict_set base k (PFloat (old + q))) (PDict adj) = Ok out.
Proof.
  rewrite !_apply_adjustments_fold. cbn [foldl].
  assert (adjust_step (Ok base) (k, v)
          = (q ← py_float v; old ← py_number (default (PFloat 0) (dict_get base k));
             Ok (dict_set base k (PFloat (old + q))))) as -> by done.
  destruct (py_float v) as [q|e] eqn:Hq; [|simpl; by rewrite adjust_step_Raise].
  destruct (py_number _) as [old|e] eqn:Hold; [|simpl; by rewrite adjust_step_Raise].
  intros H. exists q, old. split; [done|]. split; [done|].
  by rewrite _apply_adjustments_fold.
Qed.

Lemma _apply_adjustments_frame (adj base out : list (pkey * pyval)) (k : pkey) :
  _apply_adjustments base (PDict adj) = Ok out →
  dict_get adj k = None → dict_get out k = dict_get base k.
Proof.
  revert base. induction adj as [|[k0 v0] adj IH]; intros base H Hk.
  - by injection H as <-.
  - apply _apply_adjustments_cons in H as (q & old & _ & _ & H).
    simpl in Hk. unfold pkey_eqb in Hk. destruct (bool_decide (k0 = k)) eqn:E; [done|].
    apply bool_decide_eq_false_1 in E.
    rewrite (IH _ H Hk). by apply dict_get_set_ne.
Qed.

Lemma _apply_adjustments_effect (adj base out : list (pkey * pyval)) (k : pkey) (v : pyval) :
  dict_wf adj →
  _apply_adjustments base (PDict adj) = Ok out →
  dict_get adj k = Some v →
  ∃ q old, py_float v = Ok q
           ∧ py_number (default (PFloat 0) (dict_get base k)) = Ok old
           ∧ dict_get out k = Some (PFloat (old + q)).
Proof.
  revert base. induction adj as [|[k0 v0] adj IH]; intros base Hwf H Hk; [done|].
  unfold dict_wf, dict_keys in Hwf. simpl in Hwf. apply NoDup_cons in Hwf as [Hk0 Hwf].
  apply _apply_adjustments_cons in H as (q & old & Hq & Hold & H).
  simpl in Hk. unfold pkey_eqb in Hk. destruct (bool_decide (k0 = k)) eqn:E.
  - apply bool_decide_eq_true_1 in E as ->. injection Hk as <-.
    exists q, old. split; [done|]. split; [done|].
    rewrite (_apply_adjustments_frame _ _ _ k H) by by apply dict_get_None.
    apply dict_get_set_eq.
  - apply bool_decide_eq_false_1 in E.
    destruct (IH _ Hwf H Hk) as (q' & old' & Hq' & Hold' & Hout).
    exists q', old'. split; [done|]. split; [|done].
    by rewrite dict_get_set_ne in Hold'.
Qed.

Lemma _apply_adjustments_keys (adj base out : list (pkey * pyval)) :
  dict_wf adj →
  _apply_adjustments base (PDict adj) = Ok out →
  dict_keys out
  = dict_keys base ++ List.filter (fun k => bool_decide (k ∉ dict_keys base)) (dict_keys adj).
Proof.
  revert base. induction adj as [|[k0 v0] adj IH]; intros base Hwf H.
  - injection H as <-. simpl. by rewrite app_nil_r.
  - unfold dict_wf, dict_keys in Hwf. simpl in Hwf. apply NoDup_cons in Hwf as [Hk0 Hwf].
    apply _apply_adjustments_cons in H as (q & old & _ & _ & H).
    rewrite (IH _ Hwf H), dict_keys_set. simpl.
    destruct (bool_decide (k0 ∈ dict_keys base)) eqn:E.
    + apply bool_decide_eq_true_1 in E. rewrite bool_decide_eq_false_2; [done|tauto].
    + apply bool_decide_eq_false_1 in E. rewrite bool_decide_eq_true_2 by done.
      rewrite <- app_assoc. simpl. do 2 f_equal.
      apply List.filter_ext_in. intros k Hk. apply bool_decide_ext.
      rewrite not_elem_of_app, list_elem_of_singleton. split; [tauto|]. intros Hka. split; [done|].
      intros ->. apply Hk0. by apply list_elem_of_In.
Qed.
End AdjustFacts.

(** X7.  Additive adjustments: a label the adjustments do not mention keeps
    its base weight; a label they mention gets [base weight + float(v)],
    with base weight 0 for a label that is new; no label is dropped and the
    new labels are appended in the order of the adjustments.  Adjustments
    that are [None] or empty leave the table as it is. *)
Theorem apply_adjustments_entries {R : Runtime} (base adj out : list (pkey * pyval)) :
  dict_wf adj →
  _apply_adjustments base (PDict adj) = Ok out →
  (∀ k, dict_get adj k = None → dict_get out k = dict_get base k)
  ∧ (∀ k v, dict_get adj k = Some v →
       ∃ q old, py_float v = Ok q
                ∧ py_number (default (PFloat 0) (dict_get base k)) = Ok old
                ∧ dict_get out k = Some (PFloat (old + q)))
  ∧ dict_keys out
    = dict_keys base ++ List.filter (fun k => bool_decide (k ∉ dict_keys base)) (dict_keys adj)
  ∧ (∀ falsy, py_truthy falsy = false → _apply_adjustments base falsy = Ok base).
Proof.
  intros Hwf H. split; [|split; [|split]].
  - intros k. by apply _apply_adjustments_frame.
  - intros k v. by apply _apply_adjustments_effect.
  - by apply _apply_adjustments_keys.
  - intros falsy Hf. unfold _apply_adjustments, py_or. by rewrite Hf.
Qed.

Lemma apply_adjustments_entries_witness :
  let base := [(KStr "voice", PFloat (3 # 4)); (KStr "text", PFloat (1 # 4))] in
  let adj := [(KStr "text", PFloat (1 # 2)); (KStr "chat", PInt 1)] in
  let out := [(KStr "voice", PFloat (3 # 4)); (KStr "text", PFloat ((1 # 4) + (1 # 2)));
              (KStr "chat", PFloat (0 + inject_Z 1))] in
  _apply_adjustments (R := ref_runtime) base (PDict adj) = Ok out
  ∧ dict_get out (KStr "voice") = dict_get base (KStr "voice").
Proof.
  intros base adj out. split; [reflexivity|].
  assert (dict_wf adj) as Hwf
    by (unfold dict_wf, dict_keys; simpl; apply (bool_decide_unpack _); vm_compute; exact I).
  apply (proj1 (apply_adjustments_entries (R := ref_runtime) base adj out Hwf eq_refl)).
  reflexivity.
Defined.

(* ===================================================================== *)
(** ** calendar.py and volume.py: the days of a run and their volume *)
(* ===================================================================== *)

Section DayFacts.
Context {R : Runtime}.

Lemma select_outage_days_weekday (start end_ : pydate) (outages : Z) (rng : DeterministicRNG)
    (S : gset pydate) (d : pydate) :
  calendar.select_outage_days start end_ outages rng = Ok S →
  d ∈ S → calendar.date_weekday d < 5 ∧ 0 < outages.
Proof.
  intros H Hd. unfold calendar.select_outage_days in H.
  step_Ok H. destruct (outages <=? 0) eqn:Ho;
    [injection H as <-; by apply not_elem_of_empty in Hd|].
  destruct (Nat.eqb _ 0); [injection H as <-; by apply not_elem_of_empty in Hd|].
  cbn [orb] in H. split; [|lia].
  step_Ok H. step_Ok H. step_Ok H. injection H as <-.
  apply elem_of_list_to_set in Hd. apply mapR_Forall2 in E1.
  clear -E1 Hd. induction E1 as [|i y idxs ys Hi _ IH]; [by apply elem_of_nil in Hd|].
  apply elem_of_cons in Hd as [->|Hd]; [|by apply IH].
  destruct (_ !! i) as [d'|] eqn:Hl; [|discriminate]. injection Hi as <-.
  apply list_elem_of_lookup_2 in Hl. by apply list_elem_of_filter in Hl as [? _].
Qed.

Lemma weekday_label_cases (d : pydate) :
  calendar.weekday_label (calendar.date_weekday d) ∈ calendar.WEEKDAYS
  ∧ ((5 <=? calendar.date_weekday d) = true ↔
     calendar.weekday_label (calendar.date_weekday d) = "Sat"%string
     ∨ calendar.weekday_label (calendar.date_weekday d) = "Sun"%string).
Proof.
  assert (0 ≤ calendar.date_weekday d < 7) as Hi
    by (unfold calendar.date_weekday; apply Z.mod_pos_bound; lia).
  remember (calendar.date_weekday d) as i eqn:Hi'. clear Hi'.
  assert (i = 0 ∨ i = 1 ∨ i = 2 ∨ i = 3 ∨ i = 4 ∨ i = 5 ∨ i = 6) as Hc by lia.
  unfold calendar.WEEKDAYS.
  destruct Hc as [->|[->|[->|[->|[->|[->| ->]]]]]]; (split; [repeat constructor|]); cbn;
    (split; [try done; auto|intros [?|?]; done]).
Qed.
End DayFacts.

Lemma make_calendar_day {R : Runtime} (start_date end_date : pydate) (cfg : EffectiveConfig)
    (rng : DeterministicRNG) (days : list calendar.DayPlan) (day : calendar.DayPlan) :
  calendar.make_calendar start_date end_date cfg rng = Ok days → day ∈ days →
  start_date ≤ calendar.date day ≤ end_date
  ∧ calendar.weekday day = calendar.weekday_label (calendar.date_weekday (calendar.date day))
  ∧ calendar.is_weekend day = (5 <=? calendar.date_weekday (calendar.date day)).
Proof.
  intros H Hday. unfold calendar.make_calendar in H. repeat step_Ok H.
  apply mapR_Forall2 in H. apply list_elem_of_lookup in Hday as [i Hday].
  destruct (Forall2_lookup_r _ _ _ _ _ H Hday) as (d & Hd & Hmk). cbv beta in Hmk.
  step_Ok Hmk. step_Ok Hmk. injection Hmk as <-.
  cbn [calendar.date calendar.weekday calendar.is_weekend].
  apply list_elem_of_lookup_2 in Hd. unfold calendar.daterange in Hd.
  apply elem_of_py_range in Hd. split; [lia|done].
Qed.

(** X8.  The days of a calendar: each lies in the requested range, carries
    the weekday label of its date and is a weekend day exactly when the
    label is Sat or Sun; an outage never falls on a weekend day, and with an
    outage count of 0 or less no day has an outage or an app issue. *)
Theorem calendar_days_consistent {R : Runtime} (start_date end_date : pydate)
    (cfg : EffectiveConfig) (rng : DeterministicRNG) (days : list calendar.DayPlan) (n : Z) :
  calendar.make_calendar start_date end_date cfg rng = Ok days →
  py_int (py_or (get cfg "calendar.incidents.outages_count" (PInt 0)) (PInt 0)) = Ok n →
  ∀ day, day ∈ days →
    start_date ≤ calendar.date day ≤ end_date
    ∧ calendar.weekday day = calendar.weekday_label (calendar.date_weekday (calendar.date day))
    ∧ calendar.weekday day ∈ calendar.WEEKDAYS
    ∧ (calendar.is_weekend day = true ↔
       calendar.weekday day = "Sat"%string ∨ calendar.weekday day = "Sun"%string)
    ∧ (calendar.outage_flag day = true → calendar.is_weekend day = false ∧ 0 < n)
    ∧ (n ≤ 0 → calendar.outage_flag day = false ∧ calendar.app_issue_flag day = false).
Proof.
  intros H Hn day Hday. unfold calendar.make_calendar in H.
  repeat step_Ok H. rewrite Hn in E. injection E as <-.
  match goal with
  | Hs : calendar.select_outage_days _ _ _ _ = Ok ?S |- _ =>
      rename Hs into Hsel; rename S into outage_days
  end.
  apply mapR_Forall2 in H. apply list_elem_of_lookup in Hday as [i Hday].
  destruct (Forall2_lookup_r _ _ _ _ _ H Hday) as (d & Hd & Hmk). cbv beta in Hmk.
  step_Ok Hmk. step_Ok Hmk. injection Hmk as <-.
  cbn [calendar.date calendar.weekday calendar.is_weekend calendar.outage_flag
       calendar.app_issue_flag].
  apply list_elem_of_lookup_2 in Hd. unfold calendar.daterange in Hd.
  apply elem_of_py_range in Hd.
  destruct (weekday_label_cases d) as [Hlab Hwe].
  assert (bool_decide (d ∈ outage_days) = true →
          (5 <=? calendar.date_weekday d) = false ∧ 0 < n) as Hout.
  { intros Hin%bool_decide_eq_true.
    destruct (select_outage_days_weekday _ _ _ _ _ _ Hsel Hin) as [? ?]. split; [lia|done]. }
  split; [lia|]. split; [done|]. split; [done|]. split; [done|]. split; [done|].
  intros Hn0. assert (outage_days = ∅) as ->.
  { apply set_eq. intros x. split; [|by intros ?%not_elem_of_empty].
    intros Hx. destruct (select_outage_days_weekday _ _ _ _ _ _ Hsel Hx). lia. }
  split; [by apply bool_decide_eq_false_2, not_elem_of_empty|].
  rewrite elements_empty. by apply bool_decide_eq_false_2, not_elem_of_empty.
Qed.

Lemma calendar_days_consistent_witness :
  ∃ days, calendar.make_calendar monday sunday cfg_incident rng42 = Ok days
    ∧ ∀ day, day ∈ days →
        (calendar.outage_flag day = true → calendar.is_weekend day = false ∧ 0 < 1).
Proof.
  eexists. split; [vm_compute; reflexivity|]. intros day Hday.
  apply (calendar_days_consistent (R := ref_runtime) monday sunday cfg_incident rng42 _ 1
           ltac:(vm_compute; reflexivity) ltac:(vm_compute; reflexivity) day Hday).
Defined.

(** X9.  The estimated volume of a day is never negative; it depends on
    the generator only through the seed, and on a day without outage and
    without app issue not at all: such a day has the same volume for every
    seed. *)
Theorem estimate_daily_volume_seed {R : Runtime} (day : calendar.DayPlan)
    (cfg : EffectiveConfig) (rng : DeterministicRNG) (vol : DailyVolumePlan) :
  estimate_daily_volume day cfg rng = Ok vol →
  0 ≤ estimated vol
  ∧ (∀ rng', global_seed rng' = global_seed rng → estimate_daily_volume day cfg rng' = Ok vol)
  ∧ (calendar.outage_flag day = false → calendar.app_issue_flag day = false →
     ∀ rng', estimate_daily_volume day cfg rng' = Ok vol).
Proof.
  intros H. split; [|split].
  - unfold estimate_daily_volume in H. repeat step_Ok H. injection H as <-. simpl.
    apply py_maxZ_lower.
  - intros rng' Hseed. rewrite <- H. unfold estimate_daily_volume, _incident_boost.
    assert (∀ key, seed_for rng' key = seed_for rng key) as Hs
      by (intros key; unfold seed_for; by rewrite Hseed).
    by rewrite Hs.
  - intros Ho Ha rng'. rewrite <- H. unfold estimate_daily_volume, _incident_boost.
    by rewrite Ho, Ha.
Qed.

Lemma estimate_daily_volume_seed_witness :
  estimate_daily_volume
    {| calendar.date := monday; calendar.weekday := "Mon"; calendar.is_weekend := false;
       calendar.weekday_factor := 1; calendar.outage_flag := false;
       calendar.app_issue_flag := false; calendar.premium_wait_peak := false |}
    cfg_voice {| global_seed := 7; _root := 7 |}
  = Ok {| base := 10; estimated := 2 |}.
Proof.
  apply (proj2 (proj2 (estimate_daily_volume_seed (R := ref_runtime)
           {| calendar.date := monday; calendar.weekday := "Mon"; calendar.is_weekend := false;
              calendar.weekday_factor := 1; calendar.outage_flag := false;
              calendar.app_issue_flag := false; calendar.premium_wait_peak := false |}
           cfg_voice rng42 {| base := 10; estimated := 2 |} ltac:(vm_compute; reflexivity))));
    reflexivity.
Defined.

(* ===================================================================== *)
(** ** features.py: the categorical samplers *)
(* ===================================================================== *)

Section SamplerFacts.
Context {R : Runtime} {L : RuntimeLaws R}.

Lemma seed_for_returns (rng : DeterministicRNG) (key : pyval) :
  0 ≤ global_seed rng < 2 ^ 64 → ∃ g, seed_for rng key = Ok g.
Proof.
  intros Hs. unfold seed_for, to_bytes8.
  assert ((global_seed rng <? 0) = false) as -> by lia.
  assert ((2 ^ 64 <=? global_seed rng) = false) as -> by lia.
  by eexists.
Qed.

(** The probabilities [_sample_from_weights] hands to [r.choice]. *)
Lemma sample_probs_ok (items : list pkey) (probs : list Q) :
  length probs = length items → items ≠ [] →
  let probs' := map (py_max 0) probs in
  let t := py_sum probs' in
  let p := if Qle_bool t 0
           then map (fun _ => (1 / inject_Z (Z.of_nat (Nat.max 1 (length items))))%Q) items
           else map (fun p => (p / t)%Q) probs' in
  length p = length items ∧ Forall (fun x => (0 <= x)%Q) p ∧ (py_sum p == 1)%Q.
Proof.
  intros Hlen Hne probs' t p. subst p.
  assert (0 < length items)%nat as Hn by (destruct items; [done|simpl; lia]).
  destruct (Qle_bool t 0) eqn:Ht.
  - replace (Nat.max 1 (length items)) with (length items) by lia.
    pose proof (inject_Z_pos _ Hn) as Hpos.
    split; [by rewrite length_map|]. split.
    + apply Forall_forall. intros x Hx. apply list_elem_of_In, in_map_iff in Hx as (? & <- & _).
      apply Qle_shift_div_l; [done|]. by rewrite Qmult_0_l.
    + rewrite map_const_replicate, py_sum_const. field.
      intros H0. rewrite H0 in Hpos. by apply Qlt_irrefl in Hpos.
  - apply Qle_bool_false in Ht. split; [subst probs'; by rewrite !length_map|]. split.
    + apply Forall_forall. intros x Hx. apply list_elem_of_In, in_map_iff in Hx as (y & <- & Hy).
      apply Qle_shift_div_l; [done|]. rewrite Qmult_0_l.
      subst probs'. apply in_map_iff in Hy as (? & <- & _). apply py_max_lower.
    + rewrite py_sum_map_div. fold t. field.
      intros H0. rewrite H0 in Ht. by apply Qlt_irrefl in Ht.
Qed.

Lemma np_choice_accepts (n : nat) (p : list Q) (g : Gen) :
  n ≠ 0%nat → length p = n → Forall (fun x => (0 <= x)%Q) p → (py_sum p == 1)%Q →
  np_choice n p g = Ok (gen_choice p g).
Proof.
  intros Hn Hl Hnn Hs. unfold np_choice.
  destruct (Nat.eqb_spec n 0); [done|].
  destruct (Nat.eqb_spec (length p) n); [|done]. cbn [negb].
  apply existsb_neg_Forall in Hnn. rewrite Hnn.
  assert (Qltb (1 # 67108864) (Qabs (py_sum p - 1)) = false) as ->; [|done].
  apply Qltb_false. assert (py_sum p - 1 == 0)%Q as -> by (rewrite Hs; ring). done.
Qed.

Lemma _sample_from_weights_member (rng : DeterministicRNG) (mapping : list (pkey * pyval))
    (key : pyval) (s : string) :
  _sample_from_weights rng (PDict mapping) key = Ok s → KStr s ∈ dict_keys mapping.
Proof.
  intros H. unfold _sample_from_weights in H. repeat step_Ok H.
  match goal with Ha : as_dict _ = Ok _ |- _ => injection Ha as <- end.
  match type of H with
  | match ?l !! ?i with _ => _ end = _ => destruct (l !! i) as [it|] eqn:Hit; [|done]
  end.
  destruct it as [s'|z]; [|done]. injection H as <-. by eapply list_elem_of_lookup_2.
Qed.

Lemma _sample_from_weights_returns (rng : DeterministicRNG) (mapping : list (pkey * pyval))
    (key : pyval) :
  0 ≤ global_seed rng < 2 ^ 64 → mapping ≠ [] →
  Forall (fun kv => is_Ok (py_float kv.2) ∧ ∃ s, kv.1 = KStr s) mapping →
  ∃ s, _sample_from_weights rng (PDict mapping) key = Ok s.
Proof.
  intros Hseed Hne Hall. unfold _sample_from_weights.
  destruct (seed_for_returns rng key Hseed) as [g ->]. cbn [mbind result_bind as_dict].
  assert (∃ probs, mapR py_float (dict_values mapping) = Ok probs
                   ∧ length probs = length mapping) as (probs & -> & Hlen).
  { clear Hne. induction Hall as [|kv m [[q Hq] _] _ (ps & Hps & Hl)]; [by exists []|].
    exists (q :: ps). unfold dict_values in *. cbn [map mapR]. rewrite Hq, Hps. simpl.
    by rewrite Hl. }
  cbn [mbind result_bind].
  assert (dict_keys mapping ≠ []) as Hkne by (destruct mapping; done).
  assert (length probs = length (dict_keys mapping)) as Hlen'
    by (unfold dict_keys; by rewrite length_map).
  destruct (sample_probs_ok (dict_keys mapping) probs Hlen' Hkne) as (Hl & Hnn & Hsum).
  cbv zeta in Hl, Hnn, Hsum.
  rewrite np_choice_accepts; [|by destruct mapping|done..].
  cbn [mbind result_bind].
  match goal with
  | |- context [gen_choice ?p ?g] =>
      pose proof (gen_choice_lt p g) as Hlt; destruct (gen_choice p g) as [idx r'] eqn:Hg
  end.
  cbn [fst snd] in *. rewrite Hl in Hlt.
  assert (idx < length (dict_keys mapping))%nat as Hidx.
  { apply Hlt. intros Hnil. rewrite Hnil in Hl. simpl in Hl. destruct mapping; done. }
  apply lookup_lt_is_Some_2 in Hidx as [it Hit]. rewrite Hit.
  apply list_elem_of_lookup_2 in Hit. unfold dict_keys in Hit.
  apply list_elem_of_fmap in Hit as (kv & -> & Hkv).
  rewrite Forall_forall in Hall. destruct (Hall kv Hkv) as [_ [s ->]]. by exists s.
Qed.
End SamplerFacts.



Section IntentFacts.
Context {R : Runtime}.

Lemma dict_set_wf {V} (d : list (pkey * V)) (k : pkey) (v : V) :
  dict_wf d → dict_wf (dict_set d k v).
Proof.
  unfold dict_wf. rewrite dict_keys_set. intros Hd.
  destruct (bool_decide (k ∈ dict_keys d)) eqn:E; [done|].
  apply bool_decide_eq_false_1 in E. apply NoDup_app. split; [done|].
  split; [|apply NoDup_singleton]. intros x Hx ->%list_elem_of_singleton. done.
Qed.

Lemma adjust_fold_wf (adj base out : list (pkey * pyval)) :
  dict_wf base → foldl adjust_step (Ok base) adj = Ok out → dict_wf out.
Proof.
  revert base. induction adj as [|[k v] adj IH]; intros base Hb H.
  - by injection H as <-.
  - cbn [foldl] in H.
    assert (adjust_step (Ok base) (k, v)
            = (q ← py_float v; old ← py_number (default (PFloat 0) (dict_get base k));
               Ok (dict_set base k (PFloat (old + q))))) as Hstep by done.
    rewrite Hstep in H.
    destruct (py_float v) as [q|e]; [|simpl in H; by rewrite adjust_step_Raise in H].
    destruct (py_number _) as [old|e]; [|simpl in H; by rewrite adjust_step_Raise in H].
    simpl in H. eapply IH; [|exact H]. by apply dict_set_wf.
Qed.

Lemma _apply_adjustments_wf (base out : list (pkey * pyval)) (adjustments : pyval) :
  dict_wf base → _apply_adjustments base adjustments = Ok out → dict_wf out.
Proof.
  intros Hb H.
  assert (_apply_adjustments base adjustments
          = (adj ← as_dict (py_or adjustments (PDict [])); foldl adjust_step (Ok base) adj))
    as Hfold by done.
  rewrite Hfold in H. destruct (as_dict _) as [adj|e]; [|done]. by eapply adjust_fold_wf.
Qed.

Lemma dicts_wf_get_parts (node : pyval) (parts : list string) (d : pyval) :
  dicts_wf node = true → dicts_wf d = true → dicts_wf (get_parts node parts d) = true.
Proof.
  revert node. induction parts as [|p rest IH]; intros node Hn Hd; [done|].
  simpl. destruct node; try done.
  destruct (dict_get d0 (KStr p)) as [v|] eqn:Hv; [|done].
  apply IH; [|done]. by eapply dicts_wf_get.
Qed.

Lemma base_table_wf (cfg : EffectiveConfig) (path : string) (w : list (pkey * pyval)) :
  dicts_wf (data cfg) = true → base_table cfg path = Ok w → dict_wf w.
Proof.
  intros Hcfg H. unfold base_table in H.
  assert (dicts_wf (py_or (get cfg path (PDict [])) (PDict [])) = true) as Hwf.
  { unfold py_or. destruct (py_truthy _); [|done]. by apply dicts_wf_get_parts. }
  destruct (py_or _ _) as [| | | | | | | |d]; try done. injection H as <-.
  simpl in Hwf. apply andb_true_iff in Hwf as [Hnd _]. by apply bool_decide_eq_true_1 in Hnd.
Qed.

Lemma _normalize_wf (weights : list (pkey * pyval)) (t : list (pkey * Q)) :
  dict_wf weights → _normalize weights = Ok t → dict_wf t.
Proof.
  intros Hw H. rewrite _normalize_normalize in H.
  destruct (weights_of weights) as [ws|e] eqn:Hws; [|done]. injection H as <-.
  unfold dict_wf. rewrite normalize_keys. by rewrite (weights_of_keys _ _ Hws).
Qed.

Lemma intent_weights_wf (ctx : Context) (cfg : EffectiveConfig) (w : list (pkey * Q)) :
  dicts_wf (data cfg) = true → intent_weights ctx cfg = Ok w → dict_wf w.
Proof.
  intros Hcfg H. unfold intent_weights in H. do 6 step_Ok H.
  eapply _normalize_wf; [|exact H].
  repeat match goal with
         | Hb : base_table _ _ = Ok _ |- _ => apply (base_table_wf _ _ _ Hcfg) in Hb
         | Ha : _apply_adjustments ?b _ = Ok ?o, Hb : dict_wf ?b |- _ =>
             apply (_apply_adjustments_wf _ _ _ Hb) in Ha
         | Ha : (if ?c then _ else _) = Ok ?o |- _ => destruct c; [|injection Ha as <-]
         end; done.
Qed.

Lemma dict_keys_table (w : list (pkey * Q)) : dict_keys (table w) = dict_keys w.
Proof. unfold table, dict_keys. rewrite map_map. by apply map_ext. Qed.

Lemma dict_pop_keys {V} (d : list (pkey * V)) (k : pkey) :
  dict_wf d →
  dict_wf (dict_pop d k) ∧ (k ∉ dict_keys (dict_pop d k))
  ∧ (∀ x, x ∈ dict_keys (dict_pop d k) → x ∈ dict_keys d)
  ∧ (k ∈ dict_keys d → (length (dict_pop d k) < length d)%nat).
Proof.
  unfold dict_wf, dict_keys. induction d as [|[k0 v0] d IH]; intros Hd.
  - simpl. repeat split; [constructor|apply not_elem_of_nil|done|by intros ?%elem_of_nil].
  - simpl in *. apply NoDup_cons in Hd as [Hk0 Hd]. unfold pkey_eqb.
    destruct (bool_decide (k0 = k)) eqn:E.
    + apply bool_decide_eq_true_1 in E as ->. repeat split; [done|done| |lia].
      intros x Hx. by right.
    + apply bool_decide_eq_false_1 in E. destruct (IH Hd) as (Hwf & Hk & Hsub & Hlen). simpl.
      repeat split.
      * apply NoDup_cons. split; [|done]. intros Hin. by apply Hk0, Hsub.
      * rewrite not_elem_of_cons. by split.
      * intros x [->|Hx]%elem_of_cons; [by left|right; by apply Hsub].
      * intros [?|Hin]%elem_of_cons; [congruence|]. specialize (Hlen Hin). lia.
Qed.

Lemma pick_intents_spec (ctx : Context) (rng : DeterministicRNG) (count : nat)
    (local_w : list (pkey * Q)) (chosen res : list string) :
  pick_intents ctx rng count local_w chosen = Ok res →
  dict_wf local_w → NoDup chosen → (∀ s, s ∈ chosen → KStr s ∉ dict_keys local_w) →
  NoDup res
  ∧ (length res ≤ length chosen + count)%nat
  ∧ (∀ s, s ∈ res → s ∈ chosen ∨ KStr s ∈ dict_keys local_w)
  ∧ (count ≠ 0%nat → local_w ≠ [] → (length chosen < length res)%nat)
  ∧ (length chosen ≤ length res)%nat.
Proof.
  revert local_w chosen. induction count as [|n IH]; intros local_w chosen H Hw Hc Hdisj.
  - injection H as <-. repeat split; [done|lia|by left|done|lia].
  - cbn [pick_intents] in H. destruct (Nat.eqb_spec (length local_w) 0) as [Hl|Hl].
    + injection H as <-. apply length_zero_iff_nil in Hl as ->.
      repeat split; [done|lia|by left|done|lia].
    + step_Ok H. rename a into pick.
      match goal with
      | Hp : _sample_from_weights _ _ _ = Ok pick |- _ =>
          apply _sample_from_weights_member in Hp; rewrite dict_keys_table in Hp;
          rename Hp into Hpick
      end.
      destruct (dict_pop_keys local_w (KStr pick) Hw) as (Hwf' & Hnotin & Hsub & _).
      apply IH in H as (Hnd & Hlen & Hmem & _ & Hge); [|done| |].
      * rewrite length_app in Hlen, Hge. simpl in Hlen, Hge.
        repeat split; [done|lia| |lia|lia].
        intros s Hs. destruct (Hmem s Hs) as [[?| ->%list_elem_of_singleton]%elem_of_app|?];
          [by left|by right|right; by apply Hsub].
      * apply NoDup_app. split; [done|]. split; [|apply NoDup_singleton].
        intros x Hx ->%list_elem_of_singleton. by apply (Hdisj _ Hx).
      * intros s [Hs| ->%list_elem_of_singleton]%elem_of_app; [|done].
        intros Hin. by apply (Hdisj s Hs), Hsub.
Qed.
End IntentFacts.

(** X11.  [sample_intent] returns one label or a list of two or three
    labels: the labels are pairwise distinct labels of the intent table, and
    with an empty intent table the result is ["Online-Banking"]. *)
Theorem sample_intent_distinct {R : Runtime} (ctx : Context) (cfg : EffectiveConfig)
    (rng : DeterministicRNG) (res : IntentResult) :
  dicts_wf (data cfg) = true →
  sample_intent ctx cfg rng = Ok res →
  ∃ w, intent_weights ctx cfg = Ok w
       ∧ match res with
         | IntentStr s =>
             match w with
             | [] => s = "Online-Banking"%string
             | _ => KStr s ∈ dict_keys w
             end
         | IntentList l =>
             (2 ≤ length l ≤ 3)%nat ∧ NoDup l ∧ Forall (fun s => KStr s ∈ dict_keys w) l
         end.
Proof.
  intros Hcfg H. unfold sample_intent in H. step_Ok H. rename a into w.
  exists w. split; [done|].
  pose proof (intent_weights_wf ctx cfg w Hcfg E) as Hw.
  destruct (Nat.eqb_spec (length w) 0) as [Hl|Hl].
  { injection H as <-. by apply length_zero_iff_nil in Hl as ->. }
  step_Ok H. step_Ok H.
  match goal with
  | Hp : pick_intents _ _ ?c _ _ = Ok ?ch |- _ =>
      rename ch into chosen;
      assert (1 ≤ c ≤ 3)%nat as Hcount by (repeat destruct (Qltb _ _); lia);
      apply pick_intents_spec in Hp as (Hnd & Hlen & Hmem & Hpos & _);
        [|done|constructor|by intros s ?%elem_of_nil]
  end.
  simpl in Hlen, Hpos.
  assert (0 < length chosen)%nat as Hpos'.
  { apply Hpos; [lia|]. intros ->. done. }
  assert (Forall (fun s => KStr s ∈ dict_keys w) chosen) as Hall.
  { apply Forall_forall. intros s Hs. by destruct (Hmem s Hs) as [?%elem_of_nil|?]. }
  destruct chosen as [|c1 [|c2 rest]]; [simpl in Hpos'; lia| |].
  - injection H as <-. destruct w; [done|]. by apply Forall_cons in Hall as [? _].
  - injection H as <-. split; [simpl in *; lia|done].
Qed.

Lemma sample_intent_distinct_witness :
  let ctx := {| date := monday; weekday := "Mon"; time_of_day_bucket := "Morning";
                agent_name := "Monika_Mueller"; team := "Team A"; agent_shift := "Early";
                customer_segment := "Standard"; channel := "voice"; region := "";
                language := ""; device_type := ""; outage_flag := false;
                app_issue_flag := false; premium_wait_peak := false; hour_lt_18 := true;
                intent := None |} in
  let cfg := {| data := PDict [(KStr "intents",
                                PDict [(KStr "base",
                                        PDict [(KStr "A", PFloat 1); (KStr "B", PFloat 1);
                                               (KStr "C", PFloat 1)])])] |} in
  let rng := {| global_seed := 39; _root := 39 |} in
  sample_intent (R := ref_runtime) ctx cfg rng = Ok (IntentList ["C"; "A"]%string)
  ∧ ∃ w, intent_weights ctx cfg = Ok w
         ∧ (2 ≤ length ["C"; "A"]%string ≤ 3)%nat
         ∧ NoDup ["C"; "A"]%string
         ∧ Forall (fun s => KStr s ∈ dict_keys w) ["C"; "A"]%string.
Proof.
  intros ctx cfg rng. split; [by vm_compute|].
  apply (sample_intent_distinct (R := ref_runtime) ctx cfg rng (IntentList ["C"; "A"]%string));
    by vm_compute.
Defined.

Section TableFacts.
Context {R : Runtime}.

Lemma choice_int_table_string_key (s : string) (v : pyval) (rest : list (pkey * pyval))
    (z : Z) (zs : list Z) (r : Gen) :
  mapR pkey_int (dict_keys ((KStr s, v) :: rest)) = Ok (z :: zs) →
  dict_get rest (KInt z) = None →
  choice_int_table ((KStr s, v) :: rest) r = Raise (KeyError (KInt z)).
Proof.
  intros Hkeys Hnone. unfold choice_int_table. rewrite Hkeys.
  cbn [mbind result_bind mapR]. unfold dict_index. cbn [dict_get].
  unfold pkey_eqb. rewrite bool_decide_eq_false_2 by done. by rewrite Hnone.
Qed.

Lemma draw_flags_spec (passes : list (pkey * pyval)) (r r' : Gen)
    (flags : list (pkey * string)) :
  draw_flags passes r = Ok (flags, r') →
  dict_keys flags = dict_keys passes
  ∧ Forall (fun kv => kv.2 = "pass"%string ∨ kv.2 = "fail"%string) flags.
Proof.
  revert r r' flags. induction passes as [|[k v] passes IH]; intros r r' flags H.
  - injection H as <- <-. by split.
  - cbn [draw_flags] in H. step_Ok H. destruct (gen_random r) as [u r1].
    step_Ok H. destruct a0 as [fl r2]. injection H as <- <-.
    match goal with Hd : draw_flags _ _ = Ok _ |- _ => apply IH in Hd as [Hk Hv] end.
    split; [unfold dict_keys in *; simpl; by rewrite Hk|].
    constructor; [|done]. simpl. destruct (Qltb _ _); auto.
Qed.

Lemma mapR_keys {A B} (f : pkey * A → result (pkey * B)) (l : list (pkey * A))
    (l' : list (pkey * B)) :
  (∀ kv kv', f kv = Ok kv' → kv'.1 = kv.1) →
  mapR f l = Ok l' → dict_keys l' = dict_keys l.
Proof.
  intros Hf H. apply mapR_Forall2 in H. unfold dict_keys.
  induction H as [|x y l l' Hxy _ IH]; [done|]. simpl. f_equal; [by apply Hf|done].
Qed.
End TableFacts.

(** X12.  The base NPS table is indexed by the integers that its keys
    convert to: when [nps.base_weights] has string keys (as a JSON file or
    quoted YAML keys give), [sample_nps] raises KeyError at the first key,
    before any draw. *)
Theorem sample_nps_string_keys {R : Runtime} (ctx : Context) (fcr : bool) (awt : Q)
    (cfg : EffectiveConfig) (rng : DeterministicRNG) (r : Gen)
    (s : string) (v : pyval) (rest : list (pkey * pyval)) (z : Z) (zs : list Z) :
  (∀ d, get cfg "nps.base_weights" d = PDict ((KStr s, v) :: rest)) →
  mapR pkey_int (dict_keys ((KStr s, v) :: rest)) = Ok (z :: zs) →
  dict_get rest (KInt z) = None →
  sample_nps ctx fcr awt cfg rng r = Raise (KeyError (KInt z)).
Proof.
  intros Hget Hkeys Hnone. unfold sample_nps. rewrite Hget. cbn [as_dict mbind result_bind].
  by rewrite (choice_int_table_string_key s v rest z zs r Hkeys Hnone).
Qed.

Lemma sample_nps_string_keys_witness :
  sample_nps (R := ref_runtime)
    {| date := monday; weekday := "Mon"; time_of_day_bucket := "Morning";
       agent_name := "Monika_Mueller"; team := "Team A"; agent_shift := "Early";
       customer_segment := "Standard"; channel := "voice"; region := ""; language := "";
       device_type := ""; outage_flag := false; app_issue_flag := false;
       premium_wait_peak := false; hour_lt_18 := true; intent := None |}
    true 0
    {| data := PDict [(KStr "nps", PDict [(KStr "base_weights",
                         PDict [(KStr "9", PFloat 1); (KStr "10", PFloat 1)])])] |}
    rng42 0
  = Raise (KeyError (KInt 9)).
Proof.
  apply (sample_nps_string_keys (R := ref_runtime) _ true 0 _ rng42 0
           "9" (PFloat 1) [(KStr "10", PFloat 1)] 9 [10]); [done|done|done].
Defined.

(** X13.  The compliance flags: one flag, [pass] or [fail], for every
    entry of [compliance.pass_rates], in their order; on an outage day the
    flag [Empathy] is there even when the pass rates do not list it. *)
Theorem sample_compliance_flags {R : Runtime} (ctx : Context) (cfg : EffectiveConfig)
    (rng : DeterministicRNG) (r r' : Gen) (comp : Compliance) :
  sample_compliance ctx cfg rng r = Ok (comp, r') →
  ∃ passes, as_dict (get cfg "compliance.pass_rates" (PDict [])) = Ok passes
    ∧ dict_keys (compliance_flags comp)
      = (if outage_flag ctx then dict_keys (dict_set passes (KStr "Empathy") PNone)
         else dict_keys passes)
    ∧ Forall (fun kv => kv.2 = "pass"%string ∨ kv.2 = "fail"%string) (compliance_flags comp)
    ∧ (outage_flag ctx = true → KStr "Empathy" ∈ dict_keys (compliance_flags comp)).
Proof.
  intros H. unfold sample_compliance in H.
  step_Ok H. rename a into passes. exists passes. split; [done|].
  do 4 step_Ok H.
  match goal with
  | Hm : mapR _ passes = Ok ?p |- _ => rename p into passes1; rename Hm into Hm1
  end.
  assert (dict_keys passes1 = dict_keys passes) as Hk1.
  { revert Hm1. apply mapR_keys. intros kv kv' Hkv. step_Ok Hkv. by injection Hkv as <-. }
  step_Ok H.
  match goal with
  | Hm : (if outage_flag ctx then _ else _) = Ok ?p |- _ =>
      rename p into passes2; rename Hm into Hm2
  end.
  assert (dict_keys passes2
          = if outage_flag ctx then dict_keys (dict_set passes (KStr "Empathy") PNone)
            else dict_keys passes) as Hk2.
  { destruct (outage_flag ctx); [|by injection Hm2 as <-].
    step_Ok Hm2. step_Ok Hm2. injection Hm2 as <-.
    rewrite !dict_keys_set. by rewrite Hk1. }
  step_Ok H.
  match goal with
  | Hm : (if String.eqb _ _ then _ else _) = Ok ?p |- _ =>
      rename p into passes3; rename Hm into Hm3
  end.
  assert (dict_keys passes3 = dict_keys passes2) as Hk3.
  { destruct (String.eqb _ _); [|by injection Hm3 as <-]. revert Hm3.
    apply mapR_keys. intros kv kv' Hkv. do 2 step_Ok Hkv. by injection Hkv as <-. }
  step_Ok H.
  match goal with
  | Hd : draw_flags _ _ = Ok ?p |- _ =>
      destruct p as [flags r1]; apply draw_flags_spec in Hd as [Hkf Hvf]
  end.
  do 3 step_Ok H.
  match goal with
  | Hn : np_normal _ _ _ = Ok ?p |- _ => destruct p as [v r2]
  end.
  destruct (gen_random r2) as [u1 r3]. destruct (gen_random r3) as [u2 r4].
  destruct (gen_random r4) as [u3 r5]. injection H as <- <-. cbn [compliance_flags].
  split; [by rewrite Hkf, Hk3, Hk2|]. split; [done|].
  intros Hout. rewrite Hkf, Hk3, Hk2, Hout, dict_keys_set.
  destruct (bool_decide _) eqn:Hin; [by apply bool_decide_eq_true_1 in Hin|].
  apply elem_of_app. right. by apply list_elem_of_singleton.
Qed.

Lemma sample_compliance_flags_witness :
  match sample_compliance (R := ref_runtime)
          {| date := monday; weekday := "Mon"; time_of_day_bucket := "Morning";
             agent_name := "Monika_Mueller"; team := "Team A"; agent_shift := "Early";
             customer_segment := "Standard"; channel := "voice"; region := ""; language := "";
             device_type := ""; outage_flag := true; app_issue_flag := false;
             premium_wait_peak := false; hour_lt_18 := true; intent := None |}
          {| data := PDict [] |} rng42 0 with
  | Ok (comp, _) => KStr "Empathy" ∈ dict_keys (compliance_flags comp)
  | Raise _ => False
  end.
Proof.
  destruct (sample_compliance _ _ _ _) as [[comp r']|e] eqn:H.
  - destruct (sample_compliance_flags (R := ref_runtime) _ _ _ _ _ _ H) as (? & _ & _ & _ & Hin).
    by apply Hin.
  - vm_compute in H. discriminate H.
Defined.

(* ===================================================================== *)
(** ** schema.py and io.py: what validation accepts *)
(* ===================================================================== *)

Lemma call_violations_required (call : Call) (k : string) :
  k ∈ CALL_SCHEMA_required → call !! k = None → (k, "required"%string) ∈ call_violations call.
Proof.
  intros Hk Hnone. unfold call_violations. apply elem_of_app. left.
  apply list_elem_of_In, in_flat_map. exists k. split; [by apply list_elem_of_In|].
  rewrite Hnone. by left.
Qed.

Lemma flat_map_ext_in {A B} (f g : A → list B) (l : list A) :
  (∀ a, a ∈ l → f a = g a) → flat_map f l = flat_map g l.
Proof.
  induction l as [|a l IH]; intros H; [done|]. simpl. rewrite (H a) by left.
  f_equal. apply IH. intros b Hb. apply H. by right.
Qed.

Lemma required_in_properties :
  Forall (fun k => k ∈ map fst CALL_SCHEMA_properties) CALL_SCHEMA_required.
Proof. apply (bool_decide_unpack _). by vm_compute. Qed.

(** A record that passed validation has no violation at any of its
    fields. *)
Lemma call_violations_field (call : Call) (k : string) (s : schema) (v : pyval) :
  call_violations call = [] → (k, s) ∈ CALL_SCHEMA_properties → call !! k = Some v →
  violations k s v = [].
Proof.
  intros Hv Hks Hk. unfold call_violations in Hv. apply app_eq_nil in Hv as [_ Hv].
  destruct (violations k s v) as [|x l] eqn:Hx; [done|]. exfalso.
  assert (x ∈ flat_map (fun ks : string * schema =>
                          match call !! ks.1 with
                          | Some x => violations ks.1 ks.2 x
                          | None => []
                          end) CALL_SCHEMA_properties) as Hin.
  { apply list_elem_of_In, in_flat_map. exists (k, s). split; [by apply list_elem_of_In|].
    simpl. rewrite Hk, Hx. by left. }
  rewrite Hv in Hin. by apply elem_of_nil in Hin.
Qed.

Lemma s_range_sound (path : string) (t : jtype) (lo hi : option Q) (v : pyval) :
  violations path (s_range t lo hi) v = [] →
  has_type v t = true
  ∧ ∀ q, number_of v = Some q →
         (∀ m, lo = Some m → (m <= q)%Q) ∧ (∀ m, hi = Some m → (q <= m)%Q).
Proof.
  unfold s_range. cbn [violations length Nat.eqb negb andb existsb orb].
  rewrite orb_false_r. intros H.
  apply app_eq_nil in H as [Ht H]. apply app_eq_nil in H as [_ H].
  apply app_eq_nil in H as [Hlo H]. apply app_eq_nil in H as [Hhi _].
  split; [by destruct (has_type v t)|].
  intros q Hq. rewrite Hq in Hlo, Hhi. split; intros m ->.
  - unfold fail_if in Hlo. destruct (Qltb q m) eqn:E; [done|]. by apply Qltb_false in E.
  - unfold fail_if in Hhi. destruct (Qltb m q) eqn:E; [done|]. by apply Qltb_false in E.
Qed.

Lemma s_enum_sound (path : string) (vals : list string) (v : pyval) :
  violations path (s_enum vals) v = [] → ∃ s, v = PStr s ∧ s ∈ vals.
Proof.
  unfold s_enum. cbn [violations length Nat.eqb negb andb existsb orb].
  intros H. apply app_eq_nil in H as [_ H]. apply app_eq_nil in H as [He _].
  destruct v; try done. exists s. split; [done|].
  unfold fail_if in He. destruct (existsb _ _) eqn:E; [|done].
  apply existsb_exists in E as (x & Hx & Heq). apply String.eqb_eq in Heq as ->.
  by apply list_elem_of_In.
Qed.

(** X14.  A record without the three suppressed fields never passes
    validation: whatever record the removal step is applied to on the text
    channel, [validate_against_schema] raises a ValidationError, and
    [write_call_json] with validation on raises it and writes nothing.
    (This is why [generate_dataset] turns validation off for the text
    channel.) *)
Theorem text_record_never_validates {R : Runtime} (ctx : Context) (call : Call)
    (st : RunState) :
  channel ctx = "text"%string →
  ∃ vs, validate_against_schema (suppress_text_fields ctx call) = Raise (ValidationError vs)
        ∧ exec (write_call_json (suppress_text_fields ctx call) true) st
          = (st, Raise (ValidationError vs)).
Proof.
  intros Hch. exists (call_violations (suppress_text_fields ctx call)).
  assert (call_violations (suppress_text_fields ctx call) ≠ []) as Hne.
  { intros Hnil.
    assert (("Hold_time", "required")%string ∈ call_violations (suppress_text_fields ctx call))
      as Hin.
    { apply call_violations_required; [unfold CALL_SCHEMA_required; repeat constructor|].
      apply suppress_text_fields_text; [done|]. unfold SUPPRESSED. repeat constructor. }
    rewrite Hnil in Hin. by apply elem_of_nil in Hin. }
  split; [|by apply write_call_json_invalid].
  unfold validate_against_schema. by destruct (call_violations _).
Qed.

Lemma text_record_never_validates_witness :
  ∃ vs, validate_against_schema
          (suppress_text_fields
             {| date := monday; weekday := "Mon"; time_of_day_bucket := "Morning";
                agent_name := "Monika_Mueller"; team := "Team A"; agent_shift := "Early";
                customer_segment := "Standard"; channel := "text"; region := "";
                language := ""; device_type := ""; outage_flag := false;
                app_issue_flag := false; premium_wait_peak := false; hour_lt_18 := true;
                intent := None |}
             (<["Hold_time"%string := PFloat 1]> ∅))
        = Raise (ValidationError vs).
Proof.
  destruct (text_record_never_validates (R := ref_runtime)
              {| date := monday; weekday := "Mon"; time_of_day_bucket := "Morning";
                 agent_name := "Monika_Mueller"; team := "Team A"; agent_shift := "Early";
                 customer_segment := "Standard"; channel := "text"; region := "";
                 language := ""; device_type := ""; outage_flag := false;
                 app_issue_flag := false; premium_wait_peak := false; hour_lt_18 := true;
                 intent := None |}
              (<["Hold_time"%string := PFloat 1]> ∅) (start_state []) eq_refl)
    as (vs & Hv & _).
  by exists vs.
Defined.

(** X15.  The schema constrains the fields it names and nothing else: a
    field that is not among its properties can be added to a record, with
    any value, without changing the outcome of validation. *)
Theorem schema_ignores_unknown_fields (call : Call) (k : string) (v : pyval) :
  k ∉ map fst CALL_SCHEMA_properties →
  call_violations (<[k := v]> call) = call_violations call
  ∧ validate_against_schema (<[k := v]> call) = validate_against_schema call.
Proof.
  intros Hk.
  assert (call_violations (<[k := v]> call) = call_violations call) as Heq.
  { unfold call_violations. f_equal.
    - apply flat_map_ext_in. intros k' Hk'. rewrite lookup_insert_ne; [done|].
      intros ->. apply Hk. pose proof required_in_properties as Hreq.
      rewrite Forall_forall in Hreq. by apply Hreq.
    - apply flat_map_ext_in. intros [k' s] Hk'. simpl. rewrite lookup_insert_ne; [done|].
      intros ->. apply Hk. apply list_elem_of_fmap. by exists (k', s). }
  split; [done|]. unfold validate_against_schema. by rewrite Heq.
Qed.

Lemma schema_ignores_unknown_fields_witness :
  call_violations (<["note"%string := PStr "x"]> ∅) = call_violations ∅.
Proof.
  apply (proj1 (schema_ignores_unknown_fields ∅ "note" (PStr "x")
                  ltac:(apply (bool_decide_unpack _); by vm_compute))).
Defined.

(* ===================================================================== *)
(** ** cli.py: every call of a run *)
(* ===================================================================== *)

Section EveryCall.
Context {R : Runtime} {L : RuntimeLaws R}.

Lemma for_each_inv_in {A} (I : RunState → Prop) (xs : list A) (body : A → run ()) :
  (∀ x st, x ∈ xs → I st → I (exec (body x) st).1) →
  ∀ st, I st → I (exec (for_each xs body) st).1.
Proof.
  induction xs as [|x xs IH]; intros Hbody st Hst; [done|].
  cbn [for_each]. rewrite exec_bind. pose proof (Hbody x st ltac:(left) Hst) as Hx.
  destruct (exec (body x) st) as [st1 [[]|e]]; [|done].
  apply IH; [|done]. intros y st2 Hy. apply Hbody. by right.
Qed.

Lemma as_str_Ok (k : pkey) (s : string) : as_str k = Ok s → k = KStr s.
Proof. destruct k; [by intros [= ->]|done]. Qed.

(** A property of the run state that the start of a run establishes and
    every call keeps holds when the run ends, whether it returns or
    raises. *)
Lemma generate_dataset_every_call (I : RunState → Prop) (cfg : EffectiveConfig)
    (start_date end_date : pydate) (seed : Z) (validate : bool) (fs : list File) :
  I (start_state fs) →
  (∀ rng day agent_name team shift_name bucket i st,
     call_site cfg start_date end_date seed rng day agent_name team shift_name bucket i →
     I st →
     I (exec (generate_call cfg seed validate rng day agent_name team shift_name bucket i) st).1) →
  I (final_state cfg start_date end_date seed validate fs).
Proof.
  intros Hstart Hcall. unfold final_state, generate_dataset. rewrite exec_lift_bind.
  destruct (DeterministicRNG_init seed) as [rng|e] eqn:Hrng; [|done].
  rewrite exec_lift_bind.
  destruct (calendar.make_calendar _ _ _ _) as [days|e] eqn:Hdays; [|done].
  rewrite exec_bind. cbn [new_cache exec].
  change {| ani_cache := ∅; cache_writes := []; files := files (start_state fs) |}
    with (start_state fs).
  apply for_each_inv_in; [|done]. intros day sa Hday Ha.
  apply (lift_bind_inv I); [|done]. intros day_rng sa1 _ Ha1.
  apply (lift_bind_inv I); [|done]. intros vol sa2 Hvol Ha2.
  apply (lift_bind_inv I); [|done]. intros by_agent sa3 Hagents Ha3.
  apply for_each_inv_in; [|done]. intros [ak ac] sb Hagent Hb.
  apply (lift_bind_inv I); [|done]. intros agent_name sb1 Hak Hb1.
  apply as_str_Ok in Hak. simpl in Hak. subst ak.
  apply (lift_bind_inv I); [|done]. intros by_shift sb2 Hshifts Hb2.
  apply (lift_bind_inv I); [|done]. intros team sb3 Hteam Hb3.
  apply for_each_inv_in; [|done]. intros [sk sc] sc0 Hshift Hc.
  apply (lift_bind_inv I); [|done]. intros shift_name sc1 Hsk Hc1.
  apply as_str_Ok in Hsk. simpl in Hsk. subst sk.
  apply (lift_bind_inv I); [|done]. intros by_bucket sc2 Hbuckets Hc2.
  apply for_each_inv_in; [|done]. intros [bk bn] sd Hbucket Hd.
  apply (lift_bind_inv I); [|done]. intros bucket sd1 Hbk Hd1.
  apply as_str_Ok in Hbk. simpl in Hbk. subst bk.
  apply for_each_inv_in; [|done]. intros i se Hi He.
  apply Hcall; [|done]. split; [done|].
  exists days, vol, by_agent, ac, by_shift, sc, by_bucket, bn.
  apply elem_of_py_range in Hi. cbn [fst snd] in Hshifts, Hbuckets, Hi. repeat split; try done; lia.
Qed.

(** What one call does to the files: nothing, or one file whose record is
    the one assembled by the three steps of the loop body. *)
Lemma generate_call_written (cfg : EffectiveConfig) (seed : Z) (validate : bool)
    (rng : DeterministicRNG) (day : calendar.DayPlan)
    (agent_name team shift_name bucket : string) (i : Z) (st : RunState) :
  let st' := (exec (generate_call cfg seed validate rng day agent_name team shift_name bucket i)
                st).1 in
  files st' = files st
  ∨ ∃ s det call0 call st1 f,
      call_upto_nps cfg seed rng day agent_name team shift_name bucket i = Ok s
      ∧ DeterministicRNG_init seed = Ok det
      ∧ exec (call_identity det s) st = (st1, Ok call0)
      ∧ files st1 = files st
      ∧ call_after_identity cfg det s call0 = Ok call
      ∧ file_call f = call
      ∧ (∃ id, call !! "call_id"%string = Some (PStr id)
               ∧ file_name f = (id +:+ ".json")%string)
      ∧ files st' = files st ++ [f]
      ∧ ani_cache st' = ani_cache st1.
Proof.
  unfold generate_call. rewrite exec_lift_bind.
  destruct (call_upto_nps _ _ _ _ _ _ _ _ _) as [s|e] eqn:Hs; [|by left].
  rewrite exec_lift_bind. destruct (DeterministicRNG_init seed) as [det|e] eqn:Hdet; [|by left].
  rewrite exec_bind. destruct (exec (call_identity det s) st) as [st1 out1] eqn:Hid.
  assert (files st1 = files st) as Hfiles1.
  { revert Hid. unfold call_identity. rewrite exec_bind. cbn [cache_lookup exec].
    destruct (ani_cache st !! _); [by intros [= <- _]|].
    rewrite exec_lift_bind. destruct (generate_german_ani _ _); [|by intros [= <- _]].
    rewrite exec_bind. cbn [cache_store exec]. by intros [= <- _]. }
  destruct out1 as [call0|e]; [|left; by rewrite <- Hfiles1].
  rewrite exec_lift_bind.
  destruct (call_after_identity cfg det s call0) as [call|e] eqn:Hafter;
    [|left; by rewrite <- Hfiles1].
  rewrite exec_bind.
  destruct (exec (write_call_json call _) st1) as [st2 out2] eqn:Hw.
  unfold write_call_json in Hw. rewrite exec_lift_bind in Hw.
  match type of Hw with
  | context [if ?c then validate_against_schema call else Ok ()] =>
      destruct (if c then validate_against_schema call else Ok ()) as [[]|e];
        [|injection Hw as <- <-; left; by rewrite <- Hfiles1]
  end.
  rewrite exec_lift_bind in Hw.
  destruct (mbind _ (call_str call "date")) as [d|e];
    [|injection Hw as <- <-; left; by rewrite <- Hfiles1].
  rewrite exec_lift_bind in Hw. unfold call_str in Hw.
  destruct (call !! "call_id"%string) as [[| | | |id| | | |]|] eqn:Hcid;
    try (injection Hw as <- <-; left; by rewrite <- Hfiles1).
  rewrite exec_bind in Hw. cbn [write_file exec mret run_mret run_ret] in Hw.
  injection Hw as <- <-. cbn [exec mret run_mret run_ret fst files ani_cache].
  right. exists s, det, call0, call, st1, {| file_dir := out_dir_for_date d;
    file_name := (id +:+ ".json")%string; file_call := call |}.
  rewrite Hfiles1. repeat split; try done. by exists id.
Qed.

(** A property of records that every written record has, holds of all the
    files of a run. *)
Lemma run_files_every_record (P : File → Prop) (cfg : EffectiveConfig)
    (start_date end_date : pydate) (seed : Z) (validate : bool) (fs : list File) :
  (∀ rng day agent_name team shift_name bucket i st s det call0 st1 f,
     call_site cfg start_date end_date seed rng day agent_name team shift_name bucket i →
     call_upto_nps cfg seed rng day agent_name team shift_name bucket i = Ok s →
     DeterministicRNG_init seed = Ok det →
     exec (call_identity det s) st = (st1, Ok call0) →
     call_after_identity cfg det s call0 = Ok (file_call f) →
     (∃ id, file_call f !! "call_id"%string = Some (PStr id)
            ∧ file_name f = (id +:+ ".json")%string) →
     P f) →
  Forall P (run_files cfg start_date end_date seed validate fs).
Proof.
  intros HP. unfold run_files.
  apply (generate_dataset_every_call
           (fun st => (length fs ≤ length (files st))%nat ∧ Forall P (drop (length fs) (files st)))).
  - simpl. split; [done|]. by rewrite drop_all.
  - intros rng day agent_name team shift_name bucket i st Hsite [Hlen Hall].
    destruct (generate_call_written cfg seed validate rng day agent_name team shift_name bucket
                i st) as [->|(s & det & call0 & call & st1 & f & Hs & Hdet & Hid & _ & Hafter
                               & Hf & Hname & -> & _)]; [done|].
    split; [rewrite length_app; lia|].
    rewrite drop_app_le by done. apply Forall_app. split; [done|].
    constructor; [|done]. subst call. by eapply HP.
Qed.
End EveryCall.

(* ===================================================================== *)
(** ** cli.py: the fields of the records of a run *)
(* ===================================================================== *)

Section FieldFacts.
Context {R : Runtime} {L : RuntimeLaws R}.

Lemma sample_resolution_spec (ctx : Context) (intent scenario : string) (cfg : EffectiveConfig)
    (rng : DeterministicRNG) (fcr : bool) (r : Gen) :
  let res := (sample_resolution ctx intent scenario cfg rng fcr r).1 in
  (fcr = true ↔ escalation res = "None"%string)
  ∧ escalation res ∈ ["None"; "Supervisor"; "Backoffice"; "IT Ticket"]%string
  ∧ complaint_category res ∈ ["WaitTime"; "TechnicalIssue"; "Fees"]%string.
Proof.
  unfold sample_resolution. destruct (gen_random r) as [u r1].
  destruct (gen_random r1) as [u2 r2].
  destruct fcr; cbn [negb andb];
    [|destruct (String.eqb intent "Online-Banking" || String.eqb intent "Technical Support");
      [|destruct (Qltb u2 (2 # 10))]];
    cbn [fst escalation complaint_category];
    (split; [split; done|]); (split; [repeat constructor|]);
    destruct (premium_wait_peak ctx && String.eqb (channel ctx) "voice"); repeat constructor.
Qed.

Lemma sample_products_spec (ctx : Context) (cfg : EffectiveConfig) (rng : DeterministicRNG)
    (p : Products) :
  sample_products ctx cfg rng = Ok p →
  (amount_bucket p = None ↔ product p ∉ ["Transfer"; "Loan"; "Hypothek"]%string).
Proof.
  intros H. unfold sample_products in H. do 3 step_Ok H. injection H as <-. simpl.
  match goal with
  | Hc : (if ?c then _ else _) = Ok _ |- _ =>
      assert (c = true ↔ a0 ∈ ["Transfer"; "Loan"; "Hypothek"]%string) as Hiff
        by (rewrite !orb_true_iff, !String.eqb_eq, !elem_of_cons, elem_of_nil; tauto);
      destruct c
  end.
  - match goal with Hf : fmap _ _ = Ok _ |- _ => bind_inv Hf; injection Hf as <- end.
    split; [done|]. intros Hn. exfalso. apply Hn. by apply Hiff.
  - match goal with Hf : Ok None = Ok _ |- _ => injection Hf as <- end.
    split; [|done]. intros _ Hin. apply Hiff in Hin. done.
Qed.

Lemma sample_automation_spec (ctx : Context) (cfg : EffectiveConfig) (rng : DeterministicRNG)
    (r r' : Gen) (a : Automation) :
  sample_automation ctx cfg rng r = Ok (a, r') →
  (automation_action_type a = None ↔ automation_action_present a = false).
Proof.
  intros H. unfold sample_automation in H. repeat step_Ok H.
  match goal with
  | Hp : (if ?c then _ else _) = Ok ?t |- _ =>
      injection H as <- <-; cbn [automation_action_type automation_action_present];
      destruct c; [bind_inv Hp; injection Hp as <-; by split|injection Hp as <-; by split]
  end.
Qed.

Lemma sample_silence_total_nonneg (ctx : Context) (scenario : string) (nps : Z)
    (cfg : EffectiveConfig) (r r' : Gen) (q : Q) :
  sample_silence_total_seconds ctx scenario nps cfg r = Ok (q, r') → (0 <= q)%Q.
Proof.
  intros H. unfold sample_silence_total_seconds in H. repeat step_Ok H.
  injection H as <- <-. apply (py_round_lower _ 2 0).
  match goal with
  | Ht : _trunc_normal _ _ _ 0 = Ok (?v, _) |- (_ <= ?v)%Q =>
      exact (_trunc_normal_lower _ _ _ _ _ _ Ht)
  end.
Qed.
End FieldFacts.

Section RecordsOfRun.
Context {R : Runtime} {L : RuntimeLaws R}.

(** The fields set before the identity step reach the written record as
    they were set, the three of the identity step apart. *)
Lemma record_early_frame (cfg : EffectiveConfig) (seed : Z) (rng : DeterministicRNG)
    (day : calendar.DayPlan) (agent_name team shift_name bucket : string) (i : Z)
    (s : Sampled) (det : DeterministicRNG) (st st1 : RunState) (call0 call : Call) :
  call_upto_nps cfg seed rng day agent_name team shift_name bucket i = Ok s →
  exec (call_identity det s) st = (st1, Ok call0) →
  call_after_identity cfg det s call0 = Ok call →
  ∀ k, k ∉ LATE_FIELDS → k ≠ "ANI"%string → k ≠ "region"%string → k ≠ "language"%string →
       call !! k = s_call s !! k.
Proof.
  intros Hs Hid Hafter k Hk H1 H2 H3.
  apply call_upto_nps_spec in Hs as (_ & _ & _ & Hreg & Hlang & _).
  pose proof (call_identity_spec det s st st1 _ Hreg Hlang Hid) as Hspec. cbv zeta in Hspec.
  destruct Hspec as [[_ [e He]]|(c0 & m & Hc0 & _ & _ & _ & _ & Hframe & _)]; [done|].
  injection Hc0 as <-.
  apply call_after_identity_spec in Hafter as (Hlate & _).
  rewrite Hlate by done. by apply Hframe.
Qed.

Lemma call_upto_nps_header (cfg : EffectiveConfig) (seed : Z) (rng : DeterministicRNG)
    (day : calendar.DayPlan) (agent_name team shift_name bucket : string) (i : Z)
    (s : Sampled) :
  call_upto_nps cfg seed rng day agent_name team shift_name bucket i = Ok s →
  (∃ id, s_call s !! "call_id"%string = Some (PStr id) ∧ is_uuid4 id = true)
  ∧ s_call s !! "date"%string = Some (PStr (isoformat (calendar.date day)))
  ∧ s_call s !! "weekday"%string = Some (PStr (calendar.weekday day))
  ∧ s_call s !! "agent_name"%string = Some (PStr agent_name)
  ∧ s_call s !! "team"%string = Some (PStr team)
  ∧ (∃ fcr esc,
       s_call s !! "FCR"%string = Some (PBool fcr)
       ∧ s_call s !! "escalation"%string = Some (PStr esc)
       ∧ (fcr = true ↔ esc = "None"%string)
       ∧ esc ∈ ["None"; "Supervisor"; "Backoffice"; "IT Ticket"]%string).
Proof.
  intros H. unfold call_upto_nps in H. repeat step_Ok H. injection H as <-.
  match goal with
  | Hu : uuid4_deterministic _ _ = Ok _ |- _ => apply uuid4_deterministic_shape in Hu as [Hu _]
  end.
  match goal with
  | Hr : sample_resolution ?c ?it ?sc ?cf ?d ?f ?r = _ |- _ =>
      pose proof (sample_resolution_spec c it sc cf d f r) as Hres; rewrite Hr in Hres;
      cbn [fst] in Hres; destruct Hres as (Hfcr & Hesc & _)
  end.
  cbn [s_call s_ctx s_seg s_scenario update foldl ops_items resolution_items nps_items fst snd
       set_intent set_geo set_channel set_customer_segment channel region language].
  split; [|split; [|split; [|split; [|split]]]].
  - eexists. split; [by lookup_through|done].
  - by lookup_through.
  - by lookup_through.
  - by lookup_through.
  - by lookup_through.
  - eexists _, _. split; [by lookup_through|]. split; [by lookup_through|]. by split.
Qed.

Lemma call_after_identity_late (cfg : EffectiveConfig) (det : DeterministicRNG) (s : Sampled)
    (call0 call : Call) :
  call_after_identity cfg det s call0 = Ok call →
  (∃ prod,
     call !! "product"%string = Some (PStr prod)
     ∧ (call !! "amount_bucket"%string = Some PNone
        ↔ prod ∉ ["Transfer"; "Loan"; "Hypothek"]%string))
  ∧ (∃ present,
       call !! "automation_action_present"%string = Some (PBool present)
       ∧ (call !! "automation_action_type"%string = Some PNone ↔ present = false))
  ∧ (∃ q, call !! "Silence_total_seconds"%string = Some (PFloat q) ∧ (0 <= q)%Q).
Proof.
  intros H. unfold call_after_identity in H. repeat step_Ok H. injection H as <-.
  match goal with
  | Hp : sample_products _ _ _ = Ok _ |- _ => apply sample_products_spec in Hp as Hprod
  end.
  match goal with
  | Ha : sample_automation _ _ _ _ = Ok _ |- _ => apply sample_automation_spec in Ha as Hauto
  end.
  match goal with
  | Hsil : sample_silence_total_seconds _ _ _ _ _ = Ok _ |- _ =>
      apply sample_silence_total_nonneg in Hsil
  end.
  cbn [update foldl products_items automation_items compliance_items fst snd].
  split; [|split].
  - eexists. split; [by lookup_through|]. lookup_through. rewrite <- Hprod.
    destruct (amount_bucket _); cbn [opt_str]; split; intros Hx; congruence.
  - eexists. split; [by lookup_through|]. lookup_through. rewrite <- Hauto.
    destruct (automation_action_type _); cbn [opt_str]; split; intros Hx; congruence.
  - eexists. split; [by lookup_through|done].
Qed.

(** X17.  Every file a run writes, whether the run returns or raises later,
    holds a record whose derived fields agree: [escalation] is "None"
    exactly when [FCR] is true and is otherwise one of the three escalation
    targets; [amount_bucket] is null exactly when [product] is none of
    Transfer, Loan and Hypothek; [automation_action_type] is null exactly
    when [automation_action_present] is false; [Silence_total_seconds] is
    not negative. *)
Theorem run_records_cross_fields (cfg : EffectiveConfig) (start_date end_date : pydate)
    (seed : Z) (validate : bool) (fs : list File) :
  Forall (fun f => cross_field_consistent (file_call f))
         (run_files cfg start_date end_date seed validate fs).
Proof.
  apply run_files_every_record.
  intros rng day agent_name team shift_name bucket i st s det call0 st1 f _ Hs Hdet Hid Hafter _.
  pose proof (record_early_frame _ _ _ _ _ _ _ _ _ _ _ _ _ _ _ Hs Hid Hafter) as Hframe.
  apply call_upto_nps_header in Hs as (_ & _ & _ & _ & _ & fcr & esc & Hf & He & Hiff & Hin).
  apply call_after_identity_late in Hafter as (Hp & Ha & Hq).
  split; [|done].
  exists fcr, esc. rewrite !Hframe by first [done | unfold LATE_FIELDS; not_in_fields]. done.
Qed.

(** X18.  Every file a run writes is named after the [call_id] of its
    record, which has the form of a version-4 UUID; the record's date is the
    ISO form of a day between the start and the end date, its weekday is the
    label of that date, and its team is the one [team_of] reads from the
    configuration for the record's agent. *)
Theorem run_records_provenance (cfg : EffectiveConfig) (start_date end_date : pydate)
    (seed : Z) (validate : bool) (fs : list File) :
  Forall (record_provenance cfg start_date end_date)
         (run_files cfg start_date end_date seed validate fs).
Proof.
  apply run_files_every_record.
  intros rng day agent_name team shift_name bucket i st s det call0 st1 f Hsite Hs Hdet Hid
    Hafter (id' & Hid' & Hname).
  pose proof (record_early_frame _ _ _ _ _ _ _ _ _ _ _ _ _ _ _ Hs Hid Hafter) as Hframe.
  apply call_upto_nps_header in Hs as ((id & Hcid & Huuid) & Hdate & Hwd & Hag & Hteam & _).
  destruct Hsite as (_ & days & vol & by_agent & ac & by_shift & sc & by_bucket & n & Hcal
                     & Hday & _ & _ & _ & _ & Ht & _).
  apply (make_calendar_day _ _ _ _ _ _ Hcal) in Hday as (Hrange & Hlabel & _).
  rewrite Hframe in Hid' by first [done | unfold LATE_FIELDS; not_in_fields].
  rewrite Hcid in Hid'. injection Hid' as <-.
  exists id, (calendar.date day), agent_name, team.
  rewrite !Hframe by first [done | unfold LATE_FIELDS; not_in_fields].
  rewrite <- Hlabel. done.
Qed.
End RecordsOfRun.

Lemma run_records_cross_fields_witness :
  length (run_files cfg_voice monday monday 42 true []) = 2%nat
  ∧ Forall (fun f => cross_field_consistent (file_call f))
      (run_files cfg_voice monday monday 42 true []).
Proof.
  split; [by vm_compute|].
  apply (run_records_cross_fields (R := ref_runtime) cfg_voice monday monday 42 true []).
Defined.

Lemma run_records_provenance_witness :
  length (run_files cfg_voice monday monday 42 true []) = 2%nat
  ∧ Forall (record_provenance cfg_voice monday monday)
      (run_files cfg_voice monday monday 42 true []).
Proof.
  split; [by vm_compute|].
  apply (run_records_provenance (R := ref_runtime) cfg_voice monday monday 42 true []).
Defined.

(* ===================================================================== *)
(** ** cli.py: how many files a run writes *)
(* ===================================================================== *)

Section FilesOfRun.
Context {R : Runtime} {L : RuntimeLaws R}.

Lemma Zsum_ones {A} (l : list A) : Zsum (map (fun _ => 1) l) = Z.of_nat (length l).
Proof. induction l as [|x l IH]; [done|]. cbn [map length]. unfold Zsum in *. simpl. lia. Qed.

Lemma dict_value_nonneg (m : list (pkey * Z)) (k : pkey) (c : Z) :
  Forall (fun c => 0 ≤ c) (dict_values m) → (k, c) ∈ m → 0 ≤ c.
Proof.
  intros Hall Hin. apply (proj1 (Forall_forall _ _) Hall). apply list_elem_of_In, in_map_iff.
  exists (k, c). split; [done|by apply list_elem_of_In].
Qed.

Lemma estimated_total_nonneg (cfg : EffectiveConfig) (rng : DeterministicRNG)
    (days : list calendar.DayPlan) (vols : list DailyVolumePlan) :
  Forall2 (fun day vol => estimate_daily_volume day cfg rng = Ok vol) days vols →
  0 ≤ Zsum (map estimated vols).
Proof.
  induction 1 as [|day vol days' vols' Hvol _ IH]; [done|].
  apply estimate_daily_volume_nonneg in Hvol. cbn [map]. unfold Zsum in *. simpl. lia.
Qed.

(** A loop that returns has added, to the files written, the sum of what its
    body added at each element. *)
Lemma for_each_count {A} (xs : list A) (body : A → run ()) (c : A → Z) :
  (∀ x s s', x ∈ xs → exec (body x) s = (s', Ok ()) →
     Z.of_nat (length (files s')) = Z.of_nat (length (files s)) + c x) →
  ∀ st st', exec (for_each xs body) st = (st', Ok ()) →
    Z.of_nat (length (files st')) = Z.of_nat (length (files st)) + Zsum (map c xs).
Proof.
  induction xs as [|x xs IH]; intros Hbody st st'.
  - simpl. intros [= <-]. lia.
  - cbn [for_each]. rewrite exec_bind.
    destruct (exec (body x) st) as [st1 [[]|e]] eqn:Hx; [|intros Hr; discriminate Hr].
    intros Hrest. apply IH in Hrest; [|intros y s s' Hy; apply Hbody; by right].
    apply Hbody in Hx; [|by left]. cbn [map]. unfold Zsum in *. simpl. lia.
Qed.

Lemma for_each_count_rel {A B} (xs : list A) (body : A → run ()) (P : A → B → Prop)
    (c : B → Z) :
  (∀ x s s', x ∈ xs → exec (body x) s = (s', Ok ()) →
     ∃ b, P x b ∧ Z.of_nat (length (files s')) = Z.of_nat (length (files s)) + c b) →
  ∀ st st', exec (for_each xs body) st = (st', Ok ()) →
    ∃ bs, Forall2 P xs bs
          ∧ Z.of_nat (length (files st')) = Z.of_nat (length (files st)) + Zsum (map c bs).
Proof.
  induction xs as [|x xs IH]; intros Hbody st st'.
  - simpl. intros [= <-]. exists []. split; [constructor|simpl; lia].
  - cbn [for_each]. rewrite exec_bind.
    destruct (exec (body x) st) as [st1 [[]|e]] eqn:Hx; [|intros Hr; discriminate Hr].
    intros Hrest. apply IH in Hrest as (bs & Hbs & Hlen);
      [|intros y s s' Hy; apply Hbody; by right].
    apply Hbody in Hx as (b & Hb & Hlen1); [|by left].
    exists (b :: bs). split; [by constructor|]. cbn [map]. unfold Zsum in *. simpl. lia.
Qed.

(** A call that goes through has written one file. *)
Lemma generate_call_Ok_one (cfg : EffectiveConfig) (seed : Z) (validate : bool)
    (rng : DeterministicRNG) (day : calendar.DayPlan)
    (agent_name team shift_name bucket : string) (i : Z) (st st' : RunState) :
  exec (generate_call cfg seed validate rng day agent_name team shift_name bucket i) st
  = (st', Ok ()) →
  Z.of_nat (length (files st')) = Z.of_nat (length (files st)) + 1.
Proof.
  unfold generate_call. rewrite exec_lift_bind.
  destruct (call_upto_nps _ _ _ _ _ _ _ _ _) as [s|e]; [|intros Hr; discriminate Hr].
  rewrite exec_lift_bind.
  destruct (DeterministicRNG_init seed) as [det|e]; [|intros Hr; discriminate Hr].
  rewrite exec_bind. destruct (exec (call_identity det s) st) as [st1 out1] eqn:Hid.
  assert (files st1 = files st) as Hfiles1.
  { revert Hid. unfold call_identity. rewrite exec_bind. cbn [cache_lookup exec].
    destruct (ani_cache st !! _); [by intros [= <- _]|].
    rewrite exec_lift_bind. destruct (generate_german_ani _ _); [|by intros [= <- _]].
    rewrite exec_bind. cbn [cache_store exec]. by intros [= <- _]. }
  destruct out1 as [call0|e]; [|intros Hr; discriminate Hr].
  rewrite exec_lift_bind.
  destruct (call_after_identity cfg det s call0) as [call|e]; [|intros Hr; discriminate Hr].
  rewrite exec_bind.
  destruct (exec (write_call_json call _) st1) as [st2 out2] eqn:Hw.
  apply write_call_json_spec in Hw as [[-> [e ->]]|(dir & name & -> & -> & _)];
    [intros Hr; discriminate Hr|].
  cbn [exec mret run_mret run_ret]. intros [= <-]. cbn [files].
  rewrite length_app, Hfiles1. simpl. lia.
Qed.

(** X19.  A run that returns has written one record for every call of the
    plan: the number of writes of [write_call_json] during the run is the
    sum, over the days of the calendar, of the estimated volume of the day;
    no call is skipped and none is written twice. *)
Theorem returned_run_writes_every_call (cfg : EffectiveConfig) (start_date end_date : pydate)
    (seed : Z) (validate : bool) (fs : list File) :
  run_outcome cfg start_date end_date seed validate fs = Ok () →
  ∃ rng days vols,
    DeterministicRNG_init seed = Ok rng
    ∧ calendar.make_calendar start_date end_date cfg rng = Ok days
    ∧ Forall2 (fun day vol => estimate_daily_volume day cfg rng = Ok vol) days vols
    ∧ Z.of_nat (length (run_files cfg start_date end_date seed validate fs))
      = Zsum (map estimated vols).
Proof.
  unfold run_outcome, run_files, final_state.
  destruct (exec (generate_dataset cfg start_date end_date seed validate) (start_state fs))
    as [stf out] eqn:Hrun.
  cbn [fst snd]. intros ->. revert Hrun. unfold generate_dataset. rewrite exec_lift_bind.
  destruct (DeterministicRNG_init seed) as [rng|e] eqn:Hrng; [|intros Hr; discriminate Hr].
  rewrite exec_lift_bind.
  destruct (calendar.make_calendar _ _ _ _) as [days|e] eqn:Hdays; [|intros Hr; discriminate Hr].
  rewrite exec_bind. cbn [new_cache exec]. intros Hloop.
  apply (for_each_count_rel days _ (fun day vol => estimate_daily_volume day cfg rng = Ok vol)
           estimated) in Hloop as (vols & Hvols & Hlen).
  { exists rng, days, vols. split; [done|]. split; [done|]. split; [done|].
    rewrite length_drop. unfold start_state in Hlen. cbn [files] in Hlen.
    pose proof (estimated_total_nonneg _ _ _ _ Hvols). lia. }
  intros day s s' _. rewrite exec_lift_bind.
  destruct (seed_for _ _) as [day_rng|e]; [|intros Hr; discriminate Hr].
  rewrite exec_lift_bind.
  destruct (estimate_daily_volume day cfg rng) as [vol|e] eqn:Hvol; [|intros Hr; discriminate Hr].
  rewrite exec_lift_bind.
  destruct (split_by_agent _ _ _ _) as [by_agent|e] eqn:Hag; [|intros Hr; discriminate Hr].
  intros Hagents. exists vol. split; [done|].
  pose proof (estimate_daily_volume_nonneg _ _ _ _ Hvol) as Hnn.
  destruct (split_by_agent_conserves _ _ _ _ _ Hnn Hag) as [Hsum Hpos].
  rewrite <- Hsum. unfold dict_values.
  apply (for_each_count by_agent _ snd) in Hagents; [done|].
  intros [ak ac] sa sa' Hin. cbn [fst snd].
  pose proof (dict_value_nonneg _ _ _ Hpos Hin) as Hac.
  rewrite exec_lift_bind. destruct (as_str ak) as [agent_name|e]; [|intros Hr; discriminate Hr].
  rewrite exec_lift_bind.
  destruct (split_by_shift _ _ _ _) as [by_shift|e] eqn:Hsh; [|intros Hr; discriminate Hr].
  rewrite exec_lift_bind. destruct (team_of _ _) as [team|e]; [|intros Hr; discriminate Hr].
  intros Hshifts.
  destruct (split_by_shift_conserves _ _ _ _ _ Hac Hsh) as [Hsum2 Hpos2].
  rewrite <- Hsum2. unfold dict_values.
  apply (for_each_count by_shift _ snd) in Hshifts; [done|].
  intros [sk sc] sb sb' Hin2. cbn [fst snd].
  pose proof (dict_value_nonneg _ _ _ Hpos2 Hin2) as Hsc.
  rewrite exec_lift_bind. destruct (as_str sk) as [shift_name|e]; [|intros Hr; discriminate Hr].
  rewrite exec_lift_bind.
  destruct (split_by_time_buckets _ _ _ _) as [by_bucket|e] eqn:Hbk;
    [|intros Hr; discriminate Hr].
  intros Hbuckets.
  destruct (split_by_time_buckets_conserves _ _ _ _ _ Hsc Hbk) as [Hsum3 Hpos3].
  rewrite <- Hsum3. unfold dict_values.
  apply (for_each_count by_bucket _ snd) in Hbuckets; [done|].
  intros [bk bn] sc0 sc0' Hin3. cbn [fst snd].
  pose proof (dict_value_nonneg _ _ _ Hpos3 Hin3) as Hbn.
  rewrite exec_lift_bind. destruct (as_str bk) as [bucket|e]; [|intros Hr; discriminate Hr].
  intros Hcalls.
  apply (for_each_count (py_range 0 bn) _ (fun _ => 1)) in Hcalls.
  - rewrite Hcalls, Zsum_ones. unfold py_range. rewrite length_map, length_seq. lia.
  - intros i sd sd' _. apply generate_call_Ok_one.
Qed.

End FilesOfRun.

Lemma returned_run_writes_every_call_witness :
  ∃ rng days vols,
    DeterministicRNG_init 42 = Ok rng
    ∧ calendar.make_calendar monday monday cfg_voice rng = Ok days
    ∧ Forall2 (fun day vol => estimate_daily_volume day cfg_voice rng = Ok vol) days vols
    ∧ Z.of_nat (length (run_files cfg_voice monday monday 42 true []))
      = Zsum (map estimated vols).
Proof.
  apply (returned_run_writes_every_call (R := ref_runtime) cfg_voice monday monday 42 true []).
  by vm_compute.
Defined.

